(** * Swap provisioning engine of [swap_manager.py]

    A shallow embedding of the two provisioners of [src/swap_manager.py]
    ([SwapManager] for partitions, [SwapFileManager] for swap files) together
    with the pieces of the Python runtime they rely on: [str] methods, the
    three regular expressions of the module, [float()] and [int()].

    Conventions of the embedding.
    - A Python [str] is a [string].  The functions are those of Python
      on ASCII text; of the characters beyond it the model knows only
      the superscript digits one, two and three, which [str.isdigit]
      accepts and [int()] refuses.  Other text - the digits of other
      scripts, which [\d], [float()] and [int()] read, and the letters
      that match [i] and [k] when case is ignored - is outside the model.
    - A Python [float] is a binary64 number ([PyFloat], on the
      [spec_float] of the Standard Library, rounding to nearest even) in
      the size parsers, the free-space check, the dialogue of [run], the
      loop that finds the end of the last partition ([last_end_float])
      and the directory sizes.  The partition workflow
      ([create_swap_partition]) keeps the bounds it computes as
      rationals [Q] ([PyNum]): arithmetic is exact there, and every
      concrete value used with it ([0.5], [1.5], [1024] ...) is a small
      dyadic number, on which binary64 arithmetic is exact as well.
    - External commands are answered by an oracle that sees the commands
      issued so far; every command issued is recorded in order. *)

From Stdlib Require Import Bool List String Ascii Arith ZArith QArith Qround Lia.
From Stdlib Require Import DecimalString SpecFloat.
Import ListNotations.
Open Scope string_scope.

(** ** Python [str] primitives *)
Module PyStr.

Definition LF : ascii := ascii_of_nat 10.
Definition CR : ascii := ascii_of_nat 13.

(** [c in "0123456789"], the ASCII part of the class [\d]. *)
Definition isdigit (c : ascii) : bool :=
  let n := nat_of_ascii c in (48 <=? n)%nat && (n <=? 57)%nat.

(** [c.lower()] on ASCII letters. *)
Definition lower_char (c : ascii) : ascii :=
  let n := nat_of_ascii c in
  if (65 <=? n)%nat && (n <=? 90)%nat then ascii_of_nat (n + 32) else c.

(** [s.lower()] *)
Fixpoint lower (s : string) : string :=
  match s with
  | EmptyString => EmptyString
  | String c r => String (lower_char c) (lower r)
  end.

(** [s.startswith(p)] *)
Definition startswith (s p : string) : bool := String.prefix p s.

(** [t in s] for strings: [t] occurs in [s] as a contiguous substring. *)
Fixpoint contains (t s : string) : bool :=
  String.prefix t s ||
  match s with
  | EmptyString => false
  | String _ r => contains t r
  end.

(** [c.isspace()] on ASCII: tab, LF, VT, FF, CR, FS, GS, RS, US, space. *)
Definition isspace (c : ascii) : bool :=
  let n := nat_of_ascii c in
  ((9 <=? n)%nat && (n <=? 13)%nat) || ((28 <=? n)%nat && (n <=? 32)%nat).

Fixpoint lstrip (s : string) : string :=
  match s with
  | EmptyString => EmptyString
  | String c r => if isspace c then lstrip r else s
  end.

Fixpoint rev_append (s acc : string) : string :=
  match s with
  | EmptyString => acc
  | String c r => rev_append r (String c acc)
  end.

Definition rev (s : string) : string := rev_append s EmptyString.

(** [s.strip()] *)
Definition strip (s : string) : string := rev (lstrip (rev (lstrip s))).

(** [s.split(sep)] for a one-character separator. *)
Fixpoint split (sep : ascii) (s : string) : list string :=
  match s with
  | EmptyString => [EmptyString]
  | String c r =>
      if Ascii.eqb c sep then EmptyString :: split sep r
      else match split sep r with
           | h :: t => String c h :: t
           | [] => [String c EmptyString]
           end
  end.

(** ASCII line boundaries of [str.splitlines]: LF, VT, FF, CR, FS, GS, RS
    (and CR LF, which counts once). *)
Definition is_linebreak (c : ascii) : bool :=
  let n := nat_of_ascii c in
  ((10 <=? n)%nat && (n <=? 13)%nat) || ((28 <=? n)%nat && (n <=? 30)%nat).

Fixpoint splitlines_from (after_cr : bool) (s : string) : list string :=
  match s with
  | EmptyString => []
  | String c r =>
      if after_cr && Ascii.eqb c LF then splitlines_from false r
      else if is_linebreak c then EmptyString :: splitlines_from (Ascii.eqb c CR) r
      else match splitlines_from false r with
           | h :: t => String c h :: t
           | [] => [String c EmptyString]
           end
  end.

(** [s.splitlines()] *)
Definition splitlines (s : string) : list string := splitlines_from false s.

(** [s.replace(old, empty)] for a non-empty [old]: occurrences are removed
    left to right without overlap; [skip] counts the characters of an
    occurrence still to be dropped. *)
Fixpoint remove_from (old s : string) (skip : nat) : string :=
  match s with
  | EmptyString => EmptyString
  | String c r =>
      match skip with
      | S k => remove_from old r k
      | O => if String.prefix old s
             then remove_from old r (String.length old - 1)
             else String c (remove_from old r 0)
      end
  end.

Definition remove (old s : string) : string := remove_from old s 0.

(** Longest prefix of digits, and what follows it. *)
Fixpoint span_digits (s : string) : string * string :=
  match s with
  | EmptyString => (EmptyString, EmptyString)
  | String c r =>
      if isdigit c
      then let (d, t) := span_digits r in (String c d, t)
      else (EmptyString, s)
  end.

Definition is_empty (s : string) : bool :=
  match s with EmptyString => true | _ => false end.

(** Value of a string of decimal digits, most significant first. *)
Fixpoint digits_value (acc : N) (s : string) : N :=
  match s with
  | EmptyString => acc
  | String c r => digits_value (acc * 10 + N.of_nat (nat_of_ascii c - 48)) r
  end.

(** [c.upper()] on ASCII letters. *)
Definition upper_char (c : ascii) : ascii :=
  let n := nat_of_ascii c in
  if (97 <=? n)%nat && (n <=? 122)%nat then ascii_of_nat (n - 32) else c.

(** [s.upper()] *)
Fixpoint upper (s : string) : string :=
  match s with
  | EmptyString => EmptyString
  | String c r => String (upper_char c) (upper r)
  end.

(** [s.endswith(suffix)] *)
Fixpoint endswith (s suffix : string) : bool :=
  String.eqb s suffix ||
  match s with
  | EmptyString => false
  | String _ r => endswith r suffix
  end.

(** [s[:-1]] *)
Fixpoint drop_last (s : string) : string :=
  match s with
  | EmptyString => EmptyString
  | String c r =>
      match r with
      | EmptyString => EmptyString
      | String _ _ => String c (drop_last r)
      end
  end.

End PyStr.

(** ** Python numbers *)
Module PyNum.
Import PyStr.

(** [10 ** n] *)
Fixpoint pow10 (n : nat) : positive :=
  match n with
  | O => 1%positive
  | S k => (10 * pow10 k)%positive
  end.

(** Value of the decimal literal [ip "." fp]. *)
Definition decimal (ip fp : string) : Q :=
  Z.of_N (digits_value 0 (ip ++ fp)) # pow10 (String.length fp).

(** [float(s)] on plain decimal text: an optional sign, digits, and an
    optional fraction ([12], [12.5], [.5], [5.]).  [None] is [ValueError].
    Exponents, [inf]/[nan], underscores and surrounding blanks, which
    Python also accepts, are not produced by the callers' inputs and are
    read as [ValueError] here. *)
Definition float_unsigned (s : string) : option Q :=
  let (ip, r) := span_digits s in
  match r with
  | EmptyString => if is_empty ip then None else Some (decimal ip EmptyString)
  | String c r' =>
      if Ascii.eqb c "."
      then let (fp, r'') := span_digits r' in
           if negb (is_empty r'') then None
           else if is_empty ip && is_empty fp then None
           else Some (decimal ip fp)
      else None
  end.

Definition float (s : string) : option Q :=
  match s with
  | String "-" r => option_map Qopp (float_unsigned r)
  | String "+" r => float_unsigned r
  | _ => float_unsigned s
  end.

(** [int(x)] for a float [x]: truncation towards zero. *)
Definition int_of_float (x : Q) : Z := Z.quot (Qnum x) (Zpos (Qden x)).

(** [int(s)] for text: an optional sign and digits.  [None] is
    [ValueError].  Underscores between digits, which Python also accepts,
    are read as [ValueError] here. *)
Definition int_unsigned (s : string) : option Z :=
  let (d, r) := span_digits s in
  if is_empty d || negb (is_empty r) then None
  else Some (Z.of_N (digits_value 0 d)).

Definition int_of_str (s : string) : option Z :=
  match s with
  | String "-" r => option_map Z.opp (int_unsigned r)
  | String "+" r => int_unsigned r
  | _ => int_unsigned s
  end.

(** Float comparison [x > y]. *)
Definition gt (x y : Q) : bool := negb (Qle_bool x y).

End PyNum.

(** ** Python [float] as binary64 *)
Module PyFloat.
Import PyStr.

Definition float := spec_float.

Definition prec : Z := 53.
Definition emax : Z := 1024.

Definition zero : float := S754_zero false.

(** The float nearest to an integer (ties to even); an integer beyond
    the range gives an infinity, where Python raises [OverflowError]. *)
Definition of_Z (z : Z) : float := binary_normalize prec emax z 0 false.

Definition mul (x y : float) : float := SFmul prec emax x y.
Definition div (x y : float) : float := SFdiv prec emax x y.
Definition add (x y : float) : float := SFadd prec emax x y.

(** [x > y]; false when an operand is a NaN. *)
Definition gt (x y : float) : bool := SFltb y x.

(** The float nearest to [n / d], as true division of two integers and
    the reading of a decimal text give it. *)
Definition ratio (n d : positive) : float :=
  SFdiv prec emax (S754_finite false n 0) (S754_finite false d 0).

(** The float nearest to [n * 10 ** scale]. *)
Definition scaled (n : N) (scale : Z) : float :=
  match n with
  | N0 => zero
  | Npos p =>
      match scale with
      | Zneg k => ratio p (10 ^ k)
      | _ => of_Z (Zpos p * 10 ^ scale)
      end
  end.

Inductive error := ValueError | OverflowError.

(** [int(x)]: truncation towards zero; an infinity raises
    [OverflowError], a NaN [ValueError]. *)
Definition to_int (x : float) : error + Z :=
  match x with
  | S754_zero _ => inr 0%Z
  | S754_infinity _ => inl OverflowError
  | S754_nan => inl ValueError
  | S754_finite s m e =>
      let magnitude :=
        match e with
        | Zneg k => Z.shiftr (Zpos m) (Zpos k)
        | _ => Z.shiftl (Zpos m) e
        end in
      inr (if s then - magnitude else magnitude)%Z
  end.

(** A result that Python refuses when it is not finite. *)
Definition finite_or_overflow (x : float) : error + float :=
  match x with
  | S754_infinity _ => inl OverflowError
  | _ => inr x
  end.

(** [float(z)] for an [int], as mixed arithmetic converts it. *)
Definition of_int (z : Z) : error + float := finite_or_overflow (of_Z z).

(** [a / b] for two [int]s: the float nearest to the quotient. *)
Definition true_div_int (a : Z) (b : positive) : error + float :=
  match a with
  | Z0 => inr zero
  | Zpos p => finite_or_overflow (ratio p b)
  | Zneg p => finite_or_overflow (SFopp (ratio p b))
  end.

(** The digits that follow a digit in a [digitpart]: digits, each
    optionally preceded by one underscore. *)
Fixpoint digits_tail (s : string) : string * string :=
  match s with
  | EmptyString => (EmptyString, EmptyString)
  | String c r =>
      if isdigit c
      then let (d, t) := digits_tail r in (String c d, t)
      else if Ascii.eqb c "_"
      then match r with
           | String c' r' =>
               if isdigit c'
               then let (d, t) := digits_tail r' in (String c' d, t)
               else (EmptyString, s)
           | EmptyString => (EmptyString, s)
           end
      else (EmptyString, s)
  end.

(** [digitpart]: its digits, without the underscores, and what follows. *)
Definition digitpart (s : string) : option (string * string) :=
  match s with
  | String c r =>
      if isdigit c
      then let (d, t) := digits_tail r in Some (String c d, t)
      else None
  | EmptyString => None
  end.

(** What follows the [e] of an exponent: a sign and a [digitpart]. *)
Definition exponent (s : string) : option (Z * string) :=
  let signed (negative : bool) (r : string) :=
    match digitpart r with
    | Some (d, rest) =>
        let v := Z.of_N (digits_value 0 d) in
        Some (if negative then (- v)%Z else v, rest)
    | None => None
    end in
  match s with
  | String "-" r => signed true r
  | String "+" r => signed false r
  | _ => signed false s
  end.

(** The integer part, the fraction and the rest of a number without
    sign: [12], [12.], [12.5] or [.5]. *)
Definition mantissa (s : string) : option (string * string * string) :=
  match digitpart s with
  | Some (ip, r) =>
      match r with
      | String "." r' =>
          match digitpart r' with
          | Some (fp, r'') => Some (ip, fp, r'')
          | None => Some (ip, EmptyString, r')
          end
      | _ => Some (ip, EmptyString, r)
      end
  | None =>
      match s with
      | String "." r' =>
          match digitpart r' with
          | Some (fp, r'') => Some (EmptyString, fp, r'')
          | None => None
          end
      | _ => None
      end
  end.

(** [float()] on a text without sign and blanks. *)
Definition unsigned (s : string) : option float :=
  let name := lower s in
  if String.eqb name "inf" || String.eqb name "infinity" then Some (S754_infinity false)
  else if String.eqb name "nan" then Some S754_nan
  else
    match mantissa s with
    | None => None
    | Some (ip, fp, rest) =>
        let n := digits_value 0 (ip ++ fp) in
        let k := Z.of_nat (String.length fp) in
        match rest with
        | EmptyString => Some (scaled n (- k))
        | String c r =>
            if Ascii.eqb c "e" || Ascii.eqb c "E"
            then match exponent r with
                 | Some (x, EmptyString) => Some (scaled n (x - k))
                 | _ => None
                 end
            else None
        end
    end.

(** [float(s)] for a text: blanks around it are dropped; a sign, then
    a decimal number with an optional exponent, [inf], [infinity] or
    [nan] in any case.  [None] is [ValueError]. *)
Definition of_text (s : string) : option float :=
  let t := strip s in
  match t with
  | String "-" r => option_map SFopp (unsigned r)
  | String "+" r => unsigned r
  | _ => unsigned t
  end.

End PyFloat.

(** ** The regular expressions of the module

    Each pattern of the source is matched by a function written for it.
    The patterns are simple enough that backtracking never changes the
    outcome: a greedy [\d+] that gave a digit back would leave a digit where
    a ["."] or a letter is required. *)
Module Re.
Import PyStr.

(** [\d+(\.\d+)?] anchored at the start of [s]: the integer part, the
    text of group 1 (empty when the group took no part) and the rest. *)
Definition match_number (s : string) : option (string * string * string) :=
  let (ip, r) := span_digits s in
  if is_empty ip then None
  else match r with
       | String c r' =>
           if Ascii.eqb c "."
           then let (fp, r'') := span_digits r' in
                if is_empty fp then Some (ip, EmptyString, r)
                else Some (ip, String c fp, r'')
           else Some (ip, EmptyString, r)
       | EmptyString => Some (ip, EmptyString, r)
       end.

(** All non-overlapping matches of [\d+(\.\d+)?] in [s], left to right,
    each as (whole match, group 1).  A match is never empty, so a fuel of
    [length s] is enough. *)
Fixpoint scan_numbers (fuel : nat) (s : string) : list (string * string) :=
  match fuel with
  | O => []
  | S f =>
      match s with
      | EmptyString => []
      | String _ r =>
          match match_number s with
          | Some (ip, g1, rest) => (ip ++ g1, g1) :: scan_numbers f rest
          | None => scan_numbers f r
          end
      end
  end.

(** [re.findall(r'\d+(?:\.\d+)?', s)]: no capturing group, so the whole
    matches are returned. *)
Definition findall_number (s : string) : list string :=
  map fst (scan_numbers (String.length s) s).

(** [re.findall(r'\d+(\.\d+)?', s)]: with one capturing group [findall]
    returns the text of that group for every match, and the empty string
    when the group took no part in the match. *)
Definition findall_number_group (s : string) : list string :=
  map snd (scan_numbers (String.length s) s).

(** The alternation [(MiB|GiB|M|G|MB|GB)], in the order of the source. *)
Definition unit_tokens : list string := ["MiB"; "GiB"; "M"; "G"; "MB"; "GB"].

(** A literal matched under [re.IGNORECASE] at the start of [s]: the text
    matched (in the case of [s]) and the rest. *)
Fixpoint match_literal (tok s : string) : option (string * string) :=
  match tok with
  | EmptyString => Some (EmptyString, s)
  | String t tok' =>
      match s with
      | String c s' =>
          if Ascii.eqb (lower_char t) (lower_char c)
          then match match_literal tok' s' with
               | Some (m, r) => Some (String c m, r)
               | None => None
               end
          else None
      | EmptyString => None
      end
  end.

(** First alternative, in order, that matches at the start of [s]. *)
Fixpoint match_first (toks : list string) (s : string) : option (string * string) :=
  match toks with
  | [] => None
  | tok :: rest =>
      match match_literal tok s with
      | Some m => Some m
      | None => match_first rest s
      end
  end.

Fixpoint scan_units (fuel : nat) (s : string) : list string :=
  match fuel with
  | O => []
  | S f =>
      match s with
      | EmptyString => []
      | String _ r =>
          match match_first unit_tokens s with
          | Some (m, rest) => m :: scan_units f rest
          | None => scan_units f r
          end
      end
  end.

(** [re.findall(r'(MiB|GiB|M|G|MB|GB)', s, re.IGNORECASE)] *)
Definition findall_unit (s : string) : list string :=
  scan_units (String.length s) s.

(** [$] without [re.MULTILINE]: the end of the string, or just before a
    line feed that ends the string. *)
Definition at_dollar (r : string) : bool :=
  match r with
  | EmptyString => true
  | String c EmptyString => Ascii.eqb c LF
  | _ => false
  end.

(** [re.match(r'^\d+(\.\d+)?(MiB|GiB|M|G|MB|GB)$', s, re.IGNORECASE)]
    finds a match.  Here the alternation is followed by [$], so every
    alternative is tried until one ends at [$]. *)
Definition match_size (s : string) : bool :=
  match match_number s with
  | None => false
  | Some (_, _, rest) =>
      existsb (fun tok =>
                 match match_literal tok rest with
                 | Some (_, r) => at_dollar r
                 | None => false
                 end) unit_tokens
  end.

End Re.

(** ** Size strings: [validate_size], [convert_to_bytes]

    The two classes carry the same [validate_size]; [convert_to_bytes] is
    the one of [SwapFileManager]. *)
Module Size.
Import PyStr.

(** [validate_size(size_str)] *)
Definition validate_size (size_str : string) : bool := Re.match_size size_str.

Definition in_list (u : string) (l : list string) : bool :=
  existsb (String.eqb u) l.

(** [convert_to_bytes(size_str)], with the messages handed to
    [debug_log] (shown only in debug mode).  Every exception raised in
    the [try] block ends in [return 0], also the [OverflowError] of
    [int()] on an infinite product; falling out of the [if]/[elif]
    does too. *)
Definition convert_to_bytes (debug_mode : bool) (size_str : string)
  : Z * list string :=
  let num_match := Re.findall_number size_str in
  let unit_match := Re.findall_unit size_str in
  let failed (msg : string) :=
    (0%Z, if debug_mode then ["Size conversion error: " ++ msg] else []) in
  let truncated (product : PyFloat.float) :=
    match PyFloat.to_int product with
    | inr bytes => (bytes, [])
    | inl PyFloat.OverflowError => failed "cannot convert float infinity to integer"
    | inl PyFloat.ValueError => failed "cannot convert float NaN to integer"
    end in
  match num_match, unit_match with
  | n0 :: _, u0 :: _ =>
      match PyFloat.of_text n0 with
      | None => failed "could not convert string to float"
      | Some num =>
          let unit := lower u0 in
          if in_list unit ["g"; "gb"; "gib"]
          then truncated (PyFloat.mul num (PyFloat.of_Z (1024 ^ 3)))
          else if in_list unit ["m"; "mb"; "mib"]
          then truncated (PyFloat.mul num (PyFloat.of_Z (1024 ^ 2)))
          else (0%Z, [])
      end
  | _, _ => failed "Invalid size format."
  end.

(** [parse_size_to_kib(size_str)], the static method that reads the
    sizes printed by [swapon].  Nothing is caught here: [inl] is the
    [ValueError] of [float()] or the error of [int()] on a product that
    is not finite. *)
Definition parse_size_to_kib (size_str : string) : PyFloat.error + Z :=
  let size_str := upper (strip size_str) in
  let number (text : string) (k : PyFloat.float -> PyFloat.float) :=
    match PyFloat.of_text text with
    | None => inl PyFloat.ValueError
    | Some x => PyFloat.to_int (k x)
    end in
  let kibi := PyFloat.of_Z 1024 in
  if endswith size_str "G"
  then number (drop_last size_str) (fun x => PyFloat.mul (PyFloat.mul x kibi) kibi)
  else if endswith size_str "M"
  then number (drop_last size_str) (fun x => PyFloat.mul x kibi)
  else if endswith size_str "K"
  then number (drop_last size_str) (fun x => x)
  else if endswith size_str "B"
  then inr 0%Z
  else number size_str (fun x => x).

Inductive size_error := InvalidSizeFormat | SizeTooSmall.

(** The size parser as the callers use it ([ask_user_inputs]): a string
    is converted only once [validate_size] has accepted it. *)
Definition parse (size_str : string) : Z + size_error :=
  if validate_size size_str
  then inl (fst (convert_to_bytes false size_str))
  else inr InvalidSizeFormat.

(** The guard of [ask_user_inputs] on the converted size:
    [size_bytes < 64 * 1024**2] leaves through [sys.exit(1)]. *)
Definition accept_size (size_str : string) : Z + size_error :=
  match parse size_str with
  | inl size_bytes =>
      if (size_bytes <? 64 * 1024 ^ 2)%Z then inr SizeTooSmall else inl size_bytes
  | inr e => inr e
  end.

End Size.

(** ** Exceptions, outcomes and the persisted mount table *)
Module Runtime.

(** The exceptions that occur in the module.  [CalledProcessError] has
    the fields of [subprocess.CalledProcessError]: [output] and [stderr]
    are [None] unless the raiser passes them. *)
Inductive exn :=
| CalledProcessError (returncode : N) (cmd : string) (output stderr : option string)
| TimeoutExpired (cmd : string) (timeout : nat)
| ValueError
| IndexError
| OSError (strerror : string)
| OverflowError.

(** How a call ends: it returns, it raises an exception that the caller
    may catch, or it leaves the interpreter through [sys.exit].
    [OutOfFuel] is not a behaviour of the program: it marks a recursion
    cut short by the fuel of the model. *)
Inductive outcome (A : Type) :=
| Returned (a : A)
| Raised (e : exn)
| SysExit (code : Z)
| OutOfFuel.
Arguments Returned {A} a.
Arguments Raised {A} e.
Arguments SysExit {A} code.
Arguments OutOfFuel {A}.

(** A computation over a mutable world [W]. *)
Definition M (W A : Type) : Type := W -> outcome A * W.

Definition ret {W A} (a : A) : M W A := fun w => (Returned a, w).

Definition bind {W A B} (m : M W A) (k : A -> M W B) : M W B :=
  fun w =>
    match m w with
    | (Returned a, w') => k a w'
    | (Raised e, w') => (Raised e, w')
    | (SysExit c, w') => (SysExit c, w')
    | (OutOfFuel, w') => (OutOfFuel, w')
    end.

Definition raise {W A} (e : exn) : M W A := fun w => (Raised e, w).
Definition sys_exit {W A} (code : Z) : M W A := fun w => (SysExit code, w).

(** [try: m except <handles>: h]; [SystemExit] is not an [Exception] and
    passes through. *)
Definition try_except {W A} (m : M W A) (handles : exn -> bool) (h : exn -> M W A)
  : M W A :=
  fun w =>
    match m w with
    | (Raised e, w') => if handles e then h e w' else (Raised e, w')
    | r => r
    end.

(** [/etc/fstab]: its text, and whether this process may read and
    append to it. *)
Record etc_fstab := {
  fstab_text : string;
  fstab_readable : bool;
  fstab_writable : bool
}.

(** A table the process can read and write. *)
Definition rw_fstab (text : string) : etc_fstab :=
  {| fstab_text := text; fstab_readable := true; fstab_writable := true |}.

(** The line both provisioners persist. *)
Definition swap_line (target : string) : string := target ++ " none swap sw 0 0".

(** [f.write(f"\n{target} none swap sw 0 0\n")] on a file opened with
    mode ['a']. *)
Definition append_swap_line (target : string) (f : etc_fstab) : etc_fstab :=
  {| fstab_text := fstab_text f ++ String PyStr.LF (swap_line target ++ String PyStr.LF EmptyString);
     fstab_readable := fstab_readable f;
     fstab_writable := fstab_writable f |}.

Inductive fstab_status := Added | AlreadyPresent | Failed.

End Runtime.

Declare Scope py_scope.
Delimit Scope py_scope with py.
Notation "x <- m ;; k" := (Runtime.bind m (fun x => k))
  (at level 61, m at next level, right associativity) : py_scope.
Notation "m ;;; k" := (Runtime.bind m (fun _ => k))
  (at level 61, right associativity) : py_scope.

(** ** [class SwapManager]: swap on a new partition *)
Module SwapManager.
Import PyStr Runtime.

(** The command lines the class builds.  The two bounds of [Mkpart] are
    the floats interpolated into the command text. *)
Inductive command :=
| SfdiskDump (disk backup_file : string)
    (* sudo sfdisk --dump {disk} > {backup_file} *)
| LsblkNames (disk : string)
    (* lsblk -ln -o NAME {disk} *)
| PartedPrint (disk : string)
    (* sudo parted -m {disk} unit GiB print *)
| PartedPrintFree (disk : string)
    (* sudo parted -m {disk} unit GiB print free *)
| LsblkSize (disk : string)
    (* lsblk -b -n -o SIZE {disk} *)
| Mkpart (disk : string) (start end_ : Q)
    (* sudo parted -s {disk} mkpart primary linux-swap {start}GiB {end}GiB *)
| Mkswap (partition : string)
    (* sudo mkswap {swap_partition} *)
| Swapon (partition : string).
    (* sudo /sbin/swapon {swap_partition} *)

Record completed := {
  returncode : Z;
  stdout : string;
  stderr : string
}.

(** The machine: what a command answers, given the commands run before. *)
Definition shell := list command -> command -> completed.

Record world := {
  issued : list command;      (* commands run so far, oldest first *)
  fstab : etc_fstab
}.

Definition record_cmd (c : command) (w : world) : world :=
  {| issued := issued w ++ [c]; fstab := fstab w |}.

Section WithShell.
Variable sh : shell.

(** [run_cmd(cmd, check=True)] *)
Definition run_cmd (cmd : command) (check : bool) : M world string :=
  fun w =>
    let result := sh (issued w) cmd in
    let w' := record_cmd cmd w in
    if check && negb (returncode result =? 0)%Z
    then (SysExit 1, w')
    else (Returned (strip (stdout result)), w').

(** [backup_partition_table(disk)]; [timestamp] is the formatted
    [datetime.now()]. *)
Definition backup_partition_table (timestamp disk : string) : M world string :=
  let backup_file :=
    "/tmp/partition_table_" ++ remove "/dev/" disk ++ "_" ++ timestamp ++ ".backup" in
  (_ <- run_cmd (SfdiskDump disk backup_file) true ;;
   ret backup_file)%py.

(** The body of the loop of [get_free_space_gib]: what the row [line]
    appends to [free_spaces]. *)
Definition free_space_of_row (line : string) : list PyFloat.float :=
  let fields := split ":" line in
  if (5 <=? List.length fields)%nat && String.eqb (nth 4 fields EmptyString) "free"
  then match PyFloat.of_text (remove "GiB" (nth 3 fields EmptyString)) with
       | Some size_gib => [size_gib]
       | None => []
       end
  else [].

(** The sizes of the rows marked [free] in the output of
    [parted ... print free]. *)
Definition free_spaces (parted_output : string) : list PyFloat.float :=
  flat_map free_space_of_row (splitlines parted_output).

(** [max(xs)] on a non-empty list [x :: xs]: the first greatest item. *)
Definition py_max (x : PyFloat.float) (xs : list PyFloat.float) : PyFloat.float :=
  fold_left (fun m y => if PyFloat.gt y m then y else m) xs x.

Definition largest_free (spaces : list PyFloat.float) : PyFloat.float :=
  match spaces with
  | [] => PyFloat.zero
  | x :: xs => py_max x xs
  end.

(** [get_free_space_gib(disk)] *)
Definition get_free_space_gib (disk : string) : M world PyFloat.float :=
  (parted_output <- run_cmd (PartedPrintFree disk) true ;;
   ret (largest_free (free_spaces parted_output)))%py.

(** The number and the unit that [check_free_space] and
    [convert_to_bytes] find in a size string, the number as the exact
    value of its text; [None] is the [IndexError] or [ValueError] of
    the [try] block. *)
Definition read_size (size_str : string) : option (Q * string) :=
  match Re.findall_number size_str with
  | [] => None
  | n0 :: _ =>
      match PyNum.float n0 with
      | None => None
      | Some num =>
          match Re.findall_unit size_str with
          | [] => None
          | u0 :: _ => Some (num, lower u0)
          end
      end
  end.

Definition to_gib (num : Q) (unit : string) : Q :=
  if Size.in_list unit ["m"; "mb"; "mib"] then num / inject_Z 1024 else num.

(** The first two lines of [check_free_space]: the number, as the
    float that [float()] gives, and the unit in lower case; [None] is
    the [IndexError] or [ValueError] of the [try] block. *)
Definition read_request (size_str : string) : option (PyFloat.float * string) :=
  match Re.findall_number size_str with
  | [] => None
  | n0 :: _ =>
      match PyFloat.of_text n0 with
      | None => None
      | Some num =>
          match Re.findall_unit size_str with
          | [] => None
          | u0 :: _ => Some (num, lower u0)
          end
      end
  end.

(** [num / 1024 if unit in ['m', 'mb', 'mib'] else num] *)
Definition size_in_gib (num : PyFloat.float) (unit : string) : PyFloat.float :=
  if Size.in_list unit ["m"; "mb"; "mib"] then PyFloat.div num (PyFloat.of_Z 1024)
  else num.

(** [check_free_space(disk, size_str)]: [(fits, available MiB)]; the
    [0] returned with a size that cannot be read is written [0.0]. *)
Definition check_free_space (disk size_str : string) : M world (bool * PyFloat.float) :=
  match read_request size_str with
  | None => ret (false, PyFloat.zero)
  | Some (num, unit) =>
      let size_gib := size_in_gib num unit in
      (free_gib <- get_free_space_gib disk ;;
       if PyFloat.gt size_gib free_gib
       then ret (false, PyFloat.mul free_gib (PyFloat.of_Z 1024))
       else ret (true, PyFloat.mul free_gib (PyFloat.of_Z 1024)))%py
  end.

(** The loop over the rows of [parted ... print]: the greatest end
    boundary, starting from [0.0]. *)
Definition last_end_of (disk parted_print : string) : Q :=
  fold_left
    (fun last_end line =>
       if startswith line "#" || startswith line disk then last_end
       else
         let fields := split ":" line in
         if (3 <? List.length fields)%nat
         then match PyNum.float (remove "GiB" (nth 2 fields EmptyString)) with
              | Some end_gib => if PyNum.gt end_gib last_end then end_gib else last_end
              | None => last_end
              end
         else last_end)
    (splitlines parted_print) 0.

(** The same loop as Python runs it, on binary64 floats: [float()]
    also reads exponents, [inf] and [nan], and a comparison with a NaN
    is false. *)
Definition last_end_float (disk parted_print : string) : PyFloat.float :=
  fold_left
    (fun last_end line =>
       if startswith line "#" || startswith line disk then last_end
       else
         let fields := split ":" line in
         if (3 <? List.length fields)%nat
         then match PyFloat.of_text (remove "GiB" (nth 2 fields EmptyString)) with
              | Some end_gib => if PyFloat.gt end_gib last_end then end_gib else last_end
              | None => last_end
              end
         else last_end)
    (splitlines parted_print) PyFloat.zero.

(** The number and the unit read from the size inside
    [create_swap_partition].  The pattern of the number has a capturing
    group here, so [findall] yields the text of the group.  Nothing
    catches the errors. *)
Definition read_size_at_creation (size : string) : exn + (Q * string) :=
  match Re.findall_number_group size with
  | [] => inl IndexError
  | g0 :: _ =>
      match PyNum.float g0 with
      | None => inl ValueError
      | Some num =>
          match Re.findall_unit size with
          | [] => inl IndexError
          | u0 :: _ => inr (num, lower u0)
          end
      end
  end.

(** [p not in parts_before] for every [p] of the later listing. *)
Definition new_parts (parts_before part_list_after : list string) : list string :=
  filter (fun p => negb (Size.in_list p parts_before)) part_list_after.

(** The partition picked from the difference: [new_parts[-1]], and
    [None] when [not new_parts]. *)
Definition detect_new_partition (parts_before part_list_after : list string)
  : option string :=
  match new_parts parts_before part_list_after with
  | [] => None
  | p :: ps => Some (last ps p)
  end.

(** The last step of [create_swap_partition]: the mount table is read
    and the line appended unless the device path occurs in it.  The
    file operations are not guarded. *)
Definition persist_partition (swap_partition : string) : M world fstab_status :=
  fun w =>
    let f := fstab w in
    if negb (fstab_readable f) then (Raised (OSError "Permission denied"), w)
    else if negb (contains swap_partition (fstab_text f))
    then if fstab_writable f
         then (Returned Added,
               {| issued := issued w; fstab := append_swap_line swap_partition f |})
         else (Raised (OSError "Permission denied"), w)
    else (Returned AlreadyPresent, w).

Record created := {
  swap_partition : string;
  backup_file : string;
  fstab_result : fstab_status
}.

Definition lift {A} (r : exn + A) : M world A :=
  match r with
  | inl e => raise e
  | inr a => ret a
  end.

(** [create_swap_partition(disk, size)]; [proceed] is the answer to the
    confirmation prompt. *)
Definition create_swap_partition (proceed : bool) (timestamp disk size : string)
  : M world created :=
  if negb proceed then sys_exit 0
  else
    (backup <- backup_partition_table timestamp disk ;;
     part_list <- run_cmd (LsblkNames disk) true ;;
     let parts_before := map strip (splitlines part_list) in
     parted_print <- run_cmd (PartedPrint disk) true ;;
     let last_end := last_end_of disk parted_print in
     nu <- lift (read_size_at_creation size) ;;
     let size_gib := to_gib (fst nu) (snd nu) in
     let start := last_end in
     let end_ := last_end + size_gib in
     size_text <- run_cmd (LsblkSize disk) true ;;
     disk_size_bytes <- lift (match PyNum.int_of_str size_text with
                              | Some n => inr n
                              | None => inl ValueError
                              end) ;;
     let disk_size_gib := inject_Z disk_size_bytes / inject_Z (1024 ^ 3) in
     if PyNum.gt end_ disk_size_gib then sys_exit 1
     else
       (_ <- run_cmd (Mkpart disk start end_) true ;;
        listing <- run_cmd (LsblkNames disk) true ;;
        match detect_new_partition parts_before (splitlines listing) with
        | None => sys_exit 1
        | Some p =>
            let partition := "/dev/" ++ p in
            _ <- run_cmd (Mkswap partition) true ;;
            _ <- run_cmd (Swapon partition) true ;;
            status <- persist_partition partition ;;
            ret {| swap_partition := partition;
                   backup_file := backup;
                   fstab_result := status |}
        end))%py.

End WithShell.

End SwapManager.

(** ** [SwapManager.run]: the dialogue around the partition workflow

    The commands of the listing and of the dialogue are added to those
    of [SwapManager]; the user is the sequence of answers given at the
    prompts. *)
Module SwapManagerRun.
Import PyStr Runtime.

Inductive command :=
| Partition (c : SwapManager.command)
    (* a command of check_free_space or create_swap_partition *)
| LsblkDisks
    (* lsblk -o NAME,SIZE,TYPE,MODEL,MOUNTPOINT -dn *)
| LsblkPartitions (disk_name : string)
    (* lsblk /dev/{disk_name} -o NAME,SIZE,TYPE,MOUNTPOINT -ln *)
| PartedFreeMiB (disk : string).
    (* sudo parted -m {disk} unit MiB print free *)

Definition shell := list command -> command -> SwapManager.completed.

(** An item of [self.disks]. *)
Record disk := {
  name : string;
  size : string;
  model : string
}.

Record world := {
  disks : list disk;          (* self.disks *)
  issued : list command;      (* commands run so far, oldest first *)
  fstab : etc_fstab
}.

Definition record_cmd (c : command) (w : world) : world :=
  {| disks := disks w; issued := (issued w ++ [c])%list; fstab := fstab w |}.

(** The answers given at the prompts.  Those of a loop are numbered by
    the round of the loop in which the prompt is shown. *)
Record user := {
  disk_choice : nat -> string;     (* "Select disk by number ..." *)
  disk_confirmed : nat -> bool;    (* "You selected ... Are you sure?" *)
  size_answer : nat -> string;     (* "Enter the size of the swap partition ..." *)
  go_back : nat -> string;         (* input("(go back? y/n) # ") *)
  size_confirmed : nat -> bool;    (* "Confirm to create a swap partition ...?" *)
  proceed : bool                   (* "Do you want to continue?" *)
}.

Definition cons_head (c : ascii) (l : list string) : list string :=
  match l with
  | h :: t => String c h :: t
  | [] => [String c EmptyString]
  end.

(** [s.split(None, maxsplit)]: the words between runs of blanks; once
    [maxsplit] words are cut, what follows the blanks is one last item,
    to the end of the string.  [in_word] says that the characters read
    last belong to a word. *)
Fixpoint split_blank (maxsplit : nat) (in_word : bool) (s : string) : list string :=
  match s with
  | EmptyString => if in_word then [EmptyString] else []
  | String c r =>
      if in_word
      then if isspace c then EmptyString :: split_blank maxsplit false r
           else cons_head c (split_blank maxsplit true r)
      else if isspace c then split_blank maxsplit false r
           else match maxsplit with
                | O => [s]
                | S k => cons_head c (split_blank k true r)
                end
  end.

(** [c.isdigit()] for a character below 256: an ASCII digit or one of
    the superscript digits one, two and three (185, 178, 179), which
    [int()] does not read. *)
Definition isdigit_char (c : ascii) : bool :=
  let n := nat_of_ascii c in
  isdigit c || Nat.eqb n 178 || Nat.eqb n 179 || Nat.eqb n 185.

Fixpoint all_isdigit (s : string) : bool :=
  match s with
  | EmptyString => true
  | String c r => isdigit_char c && all_isdigit r
  end.

(** [s.isdigit()] *)
Definition str_isdigit (s : string) : bool := negb (is_empty s) && all_isdigit s.

(** The default of [sys.set_int_max_str_digits]. *)
Definition max_str_digits : nat := 4300.

(** [int(s)] for a text without blanks and underscores: [None] is
    [ValueError], raised on a text that is not a decimal number, and on
    one of more than [max_str_digits] digits. *)
Definition int_of_text (s : string) : option Z :=
  if (max_str_digits <? String.length s)%nat then None else PyNum.int_of_str s.

(** The first loop of [list_disks_and_partitions]: the rows of type
    [disk]; a row of fewer than three fields cannot be unpacked. *)
Fixpoint read_disks (lines : list string) : exn + list disk :=
  match lines with
  | [] => inr []
  | line :: more =>
      match split_blank 4 false line with
      | name :: size :: typ :: rest =>
          match read_disks more with
          | inl e => inl e
          | inr found =>
              if negb (String.eqb typ "disk") then inr found
              else inr ({| name := name; size := size; model := hd EmptyString rest |}
                        :: found)
          end
      | _ => inl ValueError
      end
  end.

(** [pname, psize, ptype, pmount = (part_line.split(None, 3) + [""])[:4]]
    has its four values when the row has three fields or more. *)
Definition partition_row_unpacks (part_line : string) : bool :=
  (3 <=? List.length (split_blank 3 false part_line))%nat.

Section WithShell.
Variable sh : shell.

(** [run_cmd(cmd, check=True)] *)
Definition run_cmd (cmd : command) (check : bool) : M world string :=
  fun w =>
    let result := sh (issued w) cmd in
    let w' := record_cmd cmd w in
    if check && negb (SwapManager.returncode result =? 0)%Z
    then (SysExit 1, w')
    else (Returned (strip (SwapManager.stdout result)), w').

(** A method of the partition workflow, run on this machine: its
    commands continue those issued so far. *)
Definition partition_step {A : Type}
    (m : SwapManager.shell -> M SwapManager.world A) : M world A :=
  fun w =>
    let machine : SwapManager.shell :=
      fun done c => sh (issued w ++ map Partition done)%list (Partition c) in
    let (o, w') := m machine {| SwapManager.issued := []; SwapManager.fstab := fstab w |} in
    (o, {| disks := disks w;
           issued := (issued w ++ map Partition (SwapManager.issued w'))%list;
           fstab := SwapManager.fstab w' |}).

(** The second loop of [list_disks_and_partitions]: the partitions of
    each disk are listed and printed. *)
Fixpoint show_partitions (found : list disk) : M world unit :=
  match found with
  | [] => ret tt
  | d :: more =>
      (partitions <- run_cmd (LsblkPartitions (name d)) true ;;
       if forallb partition_row_unpacks (splitlines partitions)
       then show_partitions more
       else raise ValueError)%py
  end.

(** [list_disks_and_partitions()] *)
Definition list_disks_and_partitions : M world unit :=
  (lsblk_output <- run_cmd LsblkDisks true ;;
   match read_disks (splitlines lsblk_output) with
   | inl e => raise e
   | inr found =>
       fun w =>
         show_partitions found
           {| disks := found; issued := issued w; fstab := fstab w |}
   end)%py.

(** The loop of [choose_disk], from round [round] on. *)
Fixpoint choose_disk_from (u : user) (round fuel : nat) : M world string :=
  fun w =>
    match fuel with
    | O => (OutOfFuel, w)
    | S k =>
        let choice := disk_choice u round in
        if negb (str_isdigit choice) then choose_disk_from u (S round) k w
        else
          match int_of_text choice with
          | None => (Raised ValueError, w)
          | Some n =>
              let idx := (n - 1)%Z in
              if (0 <=? idx)%Z && (idx <? Z.of_nat (List.length (disks w)))%Z
              then match nth_error (disks w) (Z.to_nat idx) with
                   | Some d =>
                       if disk_confirmed u round then (Returned ("/dev/" ++ name d), w)
                       else choose_disk_from u (S round) k w
                   | None => (Raised IndexError, w)
                   end
              else choose_disk_from u (S round) k w
          end
    end.

(** [choose_disk()] *)
Definition choose_disk (u : user) (fuel : nat) : M world string :=
  fun w =>
    match disks w with
    | [] => (SysExit 1, w)
    | _ :: _ => choose_disk_from u 0 fuel w
    end.

(** The loop of [choose_disk_and_size_and_create], from round [round]
    on: [Some size] when it is left by [break], [None] when the user
    goes back.  The message printed when the size does not fit holds
    [int(free_mib)], which raises when the available space is not
    finite. *)
Fixpoint ask_size_from (u : user) (disk : string) (round fuel : nat)
  : M world (option string) :=
  match fuel with
  | O => fun w => (OutOfFuel, w)
  | S k =>
      let size := size_answer u round in
      if negb (Size.validate_size size) then ask_size_from u disk (S round) k
      else
        (checked <- partition_step (fun machine =>
                      SwapManager.check_free_space machine disk size) ;;
         if negb (fst (checked : bool * PyFloat.float))
         then match PyFloat.to_int (snd checked) with   (* int(free_mib) *)
              | inl PyFloat.OverflowError => raise OverflowError
              | inl PyFloat.ValueError => raise ValueError
              | inr _ =>
                  (_ <- run_cmd (PartedFreeMiB disk) true ;;
                   if String.eqb (lower (go_back u round)) "y" then ret None
                   else ask_size_from u disk (S round) k)
              end
         else if size_confirmed u round then ret (Some size)
              else ask_size_from u disk (S round) k)%py
  end.

(** [choose_disk_and_size_and_create()]; [None] when nothing was
    created because the user went back. *)
Definition choose_disk_and_size_and_create (u : user) (timestamp : string)
    (fuel : nat) : M world (option SwapManager.created) :=
  (disk <- choose_disk u fuel ;;
   answer <- ask_size_from u disk 0 fuel ;;
   match answer with
   | None => ret None
   | Some size =>
       made <- partition_step (fun machine =>
                 SwapManager.create_swap_partition machine (proceed u) timestamp disk size) ;;
       ret (Some made)
   end)%py.

(** [run()] *)
Definition run (u : user) (timestamp : string) (fuel : nat)
  : M world (option SwapManager.created) :=
  (_ <- list_disks_and_partitions ;;
   choose_disk_and_size_and_create u timestamp fuel)%py.

End WithShell.

End SwapManagerRun.

(** ** [class SwapFileManager]: swap on a file *)
Module SwapFileManager.
Import PyStr Runtime.

(** What [subprocess.run] learns about a finished command.  Exit codes
    are those of a shell that exited; [elapsed] is the running time in
    seconds, which decides whether a timeout expires. *)
Record completed := {
  returncode : N;
  stdout : string;
  stderr : string;
  elapsed : nat
}.

Definition shell := list string -> string -> completed.

(** The attributes set by [__init__]. *)
Record manager := {
  swap_file_path : string;
  size : string;
  size_bytes : Z;
  fs_type : option string;
  debug_mode : bool;
  retry_count : nat;
  max_retries : nat
}.

(** The attributes as [__init__] leaves them. *)
Definition init : manager :=
  {| swap_file_path := "/swapfile";
     size := "1G";
     size_bytes := 0;
     fs_type := None;
     debug_mode := false;
     retry_count := 0;
     max_retries := 2 |}.

Record world := {
  self : manager;
  issued : list string;       (* command lines run so far, oldest first *)
  fstab : etc_fstab
}.

Definition record_cmd (cmd : string) (w : world) : world :=
  {| self := self w; issued := issued w ++ [cmd]; fstab := fstab w |}.

Definition set_retry_count (n : nat) (w : world) : world :=
  {| self := {| swap_file_path := swap_file_path (self w);
                size := size (self w);
                size_bytes := size_bytes (self w);
                fs_type := fs_type (self w);
                debug_mode := debug_mode (self w);
                retry_count := n;
                max_retries := max_retries (self w) |};
     issued := issued w;
     fstab := fstab w |}.

Definition decimal_of_N (n : N) : string := NilZero.string_of_uint (N.to_uint n).

(** [str(e)] for the exceptions of [subprocess]. *)
Definition str_of_exn (e : exn) : string :=
  match e with
  | CalledProcessError rc cmd _ _ =>
      "Command '" ++ cmd ++ "' returned non-zero exit status " ++ decimal_of_N rc ++ "."
  | TimeoutExpired cmd t =>
      "Command '" ++ cmd ++ "' timed out after "
        ++ decimal_of_N (N.of_nat t) ++ " seconds"
  | ValueError => "ValueError"
  | IndexError => "IndexError"
  | OSError msg => msg
  | OverflowError => "OverflowError"
  end.

Definition is_called_process_error (e : exn) : bool :=
  match e with CalledProcessError _ _ _ _ => true | _ => false end.

Definition is_timeout_expired (e : exn) : bool :=
  match e with TimeoutExpired _ _ => true | _ => false end.

Definition expired (timeout : option nat) (r : completed) : bool :=
  match timeout with
  | Some t => (t <? elapsed r)%nat
  | None => false
  end.

Section WithShell.
Variable sh : shell.

(** [subprocess.run(cmd, shell=True, capture_output=True, text=True,
    timeout=timeout)] *)
Definition subprocess_run (cmd : string) (timeout : option nat) : M world completed :=
  fun w =>
    let result := sh (issued w) cmd in
    let w' := record_cmd cmd w in
    match timeout with
    | Some t => if (t <? elapsed result)%nat
                then (Raised (TimeoutExpired cmd t), w')
                else (Returned result, w')
    | None => (Returned result, w')
    end.

(** [run_cmd(cmd, check=True, timeout=None)]: the error is built from
    the exit code and the command line only. *)
Definition run_cmd (cmd : string) (check : bool) (timeout : option nat)
  : M world string :=
  (result <- subprocess_run cmd timeout ;;
   if negb (returncode result =? 0)%N && check
   then raise (CalledProcessError (returncode result) cmd None None)
   else ret (strip (stdout result)))%py.

(** [verify_swap_file()] *)
Definition verify_swap_file : M world bool :=
  fun w =>
    try_except
      (output <- run_cmd ("file " ++ swap_file_path (self w)) false None ;;
       ret (contains "swap file" (lower output)))%py
      (fun _ => true)
      (fun _ => ret false) w.

(** [cleanup_swap_file()] *)
Definition cleanup_swap_file : M world unit :=
  fun w =>
    let path := swap_file_path (self w) in
    (_ <- try_except
            (_ <- run_cmd ("sudo swapoff " ++ path) false None ;; ret tt)
            is_called_process_error
            (fun e => if contains "Invalid argument" (str_of_exn e)
                      then ret tt else raise e) ;;
     _ <- run_cmd ("sudo rm -f " ++ path) false None ;;
     ret tt)%py w.

Definition btrfs_steps (m : manager) : list (string * string) :=
  [ ("Creating empty file", "sudo truncate -s 0 " ++ swap_file_path m);
    ("Disabling CoW", "sudo chattr +C " ++ swap_file_path m);
    ("Allocating space", "sudo fallocate -l " ++ size m ++ " " ++ swap_file_path m);
    ("Setting permissions", "sudo chmod 0600 " ++ swap_file_path m);
    ("Formatting swap", "sudo mkswap " ++ swap_file_path m);
    ("Enabling swap", "sudo swapon " ++ swap_file_path m) ].

(** The [for] loop of [btrfs_swap_creation]; [again] is the recursive
    call [self.btrfs_swap_creation()]. *)
Fixpoint btrfs_loop (again : M world unit) (steps : list (string * string))
  : M world unit :=
  match steps with
  | [] => ret tt
  | (_, cmd) :: rest =>
      fun w =>
        match run_cmd cmd true None w with
        | (Returned _, w') => btrfs_loop again rest w'
        | (Raised e, w') =>
            if is_called_process_error e
            then
              if contains "swapon" cmd && contains "Invalid argument" (str_of_exn e)
              then
                if (retry_count (self w') <? max_retries (self w'))%nat
                then (_ <- (fun v => (Returned tt,
                                      set_retry_count (retry_count (self v) + 1) v)) ;;
                      _ <- cleanup_swap_file ;;
                      again)%py w'
                else (Raised e, w')
              else (Raised e, w')
            else (Raised e, w')
        | (SysExit c, w') => (SysExit c, w')
        | (OutOfFuel, w') => (OutOfFuel, w')
        end
  end.

(** [btrfs_swap_creation()]; the fuel bounds the depth of the
    recursion. *)
Fixpoint btrfs_swap_creation (fuel : nat) : M world unit :=
  match fuel with
  | O => fun w => (OutOfFuel, w)
  | S f => fun w => btrfs_loop (btrfs_swap_creation f) (btrfs_steps (self w)) w
  end.

Definition standard_steps (m : manager) : list (string * string) :=
  [ ("Allocating space", "sudo fallocate -l " ++ size m ++ " " ++ swap_file_path m);
    ("Setting permissions", "sudo chmod 0600 " ++ swap_file_path m);
    ("Formatting swap", "sudo mkswap " ++ swap_file_path m);
    ("Enabling swap", "sudo swapon " ++ swap_file_path m) ].

Definition timeout_seconds : nat := 30.

Definition decimal_of_Z (z : Z) : string := NilZero.string_of_int (Z.to_int z).

(** The [dd] command of the fallback inside the standard strategy. *)
Definition dd_command (m : manager) : string :=
  let block_count :=
    PyNum.int_of_float (inject_Z (size_bytes m) / inject_Z (1024 ^ 2)) in
  "sudo dd if=/dev/zero of=" ++ swap_file_path m ++ " bs=1M count="
    ++ decimal_of_Z block_count ++ " status=progress".

(** The [for] loop of [standard_swap_creation]; the result is the flag
    [fallback_to_btrfs] ([True] after a [break]). *)
Fixpoint standard_loop (steps : list (string * string)) : M world bool :=
  match steps with
  | [] => ret false
  | (_, cmd) :: rest =>
      fun w =>
        let body :=
          (result <- subprocess_run cmd (Some timeout_seconds) ;;
           if negb (returncode result =? 0)%N
           then raise (CalledProcessError (returncode result) cmd
                         (Some (stdout result)) (Some (stderr result)))
           else ret tt)%py in
        match body w with
        | (Returned _, w') => standard_loop rest w'
        | (Raised e, w') =>
            if is_timeout_expired e then (Returned true, w')
            else if is_called_process_error e
            then
              if contains "fallocate" (lower cmd)
              then
                match run_cmd (dd_command (self w')) true (Some timeout_seconds) w' with
                | (Returned _, w'') => standard_loop rest w''
                | (Raised e', w'') =>
                    if is_timeout_expired e' then (Returned true, w'')
                    else (Raised e', w'')
                | (SysExit c, w'') => (SysExit c, w'')
                | (OutOfFuel, w'') => (OutOfFuel, w'')
                end
              else (Raised e, w')
            else (Raised e, w')
        | (SysExit c, w') => (SysExit c, w')
        | (OutOfFuel, w') => (OutOfFuel, w')
        end
  end.

(** [standard_swap_creation()] *)
Definition standard_swap_creation (fuel : nat) : M world unit :=
  fun w =>
    (fallback_to_btrfs <- standard_loop (standard_steps (self w)) ;;
     if fallback_to_btrfs : bool
     then (_ <- cleanup_swap_file ;; btrfs_swap_creation fuel)
     else ret tt)%py w.

(** [update_fstab()]: any error of the file operations is caught and
    reported as ["Failed"]. *)
Definition update_fstab : M world fstab_status :=
  fun w =>
    let f := fstab w in
    let path := swap_file_path (self w) in
    if negb (fstab_readable f) then (Returned Failed, w)
    else if negb (contains path (fstab_text f))
    then if fstab_writable f
         then (Returned Added,
               {| self := self w; issued := issued w;
                  fstab := append_swap_line path f |})
         else (Returned Failed, w)
    else (Returned AlreadyPresent, w).

(** The choice of the strategy in [create_swap_file], with its
    handler for a failed [swapon]. *)
Definition create_by_strategy (fuel : nat) : M world unit :=
  fun w =>
    try_except
      (if match fs_type (self w) with
          | Some fs => String.eqb fs "btrfs"
          | None => false
          end
       then btrfs_swap_creation fuel
       else standard_swap_creation fuel)
      is_called_process_error
      (fun e =>
         match e with
         | CalledProcessError rc cmd _ _ =>
             if contains "swapon" (lower cmd) && (rc =? 255)%N
             then (_ <- cleanup_swap_file ;; btrfs_swap_creation fuel)%py
             else raise e
         | _ => raise e
         end) w.

(** [create_swap_file()] once [ask_user_inputs] has filled in the
    attributes.  [exists_] is [os.path.exists(self.swap_file_path)] and
    [recreate] the answer to ["Recreate swap file?"].  [None] is the
    early [return] taken when the user keeps a valid swap file.  Every
    exception ends in the failure panel and [sys.exit(1)]. *)
Definition create_swap_file (exists_ recreate : bool) (fuel : nat)
  : M world (option fstab_status) :=
  fun w =>
    let work : M world (option fstab_status) :=
      (keep <- (if exists_
                then (valid <- verify_swap_file ;;
                      if (valid : bool) && negb recreate
                      then ret true
                      else (_ <- cleanup_swap_file ;; ret false))
                else ret false) ;;
       if keep : bool then ret None
       else (_ <- create_by_strategy fuel ;;
             fstab_status <- update_fstab ;;
             ret (Some fstab_status)))%py in
    try_except work (fun _ => true) (fun _ => sys_exit 1) w.

(** What the user answers at the prompts of [ask_user_inputs]: the
    values that [Prompt.ask] and [Confirm.ask] return.  [size_answers 0]
    answers the first size prompt, [size_answers n] its [n]-th
    repetition. *)
Record answers := {
  path_answer : string;
  debug_answer : bool;
  size_answers : nat -> string
}.

(** An assignment to attributes of [self]. *)
Definition assign (f : manager -> manager) : M world unit :=
  fun w => (Returned tt, {| self := f (self w); issued := issued w; fstab := fstab w |}).

Definition set_swap_file_path (v : string) (m : manager) : manager :=
  {| swap_file_path := v; size := size m; size_bytes := size_bytes m;
     fs_type := fs_type m; debug_mode := debug_mode m;
     retry_count := retry_count m; max_retries := max_retries m |}.

Definition set_debug_mode (v : bool) (m : manager) : manager :=
  {| swap_file_path := swap_file_path m; size := size m; size_bytes := size_bytes m;
     fs_type := fs_type m; debug_mode := v;
     retry_count := retry_count m; max_retries := max_retries m |}.

Definition set_size (v : string) (m : manager) : manager :=
  {| swap_file_path := swap_file_path m; size := v; size_bytes := size_bytes m;
     fs_type := fs_type m; debug_mode := debug_mode m;
     retry_count := retry_count m; max_retries := max_retries m |}.

Definition set_size_bytes (v : Z) (m : manager) : manager :=
  {| swap_file_path := swap_file_path m; size := size m; size_bytes := v;
     fs_type := fs_type m; debug_mode := debug_mode m;
     retry_count := retry_count m; max_retries := max_retries m |}.

Definition set_fs_type (v : option string) (m : manager) : manager :=
  {| swap_file_path := swap_file_path m; size := size m; size_bytes := size_bytes m;
     fs_type := v; debug_mode := debug_mode m;
     retry_count := retry_count m; max_retries := max_retries m |}.

(** [detect_filesystem()]: the mount point of the path, then the type
    of the filesystem mounted there; any exception gives ["unknown"]. *)
Definition detect_filesystem : M world string :=
  fun w =>
    try_except
      (mount_point <-
         run_cmd ("df --output=target " ++ swap_file_path (self w) ++ " | tail -1")
           true None ;;
       fs_type <-
         run_cmd ("df -T " ++ mount_point ++ " | tail -1 | awk '{print $2}'")
           true None ;;
       ret (lower fs_type))%py
      (fun _ => true)
      (fun _ => ret "unknown") w.

(** The loop [while not self.validate_size(self.size)] of
    [ask_user_inputs]; [n] size prompts have been answered. *)
Fixpoint ask_size_again (user : answers) (n fuel : nat) : M world unit :=
  fun w =>
    if Size.validate_size (size (self w)) then (Returned tt, w)
    else match fuel with
         | O => (OutOfFuel, w)
         | S k => (_ <- assign (set_size (size_answers user n)) ;;
                   ask_size_again user (S n) k)%py w
         end.

(** [ask_user_inputs()] *)
Definition ask_user_inputs (user : answers) (fuel : nat) : M world unit :=
  (_ <- assign (set_swap_file_path (path_answer user)) ;;
   _ <- assign (set_debug_mode (debug_answer user)) ;;
   _ <- assign (set_size (size_answers user 0)) ;;
   _ <- ask_size_again user 1 fuel ;;
   fun w =>
     let bytes := fst (Size.convert_to_bytes (debug_mode (self w)) (size (self w))) in
     (_ <- assign (set_size_bytes bytes) ;;
      if (bytes <? 64 * 1024 ^ 2)%Z then sys_exit 1
      else (fs <- detect_filesystem ;;
            assign (set_fs_type (Some fs))))%py w)%py.

(** [create_swap_file()] from its first line: the prompts are inside the
    [try] block too.  [asking] is the fuel of the size prompt. *)
Definition create_swap_file_from_prompts (user : answers) (asking : nat)
    (exists_ recreate : bool) (fuel : nat) : M world (option fstab_status) :=
  try_except
    (_ <- ask_user_inputs user asking ;;
     keep <- (if exists_
              then (valid <- verify_swap_file ;;
                    if (valid : bool) && negb recreate
                    then ret true
                    else (_ <- cleanup_swap_file ;; ret false))
              else ret false) ;;
     if keep : bool then ret None
     else (_ <- create_by_strategy fuel ;;
           fstab_status <- update_fstab ;;
           ret (Some fstab_status)))%py
    (fun _ => true) (fun _ => sys_exit 1).

End WithShell.

End SwapFileManager.

(** ** [class CacheCleaner]: the size of a cache directory *)
Module CacheCleaner.

(** What [os.scandir] finds.  A directory tree is finite here: a link
    that leads back into a directory above it is outside the model. *)
Inductive entry :=
| regular_file (st_size : N)
    (* entry.is_file() holds; entry.stat().st_size *)
| directory (d : dir)
    (* entry.is_dir() holds *)
| special
    (* neither a file nor a directory *)
| inaccessible
    (* is_file(), stat() or is_dir() raises PermissionError or FileNotFoundError *)
with dir :=
| unreadable
    (* os.scandir(path) raises PermissionError or FileNotFoundError *)
| listing (entries : list entry).

(** A Python number: the total is an [int] until a [float] is added
    to it. *)
Inductive number :=
| Int (z : Z)
| Float (x : PyFloat.float).

(** [total += y] *)
Definition add_number (total y : number) : PyFloat.error + number :=
  match total, y with
  | Int a, Int b => inr (Int (a + b))
  | Int a, Float b =>
      match PyFloat.of_int a with
      | inl e => inl e
      | inr a' => inr (Float (PyFloat.add a' b))
      end
  | Float a, Int b =>
      match PyFloat.of_int b with
      | inl e => inl e
      | inr b' => inr (Float (PyFloat.add a b'))
      end
  | Float a, Float b => inr (Float (PyFloat.add a b))
  end.

(** [total / (1024 * 1024)] *)
Definition in_megabytes (total : number) : PyFloat.error + number :=
  match total with
  | Int a =>
      match PyFloat.true_div_int a (1024 * 1024) with
      | inl e => inl e
      | inr x => inr (Float x)
      end
  | Float a => inr (Float (PyFloat.div a (PyFloat.of_Z (1024 * 1024))))
  end.

(** [get_dir_size(path)]: the total counts the bytes of the files and
    what the recursive call returns for a directory, and is divided by
    [1024 * 1024] at the end.  [inl] is an [OverflowError], which
    nothing here catches. *)
Fixpoint get_dir_size (d : dir) : PyFloat.error + number :=
  match d with
  | unreadable => inr (Int 0)
  | listing entries =>
      match
        fold_left
          (fun total e =>
             match total with
             | inl err => inl err
             | inr t =>
                 match e with
                 | regular_file st_size => add_number t (Int (Z.of_N st_size))
                 | directory sub =>
                     match get_dir_size sub with
                     | inl err => inl err
                     | inr r => add_number t r
                     end
                 | special => inr t
                 | inaccessible => inr t
                 end
             end)
          entries (inr (Int 0))
      with
      | inl err => inl err
      | inr total => in_megabytes total
      end
  end.

End CacheCleaner.

(** ** The properties of the specification, in its own words *)
Module Spec.
Import PyStr.

Fixpoint all_digits (s : string) : bool :=
  match s with
  | EmptyString => true
  | String c r => isdigit c && all_digits r
  end.

(** A numeric literal, integer or decimal, split as the integer part
    [ip] and the fraction [g] (empty, or a point and digits). *)
Definition numeric_literal (ip g : string) : Prop :=
  all_digits ip = true /\ ip <> EmptyString /\
  (g = EmptyString \/
   exists d, g = String "." d /\ all_digits d = true /\ d <> EmptyString).

(** One of the unit tokens [MiB, GiB, M, G, MB, GB], in any case. *)
Definition unit_token (u : string) : bool :=
  Size.in_list (lower u) ["mib"; "gib"; "m"; "g"; "mb"; "gb"].

(** "A numeric literal immediately followed by one of the unit tokens". *)
Definition size_shape (s : string) : Prop :=
  exists ip g u, numeric_literal ip g /\ unit_token u = true /\ s = ip ++ g ++ u.

(** The same, with an optional line feed closing the string. *)
Definition size_shape_lf (s : string) : Prop :=
  exists ip g u, numeric_literal ip g /\ unit_token u = true /\
                 (s = ip ++ g ++ u \/ s = ip ++ g ++ u ++ String LF EmptyString).

(** Bytes per unit: [M/MB/MiB] are mebibytes, [G/GB/GiB] gibibytes. *)
Definition multiplier (u : string) : Z :=
  if Size.in_list (lower u) ["g"; "gb"; "gib"] then 1024 ^ 3
  else if Size.in_list (lower u) ["m"; "mb"; "mib"] then 1024 ^ 2
  else 0.

(** The lines of the mount table. *)
Definition table_lines (text : string) : list string := split LF text.

(** How many lines of the table are the swap line of [target]. *)
Definition swap_lines_for (target text : string) : nat :=
  count_occ string_dec (table_lines text) (Runtime.swap_line target).

Fixpoint no_lf (s : string) : bool :=
  match s with
  | EmptyString => true
  | String c r => negb (Ascii.eqb c LF) && no_lf r
  end.

End Spec.

(** ** Machines used to run the model on concrete inputs *)
Module Examples.
Import PyStr.

Definition lines (l : list string) : string :=
  String.concat (String LF EmptyString) l.

Definition answer (out : string) : SwapManager.completed :=
  {| SwapManager.returncode := 0; SwapManager.stdout := out; SwapManager.stderr := EmptyString |}.

Definition has_mkpart (history : list SwapManager.command) : bool :=
  existsb (fun c => match c with SwapManager.Mkpart _ _ _ => true | _ => false end)
    history.

(** An empty 10 GiB disk [/dev/sda]; [parted mkpart] adds [sda1]. *)
Definition blank_disk : SwapManager.shell :=
  fun history cmd =>
    match cmd with
    | SwapManager.LsblkNames _ =>
        answer (if has_mkpart history then lines ["sda"; "sda1"] else "sda")
    | SwapManager.PartedPrint _ =>
        answer (lines ["BYT;"; "/dev/sda:10.0GiB:scsi:512:512:gpt:QEMU HARDDISK:;"])
    | SwapManager.PartedPrintFree _ =>
        answer (lines ["BYT;"; "/dev/sda:10.0GiB:scsi:512:512:gpt:QEMU HARDDISK:;"])
    | SwapManager.LsblkSize _ => answer "10737418240"
    | _ => answer EmptyString
    end.

(** A disk whose partition table lists one free extent of 2 GiB, in a
    row left without the semicolon that closes the rows of [parted -m]:
    the form of row that the loop of [get_free_space_gib] counts. *)
Definition disk_with_2gib_free : SwapManager.shell :=
  fun _ cmd =>
    match cmd with
    | SwapManager.PartedPrintFree _ =>
        answer (lines ["BYT;"; "/dev/sda:10.0GiB:scsi:512:512:gpt:QEMU HARDDISK:;";
                       "1:0.00GiB:8.00GiB:8.00GiB:ext4::;";
                       "1:8.00GiB:10.0GiB:2.00GiB:free"])
    | _ => answer EmptyString
    end.

(** A disk whose partition table lists no free extent. *)
Definition full_disk : SwapManager.shell :=
  fun _ cmd =>
    match cmd with
    | SwapManager.PartedPrintFree _ =>
        answer (lines ["BYT;"; "/dev/sda:10.0GiB:scsi:512:512:gpt:QEMU HARDDISK:;";
                       "1:0.00GiB:10.0GiB:10.0GiB:ext4::;"])
    | _ => answer EmptyString
    end.

Definition fresh (table : string) : SwapManager.world :=
  {| SwapManager.issued := []; SwapManager.fstab := Runtime.rw_fstab table |}.

Definition done_ : SwapFileManager.completed :=
  {| SwapFileManager.returncode := 0; SwapFileManager.stdout := EmptyString;
     SwapFileManager.stderr := EmptyString; SwapFileManager.elapsed := 0 |}.

(** A filesystem on which [swapon] refuses the file every time: exit
    status 255 and the message of [EINVAL] on the error stream.  All
    other commands succeed. *)
Definition swapon_refuses : SwapFileManager.shell :=
  fun _ cmd =>
    if String.prefix "sudo swapon " cmd
    then {| SwapFileManager.returncode := 255;
            SwapFileManager.stdout := EmptyString;
            SwapFileManager.stderr := "swapon: swapon failed: Invalid argument";
            SwapFileManager.elapsed := 0 |}
    else done_.

(** A machine on which every command of the partition manager fails
    with exit status 1. *)
Definition all_fail : SwapManager.shell :=
  fun _ _ => {| SwapManager.returncode := 1; SwapManager.stdout := EmptyString;
                SwapManager.stderr := "Error: Could not stat device" |}.

(** A machine on which [chattr] fails with exit status 1. *)
Definition chattr_fails : SwapFileManager.shell :=
  fun _ cmd =>
    if String.prefix "sudo chattr " cmd
    then {| SwapFileManager.returncode := 1;
            SwapFileManager.stdout := EmptyString;
            SwapFileManager.stderr := "chattr: Operation not supported";
            SwapFileManager.elapsed := 0 |}
    else done_.

(** A machine on which [fallocate] needs 31 seconds. *)
Definition slow_fallocate : SwapFileManager.shell :=
  fun _ cmd =>
    if String.prefix "sudo fallocate " cmd
    then {| SwapFileManager.returncode := 0; SwapFileManager.stdout := EmptyString;
            SwapFileManager.stderr := EmptyString; SwapFileManager.elapsed := 31 |}
    else done_.

(** A machine on which [fallocate] is not supported. *)
Definition no_fallocate : SwapFileManager.shell :=
  fun _ cmd =>
    if String.prefix "sudo fallocate " cmd
    then {| SwapFileManager.returncode := 1; SwapFileManager.stdout := EmptyString;
            SwapFileManager.stderr := "fallocate: fallocate failed: Operation not supported";
            SwapFileManager.elapsed := 0 |}
    else done_.

(** A machine on which the path already holds a swap file. *)
Definition swap_file_present : SwapFileManager.shell :=
  fun _ cmd =>
    if String.prefix "file " cmd
    then {| SwapFileManager.returncode := 0;
            SwapFileManager.stdout := "/swapfile: Linux swap file, 4k page size";
            SwapFileManager.stderr := EmptyString; SwapFileManager.elapsed := 0 |}
    else done_.

(** Two disks, as [list_disks_and_partitions] leaves them. *)
Definition two_disks : SwapManagerRun.world :=
  {| SwapManagerRun.disks :=
       [ {| SwapManagerRun.name := "sda"; SwapManagerRun.size := "10G";
            SwapManagerRun.model := "QEMU" |};
         {| SwapManagerRun.name := "sdb"; SwapManagerRun.size := "20G";
            SwapManagerRun.model := "QEMU" |} ];
     SwapManagerRun.issued := [];
     SwapManagerRun.fstab := Runtime.rw_fstab EmptyString |}.

(** A user who first types [0], then picks the second disk, and asks
    for 1.5 GiB after a mistyped size. *)
Definition picks_second : SwapManagerRun.user :=
  {| SwapManagerRun.disk_choice := fun round => match round with O => "0" | _ => "2" end;
     SwapManagerRun.disk_confirmed := fun _ => true;
     SwapManagerRun.size_answer :=
       fun round => match round with O => "lots" | _ => "1.5G" end;
     SwapManagerRun.go_back := fun _ => "n";
     SwapManagerRun.size_confirmed := fun _ => true;
     SwapManagerRun.proceed := true |}.

(** A machine with the disks [sda] and [sdb], each with 2 GiB free in a
    row without closing semicolon, which [get_free_space_gib] counts. *)
Definition two_disk_machine : SwapManagerRun.shell :=
  fun _ c =>
    match c with
    | SwapManagerRun.LsblkDisks =>
        answer (lines ["sda 10G disk QEMU"; "sr0 1G rom"; "sdb 20G disk QEMU"])
    | SwapManagerRun.LsblkPartitions _ => answer "sda1 8G part /"
    | SwapManagerRun.Partition (SwapManager.PartedPrintFree _) =>
        answer (lines ["BYT;"; "1:8.00GiB:10.0GiB:2.00GiB:free"])
    | SwapManagerRun.Partition (SwapManager.LsblkSize _) => answer "21474836480"
    | _ => answer EmptyString
    end.

(** A disk with 2 GiB free, in the rows [parted -m] prints: every row
    ends in a semicolon. *)
Definition parted_rows_with_2gib_free : SwapManager.shell :=
  fun _ cmd =>
    match cmd with
    | SwapManager.PartedPrintFree _ =>
        answer (lines ["BYT;"; "/dev/sda:10.0GiB:scsi:512:512:gpt:QEMU HARDDISK:;";
                       "1:0.00GiB:8.00GiB:8.00GiB:ext4::;";
                       "1:8.00GiB:10.0GiB:2.00GiB:free;"])
    | _ => answer EmptyString
    end.

(** [n] times the character [c]. *)
Fixpoint replicate (n : nat) (c : ascii) : string :=
  match n with
  | O => EmptyString
  | S k => String c (replicate k c)
  end.

(** A machine on which every command succeeds at once. *)
Definition all_succeed : SwapFileManager.shell := fun _ _ => done_.

Definition with_fs (fs path : string) : SwapFileManager.manager :=
  {| SwapFileManager.swap_file_path := path;
     SwapFileManager.size := "1G";
     SwapFileManager.size_bytes := 1073741824;
     SwapFileManager.fs_type := Some fs;
     SwapFileManager.debug_mode := false;
     SwapFileManager.retry_count := 0;
     SwapFileManager.max_retries := 2 |}.

Definition start (m : SwapFileManager.manager) : SwapFileManager.world :=
  {| SwapFileManager.self := m;
     SwapFileManager.issued := [];
     SwapFileManager.fstab := Runtime.rw_fstab EmptyString |}.

(** How many of the commands issued are the first step of the COW-safe
    strategy. *)
Definition attempts (w : SwapFileManager.world) : nat :=
  List.length (filter (String.prefix "sudo truncate ") (SwapFileManager.issued w)).

End Examples.

(** ** Notions used in the proofs *)

(** A character that can neither continue nor extend a numeric literal. *)
Definition stops_number (c : ascii) : bool :=
  negb (PyStr.isdigit c) && negb (Ascii.eqb c ".").

(** Every spelling of the six unit tokens. *)
Definition unit_spellings : list string :=
  [ "m"; "M"; "g"; "G";
    "mb"; "mB"; "Mb"; "MB"; "gb"; "gB"; "Gb"; "GB";
    "mib"; "miB"; "mIb"; "mIB"; "Mib"; "MiB"; "MIb"; "MIB";
    "gib"; "giB"; "gIb"; "gIB"; "Gib"; "GiB"; "GIb"; "GIB" ].

(** Characters of a numeric literal: digits and the point. *)
Fixpoint number_chars (s : string) : bool :=
  match s with
  | EmptyString => true
  | String c r => (PyStr.isdigit c || Ascii.eqb c ".") && number_chars r
  end.

(** [a] does not occur in [s]. *)
Fixpoint no_char (a : ascii) (s : string) : bool :=
  match s with
  | EmptyString => true
  | String c r => negb (Ascii.eqb c a) && no_char a r
  end.

(** No blank occurs in [s]. *)
Fixpoint no_space (s : string) : bool :=
  match s with
  | EmptyString => true
  | String c r => negb (PyStr.isspace c) && no_space r
  end.

(** The commands of the dialogue that only read the disks. *)
Definition read_only (c : SwapManagerRun.command) : bool :=
  match c with
  | SwapManagerRun.LsblkDisks => true
  | SwapManagerRun.LsblkPartitions _ => true
  | SwapManagerRun.PartedFreeMiB _ => true
  | SwapManagerRun.Partition (SwapManager.PartedPrintFree _) => true
  | SwapManagerRun.Partition _ => false
  end.

(** What a step of the dialogue may do before anything is created: run
    read-only commands, and leave the disks listed and the mount table
    as they are. *)
Definition only_probes {A : Type} (m : Runtime.M SwapManagerRun.world A) : Prop :=
  forall w,
    SwapManagerRun.disks (snd (m w)) = SwapManagerRun.disks w /\
    SwapManagerRun.fstab (snd (m w)) = SwapManagerRun.fstab w /\
    exists probes,
      SwapManagerRun.issued (snd (m w)) = (SwapManagerRun.issued w ++ probes)%list /\
      forallb read_only probes = true.

(** After the commands [history], [parted ... print free] answers on
    [disk], and the requested size, as [check_free_space] computes it
    in GiB, is not greater than the largest free extent it reports. *)
Definition fits_reported_space (sh : SwapManagerRun.shell)
    (history : list SwapManagerRun.command) (disk size : string) : Prop :=
  let probe := sh history (SwapManagerRun.Partition (SwapManager.PartedPrintFree disk)) in
  exists num unit,
    SwapManager.read_request size = Some (num, unit) /\
    SwapManager.returncode probe = 0%Z /\
    PyFloat.gt (SwapManager.size_in_gib num unit)
      (SwapManager.largest_free
         (SwapManager.free_spaces (PyStr.strip (SwapManager.stdout probe))))
    = false.

(** A float that is a number not below zero: [0.0], a positive number
    or [inf]; no NaN and nothing with the sign bit set. *)
Definition not_negative (x : PyFloat.float) : bool :=
  match x with
  | S754_zero s => negb s
  | S754_infinity s => negb s
  | S754_finite s _ _ => negb s
  | S754_nan => false
  end.

(** The float that [float()] gives for the literal [ip g], where [g]
    is empty or a point and the digits of the fraction. *)
Definition literal_float (ip g : string) : PyFloat.float :=
  let fp := match g with
            | EmptyString => EmptyString
            | String _ d => d
            end in
  PyFloat.scaled (PyStr.digits_value 0 (ip ++ fp)) (- Z.of_nat (String.length fp)).

(** The place of a float in the order of the numbers: the sign, then
    the exponent, then the mantissa.  A NaN has no place; it is given
    that of zero. *)
Definition float_rank (x : PyFloat.float) : Z * Z * Z :=
  match x with
  | S754_infinity true => (-2, 0, 0)%Z
  | S754_finite true m e => (-1, - e, Zneg m)%Z
  | S754_zero _ | S754_nan => (0, 0, 0)%Z
  | S754_finite false m e => (1, e, Zpos m)%Z
  | S754_infinity false => (2, 0, 0)%Z
  end.

Definition rank_lt (a b : Z * Z * Z) : Prop :=
  let '(a1, a2, a3) := a in
  let '(b1, b2, b3) := b in
  (a1 < b1 \/ a1 = b1 /\ (a2 < b2 \/ a2 = b2 /\ a3 < b3))%Z.

(** Induction on directory trees. *)
Fixpoint dir_induction (P : CacheCleaner.dir -> Prop) (Hu : P CacheCleaner.unreadable)
    (Hl : forall entries,
        Forall (fun e => match e with
                         | CacheCleaner.directory sub => P sub
                         | _ => True
                         end) entries ->
        P (CacheCleaner.listing entries))
    (d : CacheCleaner.dir) : P d :=
  match d with
  | CacheCleaner.unreadable => Hu
  | CacheCleaner.listing entries =>
      Hl entries
        ((fix each (l : list CacheCleaner.entry) :=
            match l return Forall (fun e => match e with
                                            | CacheCleaner.directory sub => P sub
                                            | _ => True
                                            end) l with
            | [] => Forall_nil _
            | e :: t =>
                Forall_cons e
                  (match e return match e with
                                  | CacheCleaner.directory sub => P sub
                                  | _ => True
                                  end with
                   | CacheCleaner.directory sub => dir_induction P Hu Hl sub
                   | _ => I
                   end)
                  (each t)
            end) entries)
  end.

(** The bytes of the regular files directly in a directory. *)
Definition bytes_in (d : CacheCleaner.dir) : N :=
  match d with
  | CacheCleaner.unreadable => 0
  | CacheCleaner.listing entries =>
      fold_left
        (fun total e =>
           match e with
           | CacheCleaner.regular_file st_size => total + st_size
           | _ => total
           end)%N
        entries 0%N
  end.

(** A directory without subdirectories. *)
Definition flat (d : CacheCleaner.dir) : bool :=
  match d with
  | CacheCleaner.unreadable => true
  | CacheCleaner.listing entries =>
      forallb (fun e => match e with
                        | CacheCleaner.directory _ => false
                        | _ => true
                        end) entries
  end.

(** A size that is a number not below zero. *)
Definition size_not_negative (n : CacheCleaner.number) : bool :=
  match n with
  | CacheCleaner.Int z => (0 <=? z)%Z
  | CacheCleaner.Float x => not_negative x
  end.

(** What a call may end with: a size not below zero, or the
    [OverflowError] of the arithmetic. *)
Definition size_or_overflow (r : PyFloat.error + CacheCleaner.number) : Prop :=
  match r with
  | inl e => e = PyFloat.OverflowError
  | inr n => size_not_negative n = true
  end.

(** A text without colon. *)
Fixpoint no_colon (s : string) : bool :=
  match s with
  | EmptyString => true
  | String c r => negb (Ascii.eqb c ":") && no_colon r
  end.

(** The row that [parted -m ... print free] prints for a free extent:
    five fields, the last one [free], and the semicolon that closes
    every row of the machine-readable output. *)
Definition parted_free_row (number start end_ size : string) : string :=
  number ++ ":" ++ start ++ ":" ++ end_ ++ ":" ++ size ++ ":free;".

(** The commands issued in [w'] continue those issued in [w]. *)
Definition extends (w w' : SwapFileManager.world) : Prop :=
  exists more, SwapFileManager.issued w' = (SwapFileManager.issued w ++ more)%list.

(** A computation that only adds to the commands issued. *)
Definition grows {A : Type} (m : Runtime.M SwapFileManager.world A) : Prop :=
  forall w, extends w (snd (m w)).

(** The commands of one run of [create_swap_partition] on [disk], in the
    order of the source, or a beginning of them. *)
Definition partition_sequence (disk : string) (done : list SwapManager.command) : bool :=
  match done with
  | [] => true
  | SwapManager.SfdiskDump d0 _ :: r1 =>
      String.eqb d0 disk &&
      match r1 with
      | [] => true
      | SwapManager.LsblkNames d1 :: r2 =>
          String.eqb d1 disk &&
          match r2 with
          | [] => true
          | SwapManager.PartedPrint d2 :: r3 =>
              String.eqb d2 disk &&
              match r3 with
              | [] => true
              | SwapManager.LsblkSize d3 :: r4 =>
                  String.eqb d3 disk &&
                  match r4 with
                  | [] => true
                  | SwapManager.Mkpart d4 _ _ :: r5 =>
                      String.eqb d4 disk &&
                      match r5 with
                      | [] => true
                      | SwapManager.LsblkNames d5 :: r6 =>
                          String.eqb d5 disk &&
                          match r6 with
                          | [] => true
                          | SwapManager.Mkswap p :: r7 =>
                              match r7 with
                              | [] => true
                              | [SwapManager.Swapon p'] => String.eqb p p'
                              | _ => false
                              end
                          | _ => false
                          end
                      | _ => false
                      end
                  | _ => false
                  end
              | _ => false
              end
          | _ => false
          end
      | _ => false
      end
  | _ => false
  end.

(** The name [backup_partition_table] gives to the dump of [disk]. *)
Definition backup_name (timestamp disk : string) : string :=
  "/tmp/partition_table_" ++ PyStr.remove "/dev/" disk ++ "_" ++ timestamp ++ ".backup".

(** How many runs of the COW-safe steps were started: the commands issued
    that begin like its first step. *)
Definition attempts_made (w : SwapFileManager.world) : nat :=
  List.length (filter (String.prefix "sudo truncate -s 0 ") (SwapFileManager.issued w)).

(** A computation of the swap-file manager that leaves the mount table
    and the path of the swap file alone, never ends the process, raises
    nothing but [CalledProcessError], and only adds to the commands
    issued. *)
Definition well_behaved {A : Type} (m : Runtime.M SwapFileManager.world A) : Prop :=
  forall w,
    SwapFileManager.fstab (snd (m w)) = SwapFileManager.fstab w /\
    SwapFileManager.swap_file_path (SwapFileManager.self (snd (m w)))
    = SwapFileManager.swap_file_path (SwapFileManager.self w) /\
    (forall code, fst (m w) <> Runtime.SysExit code) /\
    (forall e, fst (m w) = Runtime.Raised e ->
               SwapFileManager.is_called_process_error e = true) /\
    extends w (snd (m w)).

(** No command line of the COW-safe steps holds the text that the retry
    test looks for. *)
Definition steps_silent (m : SwapFileManager.manager) : bool :=
  forallb (fun step => negb (PyStr.contains "Invalid argument" (snd step)))
    (SwapFileManager.btrfs_steps m).

(** The command lines of the six steps of the COW-safe strategy. *)
Definition cow_safe_commands (m : SwapFileManager.manager) : list string :=
  map snd (SwapFileManager.btrfs_steps m).

(** The two command lines of [cleanup_swap_file]. *)
Definition cleanup_commands (m : SwapFileManager.manager) : list string :=
  [ "sudo swapoff " ++ SwapFileManager.swap_file_path m;
    "sudo rm -f " ++ SwapFileManager.swap_file_path m ].

(** The commands of a run of the COW-safe strategy alone: attempts that
    run the first [k] of the six steps, each of the [earlier] ones
    followed by a cleanup, and a last attempt of [last] steps. *)
Definition cow_safe_trace (m : SwapFileManager.manager) (earlier : list nat)
    (last : nat) : list string :=
  (flat_map (fun k => firstn k (cow_safe_commands m) ++ cleanup_commands m) earlier
   ++ firstn last (cow_safe_commands m))%list.

(** The attributes [m'] continue [m]: same file, same size, same bound
    on the retries, and a retry counter that did not go down. *)
Definition continues (m m' : SwapFileManager.manager) : Prop :=
  SwapFileManager.swap_file_path m' = SwapFileManager.swap_file_path m /\
  SwapFileManager.size m' = SwapFileManager.size m /\
  SwapFileManager.max_retries m' = SwapFileManager.max_retries m /\
  (SwapFileManager.retry_count m <= SwapFileManager.retry_count m')%nat.

(** What a run [r] of the COW-safe strategy from [w] did, when the
    commands [done] of its current attempt were issued before it. *)
Definition cow_safe_run {A : Type} (m : SwapFileManager.manager) (done : list string)
    (w : SwapFileManager.world) (r : Runtime.outcome A * SwapFileManager.world) : Prop :=
  continues m (SwapFileManager.self (snd r)) /\
  SwapFileManager.fstab (snd r) = SwapFileManager.fstab w /\
  exists tail earlier last,
    SwapFileManager.issued (snd r) = (SwapFileManager.issued w ++ tail)%list /\
    (done ++ tail)%list = cow_safe_trace m earlier last /\
    Forall (fun k => 1 <= k <= 6)%nat earlier /\
    (last <= 6)%nat /\
    (fst r <> Runtime.OutOfFuel -> 1 <= last)%nat /\
    ((exists a, fst r = Runtime.Returned a) -> last = 6%nat).

(** ** Facts about the string primitives *)

(** The primitives on small inputs. *)
Example findall_number_whole_matches :
  Re.findall_number "a1.5G33x4." = ["1.5"; "33"; "4"].
Proof. reflexivity. Qed.

Example findall_number_group_texts :
  Re.findall_number_group "1.5G" = [".5"] /\ Re.findall_number_group "2GiB" = [EmptyString].
Proof. split; reflexivity. Qed.

Example findall_unit_takes_first_alternative :
  Re.findall_unit "12MBGBxgibm" = ["M"; "G"; "gib"; "m"].
Proof. reflexivity. Qed.

Example splitlines_drops_the_last_break :
  PyStr.splitlines (Examples.lines ["a"; EmptyString; "b"; EmptyString])
  = ["a"; EmptyString; "b"].
Proof. reflexivity. Qed.

Example split_keeps_empty_fields :
  PyStr.split ":" "1:0.00GiB::free:" = ["1"; "0.00GiB"; EmptyString; "free"; EmptyString].
Proof. reflexivity. Qed.

Example remove_is_not_repeated : PyStr.remove "GiB" "1.50GiBGGiBiB" = "1.50GiB".
Proof. reflexivity. Qed.

Example float_forms :
  PyNum.float ".5" = Some (5 # 10) /\ PyNum.float "2.00" = Some (200 # 100) /\
  PyNum.float EmptyString = None /\ PyNum.float "1e3" = None.
Proof. repeat split; reflexivity. Qed.

Example accept_size_has_a_floor :
  Size.accept_size "64M" = inl 67108864%Z /\
  Size.accept_size "63M" = inr Size.SizeTooSmall /\
  Size.accept_size "0G" = inr Size.SizeTooSmall.
Proof. repeat split; reflexivity. Qed.

Lemma span_digits_spec (s d t : string) :
  PyStr.span_digits s = (d, t) ->
  s = d ++ t /\ Spec.all_digits d = true /\
  match t with String c _ => PyStr.isdigit c = false | EmptyString => True end.
Proof.
  revert d t; induction s as [|c r IH]; simpl; intros d t H.
  - inversion H; subst; auto.
  - destruct (PyStr.isdigit c) eqn:Hc.
    + destruct (PyStr.span_digits r) as [d' t'] eqn:Hr.
      inversion H; subst; clear H.
      destruct (IH d' t eq_refl) as (-> & Hd & Ht).
      simpl; rewrite Hc, Hd; auto.
    + inversion H; subst; simpl; auto.
Qed.

Lemma span_digits_app (d t : string) :
  Spec.all_digits d = true ->
  match t with String c _ => PyStr.isdigit c = false | EmptyString => True end ->
  PyStr.span_digits (d ++ t) = (d, t).
Proof.
  intros Hd Ht; induction d as [|c r IH]; simpl in *.
  - destruct t as [|c t']; simpl; [reflexivity|now rewrite Ht].
  - apply andb_true_iff in Hd as [Hc Hr]; rewrite Hc, (IH Hr); reflexivity.
Qed.

Lemma is_empty_true (s : string) : PyStr.is_empty s = true <-> s = EmptyString.
Proof. destruct s; simpl; split; intros H; congruence. Qed.

Lemma is_empty_false (s : string) : PyStr.is_empty s = false <-> s <> EmptyString.
Proof. destruct s; simpl; split; intros H; congruence. Qed.

Lemma match_literal_spec (tok s m r : string) :
  Re.match_literal tok s = Some (m, r) ->
  s = m ++ r /\ PyStr.lower m = PyStr.lower tok.
Proof.
  revert s m r; induction tok as [|t tok IH]; simpl; intros s m r H.
  - inversion H; subst; auto.
  - destruct s as [|c s']; [discriminate|].
    destruct (Ascii.eqb _ _) eqn:E; [|discriminate].
    destruct (Re.match_literal tok s') as [[m' r']|] eqn:E'; [|discriminate].
    inversion H; subst; clear H.
    destruct (IH _ _ _ E') as [-> Hl].
    apply Ascii.eqb_eq in E; simpl; rewrite Hl, E; auto.
Qed.

Lemma match_literal_app (tok m r : string) :
  PyStr.lower m = PyStr.lower tok ->
  Re.match_literal tok (m ++ r) = Some (m, r).
Proof.
  revert m; induction tok as [|t tok IH]; intros [|c m] H; simpl in *;
    try discriminate; try reflexivity.
  inversion H as [[Hc Hm]].
  rewrite Hc, Ascii.eqb_refl, (IH _ Hm); reflexivity.
Qed.

Lemma lower_idempotent (s : string) : PyStr.lower (PyStr.lower s) = PyStr.lower s.
Proof.
  induction s as [|c r IH]; simpl; [reflexivity|].
  rewrite IH; f_equal.
  destruct c as [[] [] [] [] [] [] [] []]; reflexivity.
Qed.

(** ** Reading a size string *)

Lemma match_number_spec (s ip g rest : string) :
  Re.match_number s = Some (ip, g, rest) ->
  s = ip ++ g ++ rest /\ Spec.numeric_literal ip g.
Proof.
  unfold Re.match_number, Spec.numeric_literal.
  destruct (PyStr.span_digits s) as [d t] eqn:Hs.
  destruct (span_digits_spec _ _ _ Hs) as (-> & Hd & Ht).
  destruct (PyStr.is_empty d) eqn:Hd0; [discriminate|].
  apply is_empty_false in Hd0.
  destruct t as [|c t'].
  - intros H; inversion H; subst; auto.
  - destruct (Ascii.eqb c ".") eqn:Hc.
    + apply Ascii.eqb_eq in Hc; subst c.
      destruct (PyStr.span_digits t') as [fp t''] eqn:Hf.
      destruct (span_digits_spec _ _ _ Hf) as (-> & Hfp & _).
      destruct (PyStr.is_empty fp) eqn:Hfp0; intros H; inversion H; subst; clear H.
      * auto.
      * apply is_empty_false in Hfp0. split; [reflexivity|].
        repeat split; auto. right; exists fp; auto.
    + intros H; inversion H; subst; auto.
Qed.

Lemma match_number_app (ip g : string) (c : ascii) (rest : string) :
  Spec.numeric_literal ip g ->
  stops_number c = true ->
  Re.match_number (ip ++ g ++ String c rest) = Some (ip, g, String c rest).
Proof.
  intros (Hip & Hne & Hg) Hc.
  unfold stops_number in Hc. apply andb_true_iff in Hc as [Hd Hp].
  apply negb_true_iff in Hd, Hp.
  unfold Re.match_number.
  apply is_empty_false in Hne.
  destruct Hg as [->|(d & -> & Hd1 & Hd2)]; simpl.
  - rewrite (span_digits_app ip (String c rest) Hip Hd), Hne, Hp; reflexivity.
  - rewrite (span_digits_app ip (String "." (d ++ String c rest)) Hip eq_refl), Hne.
    change (Ascii.eqb "." ".") with true; cbv iota.
    rewrite (span_digits_app d (String c rest) Hd1 Hd).
    apply is_empty_false in Hd2; rewrite Hd2; reflexivity.
Qed.

Lemma append_empty_r (s : string) : s ++ EmptyString = s.
Proof. induction s as [|c r IH]; simpl; [reflexivity|now rewrite IH]. Qed.

Lemma append_assoc (a b c : string) : (a ++ b) ++ c = a ++ b ++ c.
Proof. induction a as [|x a IH]; simpl; [reflexivity|now rewrite IH]. Qed.

Lemma match_number_end (ip g : string) :
  Spec.numeric_literal ip g ->
  Re.match_number (ip ++ g) = Some (ip, g, EmptyString).
Proof.
  intros (Hip & Hne & Hg).
  unfold Re.match_number.
  apply is_empty_false in Hne.
  destruct Hg as [->|(d & -> & Hd1 & Hd2)]; simpl.
  - rewrite (span_digits_app ip EmptyString Hip I), Hne; reflexivity.
  - rewrite (span_digits_app ip (String "." d) Hip eq_refl), Hne.
    change (Ascii.eqb "." ".") with true; cbv iota.
    rewrite <- (append_empty_r d) at 1.
    rewrite (span_digits_app d EmptyString Hd1 I).
    apply is_empty_false in Hd2; rewrite Hd2; reflexivity.
Qed.

Lemma in_list_iff (u : string) (l : list string) : Size.in_list u l = true <-> In u l.
Proof.
  unfold Size.in_list; rewrite existsb_exists; split.
  - intros (x & Hx & E); apply String.eqb_eq in E; subst; exact Hx.
  - intros H; exists u; split; [exact H|apply String.eqb_refl].
Qed.

(** The six spellings of a unit token, up to case. *)
Lemma unit_token_cases (u : string) :
  Spec.unit_token u = true ->
  PyStr.lower u = "mib" \/ PyStr.lower u = "gib" \/ PyStr.lower u = "m" \/
  PyStr.lower u = "g" \/ PyStr.lower u = "mb" \/ PyStr.lower u = "gb".
Proof.
  unfold Spec.unit_token; rewrite in_list_iff; simpl.
  intuition (auto; try contradiction).
Qed.

Lemma lower_char_letter (c : ascii) :
  (PyStr.lower_char c = "m" \/ PyStr.lower_char c = "g")%char ->
  stops_number c = true.
Proof.
  destruct c as [[] [] [] [] [] [] [] []]; vm_compute;
    intros [H|H]; try reflexivity; discriminate H.
Qed.

Lemma unit_token_head (u : string) :
  Spec.unit_token u = true ->
  exists c u', u = String c u' /\ stops_number c = true.
Proof.
  intros H; apply unit_token_cases in H.
  destruct u as [|c u']; simpl in H.
  - intuition discriminate.
  - exists c, u'; split; [reflexivity|].
    apply lower_char_letter.
    destruct H as [H|[H|[H|[H|[H|H]]]]]; inversion H; auto.
Qed.

Lemma at_dollar_iff (r : string) :
  Re.at_dollar r = true <-> r = EmptyString \/ r = String PyStr.LF EmptyString.
Proof.
  destruct r as [|c [|c' r']]; simpl; split; intros H; auto.
  - apply Ascii.eqb_eq in H; subst; auto.
  - destruct H as [H|H]; inversion H; apply Ascii.eqb_refl.
  - discriminate.
  - destruct H as [H|H]; inversion H.
Qed.

Lemma unit_tokens_lower (tok : string) :
  In tok Re.unit_tokens -> Spec.unit_token tok = true.
Proof.
  simpl; intros H.
  destruct H as [H|[H|[H|[H|[H|[H|[]]]]]]]; subst; reflexivity.
Qed.

Lemma unit_token_has_pattern (u : string) :
  Spec.unit_token u = true ->
  exists tok, In tok Re.unit_tokens /\ PyStr.lower u = PyStr.lower tok.
Proof.
  intros H; apply unit_token_cases in H.
  destruct H as [H|[H|[H|[H|[H|H]]]]]; rewrite H;
    [exists "MiB"|exists "GiB"|exists "M"|exists "G"|exists "MB"|exists "GB"];
    simpl; intuition.
Qed.

(** What [validate_size] accepts. *)
Lemma validate_size_shape (s : string) :
  Size.validate_size s = true <-> Spec.size_shape_lf s.
Proof.
  unfold Size.validate_size, Re.match_size, Spec.size_shape_lf; split.
  - destruct (Re.match_number s) as [[[ip g] rest]|] eqn:Hm; [|discriminate].
    destruct (match_number_spec _ _ _ _ Hm) as [-> Hlit].
    rewrite existsb_exists; intros (tok & Htok & H).
    destruct (Re.match_literal tok rest) as [[m r]|] eqn:Hl; [|discriminate].
    destruct (match_literal_spec _ _ _ _ Hl) as [-> Hlow].
    exists ip, g, m; split; [exact Hlit|split].
    + unfold Spec.unit_token; rewrite Hlow; apply (unit_tokens_lower _ Htok).
    + apply at_dollar_iff in H as [->| ->]; [left|right]; auto.
      now rewrite append_empty_r.
  - intros (ip & g & u & Hlit & Hu & Hs).
    destruct (unit_token_head _ Hu) as (c & u' & -> & Hc).
    destruct (unit_token_has_pattern _ Hu) as (tok & Htok & Hlow).
    assert (E : exists r, s = ip ++ g ++ String c (u' ++ r) /\ Re.at_dollar r = true).
    { destruct Hs as [-> | ->].
      - exists EmptyString; rewrite append_empty_r; auto.
      - exists (String PyStr.LF EmptyString); split; [reflexivity|].
        reflexivity. }
    destruct E as (r & -> & Hr).
    rewrite (match_number_app ip g c (u' ++ r) Hlit Hc).
    apply existsb_exists; exists tok; split; [exact Htok|].
    change (String c (u' ++ r)) with (String c u' ++ r).
    rewrite (match_literal_app tok (String c u') r Hlow); exact Hr.
Qed.

Lemma lower_char_m (c : ascii) : PyStr.lower_char c = "m"%char -> c = "m"%char \/ c = "M"%char.
Proof.
  destruct c as [[] [] [] [] [] [] [] []]; vm_compute; intros H;
    try discriminate H; auto.
Qed.

Lemma lower_char_g (c : ascii) : PyStr.lower_char c = "g"%char -> c = "g"%char \/ c = "G"%char.
Proof.
  destruct c as [[] [] [] [] [] [] [] []]; vm_compute; intros H;
    try discriminate H; auto.
Qed.

Lemma lower_char_i (c : ascii) : PyStr.lower_char c = "i"%char -> c = "i"%char \/ c = "I"%char.
Proof.
  destruct c as [[] [] [] [] [] [] [] []]; vm_compute; intros H;
    try discriminate H; auto.
Qed.

Lemma lower_char_b (c : ascii) : PyStr.lower_char c = "b"%char -> c = "b"%char \/ c = "B"%char.
Proof.
  destruct c as [[] [] [] [] [] [] [] []]; vm_compute; intros H;
    try discriminate H; auto.
Qed.

Ltac spell_out :=
  repeat match goal with
         | H : PyStr.lower ?u = String _ _ |- _ =>
             destruct u; simpl in H; [discriminate H|];
             injection H as ? H
         | H : PyStr.lower ?u = EmptyString |- _ =>
             destruct u; simpl in H; [clear H|discriminate H]
         | H : PyStr.lower_char _ = "m"%char |- _ => apply lower_char_m in H; destruct H; subst
         | H : PyStr.lower_char _ = "g"%char |- _ => apply lower_char_g in H; destruct H; subst
         | H : PyStr.lower_char _ = "i"%char |- _ => apply lower_char_i in H; destruct H; subst
         | H : PyStr.lower_char _ = "b"%char |- _ => apply lower_char_b in H; destruct H; subst
         end.

Lemma unit_token_spelling (u : string) :
  Spec.unit_token u = true -> In u unit_spellings.
Proof.
  intros H; apply unit_token_cases in H.
  destruct H as [H|[H|[H|[H|[H|H]]]]]; spell_out; simpl; tauto.
Qed.

(** On a unit token, and on one followed by a line feed, the alternation
    of [findall] matches a token of the same unit class. *)
Lemma unit_first_match (u r : string) :
  Spec.unit_token u = true ->
  r = EmptyString \/ r = String PyStr.LF EmptyString ->
  exists m rest,
    Re.match_first Re.unit_tokens (u ++ r) = Some (m, rest) /\
    Size.in_list (PyStr.lower m) ["g"; "gb"; "gib"]
      = Size.in_list (PyStr.lower u) ["g"; "gb"; "gib"] /\
    Size.in_list (PyStr.lower m) ["m"; "mb"; "mib"]
      = Size.in_list (PyStr.lower u) ["m"; "mb"; "mib"] /\
    (Size.in_list (PyStr.lower m) ["g"; "gb"; "gib"]
     || Size.in_list (PyStr.lower m) ["m"; "mb"; "mib"] = true).
Proof.
  intros Hu Hr; apply unit_token_spelling in Hu.
  unfold unit_spellings in Hu.
  repeat (destruct Hu as [<-|Hu];
          [destruct Hr as [-> | ->]; eexists; eexists;
           (split; [reflexivity|repeat split; reflexivity])|]).
  destruct Hu.
Qed.

Lemma string_length_app (a b : string) :
  String.length (a ++ b) = (String.length a + String.length b)%nat.
Proof. induction a as [|c a IH]; simpl; [reflexivity|now rewrite IH]. Qed.

Lemma number_chars_app (a b : string) :
  number_chars (a ++ b) = number_chars a && number_chars b.
Proof.
  induction a as [|c a IH]; simpl; [reflexivity|].
  rewrite IH; apply andb_assoc.
Qed.

Lemma all_digits_number_chars (d : string) :
  Spec.all_digits d = true -> number_chars d = true.
Proof.
  induction d as [|c d IH]; simpl; [reflexivity|].
  intros H; apply andb_true_iff in H as [Hc Hd]; rewrite Hc, (IH Hd); reflexivity.
Qed.

Lemma literal_number_chars (ip g : string) :
  Spec.numeric_literal ip g -> number_chars (ip ++ g) = true.
Proof.
  intros (Hip & _ & Hg); rewrite number_chars_app, (all_digits_number_chars _ Hip).
  destruct Hg as [->|(d & -> & Hd & _)]; simpl; [reflexivity|].
  apply (all_digits_number_chars _ Hd).
Qed.

Lemma match_first_number_char (c : ascii) (x : string) :
  PyStr.isdigit c || Ascii.eqb c "." = true ->
  Re.match_first Re.unit_tokens (String c x) = None.
Proof.
  destruct c as [[] [] [] [] [] [] [] []]; intros H;
    try discriminate H; reflexivity.
Qed.

Lemma scan_units_skip (pre rest : string) (n : nat) :
  number_chars pre = true ->
  Re.scan_units (String.length pre + n) (pre ++ rest) = Re.scan_units n rest.
Proof.
  induction pre as [|c pre IH]; intros H; [reflexivity|].
  simpl in H; apply andb_true_iff in H as [Hc Hp].
  change (Re.scan_units (String.length (String c pre) + n) (String c pre ++ rest))
    with (match Re.match_first Re.unit_tokens (String c (pre ++ rest)) with
          | Some (m, rest') => m :: Re.scan_units (String.length pre + n) rest'
          | None => Re.scan_units (String.length pre + n) (pre ++ rest)
          end).
  rewrite (match_first_number_char c _ Hc); exact (IH Hp).
Qed.

Lemma scan_numbers_head (s ip g rest : string) :
  Re.match_number s = Some (ip, g, rest) ->
  Re.scan_numbers (String.length s) s
  = (ip ++ g, g) :: Re.scan_numbers (String.length s - 1) rest.
Proof.
  destruct s as [|c s']; [discriminate|]; intros H.
  change (Re.scan_numbers (String.length (String c s')) (String c s'))
    with (match Re.match_number (String c s') with
          | Some (ip, g1, rest) => (ip ++ g1, g1) :: Re.scan_numbers (String.length s') rest
          | None => Re.scan_numbers (String.length s') s'
          end).
  rewrite H; simpl; rewrite Nat.sub_0_r; reflexivity.
Qed.

(** What the three [findall] calls and [float] give on an accepted size
    string. *)
Lemma accepted_reads (ip g u r : string) :
  Spec.numeric_literal ip g ->
  Spec.unit_token u = true ->
  r = EmptyString \/ r = String PyStr.LF EmptyString ->
  exists tl tl' m tl'',
    Re.findall_number (ip ++ g ++ u ++ r) = (ip ++ g) :: tl /\
    Re.findall_number_group (ip ++ g ++ u ++ r) = g :: tl' /\
    Re.findall_unit (ip ++ g ++ u ++ r) = m :: tl'' /\
    Size.in_list (PyStr.lower m) ["g"; "gb"; "gib"]
      = Size.in_list (PyStr.lower u) ["g"; "gb"; "gib"] /\
    Size.in_list (PyStr.lower m) ["m"; "mb"; "mib"]
      = Size.in_list (PyStr.lower u) ["m"; "mb"; "mib"] /\
    (Size.in_list (PyStr.lower m) ["g"; "gb"; "gib"]
     || Size.in_list (PyStr.lower m) ["m"; "mb"; "mib"] = true).
Proof.
  intros Hlit Hu Hr.
  destruct (unit_token_head _ Hu) as (c & u' & Eu & Hc).
  destruct (unit_first_match u r Hu Hr) as (m & rest & Hm & HA & HB & HAB).
  assert (Hn : Re.match_number (ip ++ g ++ u ++ r) = Some (ip, g, u ++ r)).
  { rewrite Eu; apply (match_number_app ip g c (u' ++ r) Hlit Hc). }
  pose proof (scan_numbers_head _ _ _ _ Hn) as Hs.
  exists (map fst (Re.scan_numbers (String.length (ip ++ g ++ u ++ r) - 1) (u ++ r))),
         (map snd (Re.scan_numbers (String.length (ip ++ g ++ u ++ r) - 1) (u ++ r))),
         m, (Re.scan_units (String.length u' + String.length r) rest).
  unfold Re.findall_number, Re.findall_number_group, Re.findall_unit.
  rewrite Hs; simpl map.
  repeat split; auto.
  rewrite <- (append_assoc ip g (u ++ r)), string_length_app.
  rewrite (scan_units_skip (ip ++ g) (u ++ r) _ (literal_number_chars _ _ Hlit)).
  rewrite string_length_app.
  subst u; simpl String.length.
  change (Re.scan_units (S (String.length u') + String.length r) (String c u' ++ r))
    with (match Re.match_first Re.unit_tokens (String c u' ++ r) with
          | Some (m, rest') => m :: Re.scan_units (String.length u' + String.length r) rest'
          | None => Re.scan_units (String.length u' + String.length r) (u' ++ r)
          end).
  rewrite Hm; reflexivity.
Qed.

Lemma shape_lf_split (s : string) :
  Spec.size_shape_lf s ->
  exists ip g u r, Spec.numeric_literal ip g /\ Spec.unit_token u = true /\
                   (r = EmptyString \/ r = String PyStr.LF EmptyString) /\
                   s = ip ++ g ++ u ++ r.
Proof.
  intros (ip & g & u & Hlit & Hu & [-> | ->]).
  - exists ip, g, u, EmptyString; rewrite append_empty_r; auto.
  - exists ip, g, u, (String PyStr.LF EmptyString); auto.
Qed.

(** ** Stripping a text without blanks *)

Lemma rev_append_app (a b acc : string) :
  PyStr.rev_append (a ++ b) acc = PyStr.rev_append b (PyStr.rev_append a acc).
Proof.
  revert acc; induction a as [|c a IH]; intros acc; simpl; [reflexivity|apply IH].
Qed.

Lemma rev_append_rev_append (a b c : string) :
  PyStr.rev_append (PyStr.rev_append a b) c = PyStr.rev_append b (a ++ c).
Proof.
  revert b c; induction a as [|x a IH]; intros b c; simpl; [reflexivity|].
  rewrite IH; reflexivity.
Qed.

Lemma rev_append_head (y acc : string) :
  y <> EmptyString -> no_space y = true ->
  exists c r, PyStr.rev_append y acc = String c r /\ PyStr.isspace c = false.
Proof.
  revert acc; induction y as [|c y IH]; intros acc Hne Hy; [congruence|].
  simpl in Hy; apply andb_true_iff in Hy as [Hc Hy].
  apply negb_true_iff in Hc.
  destruct y as [|c' y'].
  - exists c, acc; auto.
  - apply IH; [discriminate|exact Hy].
Qed.

Lemma no_space_app (a b : string) : no_space (a ++ b) = no_space a && no_space b.
Proof.
  induction a as [|c a IH]; simpl; [reflexivity|].
  rewrite IH; apply andb_assoc.
Qed.

(** [strip] removes a closing line feed and nothing else from a text
    without blanks. *)
Lemma strip_without_blanks (x r : string) :
  x <> EmptyString -> no_space x = true ->
  r = EmptyString \/ r = String PyStr.LF EmptyString ->
  PyStr.strip (x ++ r) = x.
Proof.
  intros Hne Hx Hr.
  unfold PyStr.strip.
  assert (Hl : PyStr.lstrip (x ++ r) = x ++ r).
  { destruct x as [|c x']; [congruence|].
    simpl in Hx; apply andb_true_iff in Hx as [Hc _].
    apply negb_true_iff in Hc; simpl; rewrite Hc; reflexivity. }
  rewrite Hl; unfold PyStr.rev at 2; rewrite rev_append_app.
  destruct (rev_append_head x EmptyString Hne Hx) as (c & t & E & Hc).
  assert (Hs : PyStr.lstrip (PyStr.rev_append r (PyStr.rev_append x EmptyString))
               = PyStr.rev_append x EmptyString).
  { destruct Hr as [-> | ->]; simpl; rewrite E; simpl; rewrite Hc; reflexivity. }
  rewrite Hs; unfold PyStr.rev.
  rewrite rev_append_rev_append; simpl; apply append_empty_r.
Qed.

Lemma number_char_plain (c : ascii) :
  PyStr.isdigit c || Ascii.eqb c "." = true ->
  PyStr.isspace c = false /\ PyStr.upper_char c = c /\
  (forall l, String.eqb (String c l) "G" = false) /\
  (forall l, String.eqb (String c l) "M" = false) /\
  (forall l, String.eqb (String c l) "K" = false) /\
  (forall l, String.eqb (String c l) "B" = false).
Proof.
  destruct c as [[] [] [] [] [] [] [] []]; intros H; try discriminate H;
    repeat split; reflexivity.
Qed.

Lemma number_chars_no_space (y : string) : number_chars y = true -> no_space y = true.
Proof.
  induction y as [|c y IH]; simpl; [reflexivity|].
  intros H; apply andb_true_iff in H as [Hc Hy].
  destruct (number_char_plain c Hc) as (-> & _); rewrite (IH Hy); reflexivity.
Qed.

Lemma upper_number (y t : string) :
  number_chars y = true -> PyStr.upper (y ++ t) = y ++ PyStr.upper t.
Proof.
  induction y as [|c y IH]; simpl; [reflexivity|].
  intros H; apply andb_true_iff in H as [Hc Hy].
  destruct (number_char_plain c Hc) as (_ & -> & _); rewrite (IH Hy); reflexivity.
Qed.

Lemma endswith_after_number (y t : string) (l : ascii) :
  In l ["G"; "M"; "K"; "B"]%char ->
  number_chars y = true ->
  PyStr.endswith (y ++ t) (String l EmptyString)
  = PyStr.endswith t (String l EmptyString).
Proof.
  intros Hl; induction y as [|c y IH]; [reflexivity|].
  intros H; simpl in H; apply andb_true_iff in H as [Hc Hy].
  destruct (number_char_plain c Hc) as (_ & _ & HG & HM & HK & HB).
  change (PyStr.endswith (String c y ++ t) (String l EmptyString))
    with (String.eqb (String c (y ++ t)) (String l EmptyString)
          || PyStr.endswith (y ++ t) (String l EmptyString)).
  rewrite (IH Hy).
  simpl in Hl; destruct Hl as [<-|[<-|[<-|[<-|[]]]]];
    [rewrite HG|rewrite HM|rewrite HK|rewrite HB]; reflexivity.
Qed.

Lemma drop_last_letter (y : string) (l : ascii) :
  PyStr.drop_last (y ++ String l EmptyString) = y.
Proof.
  induction y as [|c y IH]; [reflexivity|].
  change (PyStr.drop_last (String c y ++ String l EmptyString))
    with (match y ++ String l EmptyString with
          | EmptyString => EmptyString
          | String _ _ => String c (PyStr.drop_last (y ++ String l EmptyString))
          end).
  rewrite IH; destruct y; reflexivity.
Qed.

(** ** Floats of the size parsers *)

Lemma digits_tail_literal (d t : string) :
  Spec.all_digits d = true ->
  t = EmptyString \/ (exists t', t = String "." t') ->
  PyFloat.digits_tail (d ++ t) = (d, t).
Proof.
  intros Hd Ht; induction d as [|c d IH].
  - destruct Ht as [->|(t' & ->)]; reflexivity.
  - simpl in Hd; apply andb_true_iff in Hd as [Hc Hd].
    cbn [append PyFloat.digits_tail]; rewrite Hc, (IH Hd); reflexivity.
Qed.

Lemma digitpart_literal (d t : string) :
  d <> EmptyString -> Spec.all_digits d = true ->
  t = EmptyString \/ (exists t', t = String "." t') ->
  PyFloat.digitpart (d ++ t) = Some (d, t).
Proof.
  intros Hne Hd Ht; destruct d as [|c d]; [congruence|].
  simpl in Hd; apply andb_true_iff in Hd as [Hc Hd].
  cbn [append PyFloat.digitpart]; rewrite Hc, (digits_tail_literal d t Hd Ht).
  reflexivity.
Qed.

Lemma of_text_head (c : ascii) (r : string) :
  PyStr.isdigit c = true ->
  PyStr.strip (String c r) = String c r ->
  PyFloat.of_text (String c r) = PyFloat.unsigned (String c r).
Proof.
  intros Hc Hs; unfold PyFloat.of_text; rewrite Hs.
  destruct c as [[] [] [] [] [] [] [] []]; try discriminate Hc; reflexivity.
Qed.

Lemma digit_is_no_name (c : ascii) (x : string) :
  PyStr.isdigit c = true ->
  String.eqb (PyStr.lower (String c x)) "inf"
  || String.eqb (PyStr.lower (String c x)) "infinity" = false /\
  String.eqb (PyStr.lower (String c x)) "nan" = false.
Proof.
  intros Hc; cbn [PyStr.lower String.eqb].
  destruct c as [[] [] [] [] [] [] [] []]; try discriminate Hc; split; reflexivity.
Qed.

(** [float()] on a numeric literal. *)
Lemma of_text_literal (ip g : string) :
  Spec.numeric_literal ip g ->
  PyFloat.of_text (ip ++ g) = Some (literal_float ip g).
Proof.
  intros Hlit.
  pose proof (literal_number_chars _ _ Hlit) as Hy.
  destruct Hlit as (Hip & Hne & Hg).
  assert (Hstrip : PyStr.strip (ip ++ g) = ip ++ g).
  { rewrite <- (append_empty_r (ip ++ g)) at 1.
    apply strip_without_blanks;
      [destruct ip; [congruence|discriminate]
      |apply number_chars_no_space, Hy|left; reflexivity]. }
  assert (Hg' : g = EmptyString \/ (exists t', g = String "." t')).
  { destruct Hg as [->|(d & -> & _)]; [left; reflexivity|right; exists d; reflexivity]. }
  pose proof (digitpart_literal ip g Hne Hip Hg') as Hpart.
  destruct ip as [|c ip']; [congruence|].
  assert (Hc : PyStr.isdigit c = true)
    by (simpl in Hip; apply andb_true_iff in Hip; apply Hip).
  change (String c ip' ++ g) with (String c (ip' ++ g)) in *.
  rewrite (of_text_head c _ Hc Hstrip).
  unfold PyFloat.unsigned.
  destruct (digit_is_no_name c (ip' ++ g) Hc) as [H1 H2].
  rewrite H1, H2.
  unfold PyFloat.mantissa; rewrite Hpart.
  destruct Hg as [->|(d & -> & Hd & Hdne)]; [reflexivity|].
  rewrite <- (append_empty_r d) at 1.
  rewrite (digitpart_literal d EmptyString Hdne Hd (or_introl eq_refl)).
  reflexivity.
Qed.

Lemma shr_1_not_negative (mrs : shr_record) :
  (0 <= shr_m mrs)%Z -> (0 <= shr_m (shr_1 mrs))%Z.
Proof.
  destruct mrs as [m r s]; destruct m as [|[p|p|]|p]; simpl; intros H; lia.
Qed.

Lemma iter_shr_1_not_negative (p : positive) (mrs : shr_record) :
  (0 <= shr_m mrs)%Z -> (0 <= shr_m (iter_pos shr_1 p mrs))%Z.
Proof.
  revert mrs; induction p as [p IH|p IH|]; intros mrs H; cbn [iter_pos].
  - apply IH, IH, shr_1_not_negative, H.
  - apply IH, IH, H.
  - apply shr_1_not_negative, H.
Qed.

Lemma shr_fexp_not_negative (m e : Z) (l : location) :
  (0 <= m)%Z -> (0 <= shr_m (fst (shr_fexp PyFloat.prec PyFloat.emax m e l)))%Z.
Proof.
  intros H; unfold shr_fexp, shr.
  assert (H0 : (0 <= shr_m (shr_record_of_loc m l))%Z)
    by (destruct l as [|[]]; exact H).
  destruct (_ - e)%Z; cbn [fst]; [exact H0| |exact H0].
  apply iter_shr_1_not_negative, H0.
Qed.

Lemma round_nearest_even_not_negative (m : Z) (l : location) :
  (0 <= m)%Z -> (0 <= round_nearest_even m l)%Z.
Proof.
  intros H; destruct l as [|[]]; cbn [round_nearest_even]; try lia.
  destruct (Z.even m); lia.
Qed.

(** Rounding a mantissa that is not negative, with the sign bit clear. *)
Lemma round_not_negative (m e : Z) (l : location) :
  (0 <= m)%Z ->
  not_negative (binary_round_aux PyFloat.prec PyFloat.emax false m e l) = true.
Proof.
  intros H; unfold binary_round_aux.
  pose proof (shr_fexp_not_negative m e l H) as H1.
  destruct (shr_fexp PyFloat.prec PyFloat.emax m e l) as [mrs' e']; cbn [fst] in H1.
  pose proof (shr_fexp_not_negative _ e' loc_Exact
                (round_nearest_even_not_negative _ (loc_of_shr_record mrs') H1)) as H2.
  destruct (shr_fexp PyFloat.prec PyFloat.emax _ e' loc_Exact) as [mrs'' e''];
    cbn [fst] in H2.
  destruct (shr_m mrs''); [reflexivity| |lia].
  destruct (_ <=? _)%Z; reflexivity.
Qed.

Lemma div_core_not_negative (m1 m2 : positive) (e1 e2 : Z) :
  (0 <= fst (fst (SFdiv_core_binary PyFloat.prec PyFloat.emax
                    (Zpos m1) e1 (Zpos m2) e2)))%Z.
Proof.
  unfold SFdiv_core_binary.
  set (m' := match (_ - _ - _)%Z with
             | Z0 => Zpos m1
             | Zpos _ => Z.shiftl (Zpos m1) _
             | Zneg _ => 0%Z
             end).
  assert (Hm : (0 <= m')%Z).
  { subst m'; destruct (_ - _ - _)%Z; [lia| |lia].
    apply Z.shiftl_nonneg; lia. }
  pose proof (Z.div_pos m' (Zpos m2) Hm eq_refl) as Hq.
  unfold Z.div in Hq.
  destruct (Z.div_eucl m' (Zpos m2)) as [q r]; exact Hq.
Qed.

Lemma ratio_not_negative (n d : positive) : not_negative (PyFloat.ratio n d) = true.
Proof.
  unfold PyFloat.ratio, SFdiv.
  pose proof (div_core_not_negative n d 0 0) as H.
  destruct (SFdiv_core_binary PyFloat.prec PyFloat.emax (Zpos n) 0 (Zpos d) 0)
    as [[mz ez] lz].
  apply round_not_negative, H.
Qed.

Lemma of_Z_not_negative (z : Z) : (0 <= z)%Z -> not_negative (PyFloat.of_Z z) = true.
Proof.
  intros Hz; unfold PyFloat.of_Z, binary_normalize.
  destruct z as [|p|p]; [reflexivity| |lia].
  unfold binary_round.
  destruct (shl_align p 0 _) as [mz ez]; apply round_not_negative; lia.
Qed.

Lemma scaled_not_negative (n : N) (scale : Z) :
  not_negative (PyFloat.scaled n scale) = true.
Proof.
  unfold PyFloat.scaled; destruct n as [|p]; [reflexivity|].
  destruct scale as [|k|k]; [apply of_Z_not_negative; lia| |apply ratio_not_negative].
  apply of_Z_not_negative.
  pose proof (Z.pow_pos_nonneg 10 (Zpos k)); lia.
Qed.

(** A product with a positive finite factor. *)
Lemma mul_not_negative (x : PyFloat.float) (m : positive) (e : Z) :
  not_negative x = true ->
  not_negative (PyFloat.mul x (S754_finite false m e)) = true.
Proof.
  intros Hx; unfold PyFloat.mul.
  destruct x as [[]|[]| |[] mx ex]; try discriminate Hx; try reflexivity.
  apply round_not_negative; cbn; lia.
Qed.

(** A quotient by a positive finite number. *)
Lemma div_not_negative (x : PyFloat.float) (m : positive) (e : Z) :
  not_negative x = true ->
  not_negative (PyFloat.div x (S754_finite false m e)) = true.
Proof.
  intros Hx; unfold PyFloat.div.
  destruct x as [[]|[]| |[] mx ex]; try discriminate Hx; try reflexivity.
  unfold SFdiv.
  pose proof (div_core_not_negative mx m ex e) as H.
  destruct (SFdiv_core_binary _ _ _ _ _ _) as [[mz ez] lz].
  apply round_not_negative, H.
Qed.

(** [int()] of a number not below zero: it is not negative, and the
    only error is the [OverflowError] of an infinity. *)
Lemma to_int_not_negative (x : PyFloat.float) :
  not_negative x = true ->
  (exists z, PyFloat.to_int x = inr z /\ (0 <= z)%Z) \/
  (x = S754_infinity false /\ PyFloat.to_int x = inl PyFloat.OverflowError).
Proof.
  intros Hx; destruct x as [s|[]| |[] m e]; try discriminate Hx.
  - left; exists 0%Z; split; [reflexivity|lia].
  - right; split; reflexivity.
  - left; eexists; split; [reflexivity|].
    destruct e as [|k|k];
      [apply Z.shiftl_nonneg|apply Z.shiftl_nonneg|apply Z.shiftr_nonneg]; lia.
Qed.

(** The float of a literal is [0.0], a positive number or, for a text
    of some 310 digits and more, [inf]. *)
Lemma literal_float_not_negative (ip g : string) :
  not_negative (literal_float ip g) = true.
Proof. apply scaled_not_negative. Qed.

(** [convert_to_bytes] on an accepted size: the float of the literal
    times the multiplier of the unit, truncated; an infinite product
    ends in the handler and gives 0. *)
Lemma convert_accepted (debug_mode : bool) (ip g u r : string) :
  Spec.numeric_literal ip g ->
  Spec.unit_token u = true ->
  r = EmptyString \/ r = String PyStr.LF EmptyString ->
  Size.convert_to_bytes debug_mode (ip ++ g ++ u ++ r)
  = match PyFloat.to_int
            (PyFloat.mul (literal_float ip g) (PyFloat.of_Z (Spec.multiplier u))) with
    | inr bytes => (bytes, [])
    | inl PyFloat.OverflowError =>
        (0%Z, if debug_mode
              then ["Size conversion error: cannot convert float infinity to integer"]
              else [])
    | inl PyFloat.ValueError =>
        (0%Z, if debug_mode
              then ["Size conversion error: cannot convert float NaN to integer"]
              else [])
    end.
Proof.
  intros Hlit Hu Hr.
  destruct (accepted_reads ip g u r Hlit Hu Hr)
    as (tl & tl' & m & tl'' & Hn & _ & Hm & HA & HB & HAB).
  unfold Size.convert_to_bytes, Spec.multiplier.
  rewrite Hn, Hm, (of_text_literal _ _ Hlit), <- HA, <- HB.
  destruct (Size.in_list (PyStr.lower m) ["g"; "gb"; "gib"]); [reflexivity|].
  destruct (Size.in_list (PyStr.lower m) ["m"; "mb"; "mib"]); [reflexivity|].
  discriminate HAB.
Qed.

(** ** Claims on the size parser *)

Lemma one_gib_with_line_feed_has_no_shape :
  ~ Spec.size_shape ("1G" ++ String PyStr.LF EmptyString).
Proof.
  intros (ip & g & u & (Hip & Hne & Hg) & Hu & Hs).
  apply unit_token_spelling in Hu.
  destruct ip as [|c [|c' ip']]; [congruence| |].
  - simpl in Hs; injection Hs as <- Hs.
    destruct Hg as [->|(d & -> & _)]; [|discriminate Hs].
    simpl in Hs; subst u.
    unfold unit_spellings in Hu; simpl in Hu.
    repeat (destruct Hu as [Hu|Hu]; [discriminate Hu|]). exact Hu.
  - simpl in Hs; injection Hs as <- <- Hs.
    simpl in Hip; discriminate Hip.
Qed.

Lemma multiplier_of_token (u : string) :
  Spec.unit_token u = true ->
  Spec.multiplier u
  = if Size.in_list (PyStr.lower u) ["m"; "mb"; "mib"] then (1024 ^ 2)%Z else (1024 ^ 3)%Z.
Proof.
  intros Hu; apply unit_token_spelling in Hu.
  unfold unit_spellings in Hu.
  repeat (destruct Hu as [<-|Hu]; [reflexivity|]). destruct Hu.
Qed.

Lemma shape_is_accepted (ip g u r : string) :
  Spec.numeric_literal ip g ->
  Spec.unit_token u = true ->
  r = EmptyString \/ r = String PyStr.LF EmptyString ->
  Size.validate_size (ip ++ g ++ u ++ r) = true.
Proof.
  intros Hlit Hu Hr.
  apply validate_size_shape; exists ip, g, u.
  split; [exact Hlit|split; [exact Hu|]].
  destruct Hr as [-> | ->]; [left; now rewrite append_empty_r|right; reflexivity].
Qed.



(** Rounding is part of the conversion: a literal just below one reads
    as [1.0], and a literal too large for a float converts to 0 bytes,
    with a line for the debug log. *)
Example conversion_rounds_and_overflows :
  Size.parse "0.99999999999999999999G" = inl 1073741824%Z /\
  Size.validate_size (Examples.replicate 310 "9" ++ "G") = true /\
  Size.convert_to_bytes true (Examples.replicate 310 "9" ++ "G")
  = (0%Z, ["Size conversion error: cannot convert float infinity to integer"]).
Proof. split; [|split]; vm_compute; reflexivity. Qed.

(** C6, as stated, fails: ["0G"] is accepted and parses to 0 bytes. *)
Lemma zero_size_is_accepted_and_parses_to_zero :
  ~ (forall s, Size.validate_size s = true ->
               exists bytes, Size.parse s = inl bytes /\ (0 < bytes)%Z).
Proof.
  intros H; destruct (H "0G" eq_refl) as (bytes & Hp & Hpos).
  vm_compute in Hp; injection Hp as <-; lia.
Qed.

(** C6, amended: for every size string the validator accepts, the parser
    returns a byte count that is not negative (0 for ["0G"]).  The count
    is a function of the string alone: it does not depend on the state
    of the manager, so two runs give the same count; and the conversion
    does nothing else, except that in debug mode a literal too large for
    a float, which converts to 0, leaves one line in the debug log.  A
    size that passes the guard of [ask_user_inputs] is at least 64
    MiB. *)
Theorem parsed_bytes_nonnegative_and_pure (s : string) :
  Size.validate_size s = true ->
  exists bytes,
    Size.parse s = inl bytes /\
    (forall debug_mode, fst (Size.convert_to_bytes debug_mode s) = bytes) /\
    snd (Size.convert_to_bytes false s) = [] /\
    (0 <= bytes)%Z /\
    (exists ip g u r,
        s = ip ++ g ++ u ++ r /\
        Spec.numeric_literal ip g /\ Spec.unit_token u = true /\
        (r = EmptyString \/ r = String PyStr.LF EmptyString) /\
        let product :=
          PyFloat.mul (literal_float ip g) (PyFloat.of_Z (Spec.multiplier u)) in
        (PyFloat.to_int product = inr bytes /\
         snd (Size.convert_to_bytes true s) = [] \/
         product = S754_infinity false /\ bytes = 0%Z /\
         snd (Size.convert_to_bytes true s)
         = ["Size conversion error: cannot convert float infinity to integer"])) /\
    (forall size_bytes, Size.accept_size s = inl size_bytes ->
                        size_bytes = bytes /\ (64 * 1024 ^ 2 <= bytes)%Z).
Proof.
  intros Hv.
  destruct (shape_lf_split s (proj1 (validate_size_shape s) Hv))
    as (ip & g & u & r & Hlit & Hu & Hr & ->).
  pose proof (fun dbg => convert_accepted dbg ip g u r Hlit Hu Hr) as Hc.
  assert (Hm : exists m e, PyFloat.of_Z (Spec.multiplier u) = S754_finite false m e).
  { rewrite (multiplier_of_token u Hu).
    destruct (Size.in_list _ _); eexists; eexists; vm_compute; reflexivity. }
  destruct Hm as (m & e & Hm).
  pose proof (mul_not_negative _ m e (literal_float_not_negative ip g)) as Hn.
  rewrite <- Hm in Hn.
  set (product := PyFloat.mul (literal_float ip g) (PyFloat.of_Z (Spec.multiplier u))) in *.
  assert (Hguard : forall bytes,
             Size.parse (ip ++ g ++ u ++ r) = inl bytes ->
             forall size_bytes, Size.accept_size (ip ++ g ++ u ++ r) = inl size_bytes ->
                                size_bytes = bytes /\ (64 * 1024 ^ 2 <= bytes)%Z).
  { intros bytes Hp size_bytes; unfold Size.accept_size; rewrite Hp.
    destruct (_ <? _)%Z eqn:Hlt; intros E; [discriminate E|].
    injection E as <-; apply Z.ltb_ge in Hlt; auto. }
  destruct (to_int_not_negative product Hn) as [(z & Hz & Hz0)|(Hinf & Hz)].
  - exists z.
    assert (Hp : Size.parse (ip ++ g ++ u ++ r) = inl z)
      by (unfold Size.parse; rewrite Hv, (Hc false), Hz; reflexivity).
    split; [exact Hp|].
    split; [intros dbg; rewrite (Hc dbg), Hz; reflexivity|].
    split; [rewrite (Hc false), Hz; reflexivity|split; [exact Hz0|]].
    split; [|exact (Hguard z Hp)].
    exists ip, g, u, r; split; [reflexivity|split; [exact Hlit|split; [exact Hu|]]].
    split; [exact Hr|]; cbv zeta; fold product.
    left; split; [exact Hz|rewrite (Hc true), Hz; reflexivity].
  - exists 0%Z.
    assert (Hp : Size.parse (ip ++ g ++ u ++ r) = inl 0%Z)
      by (unfold Size.parse; rewrite Hv, (Hc false), Hz; reflexivity).
    split; [exact Hp|].
    split; [intros dbg; rewrite (Hc dbg), Hz; reflexivity|].
    split; [rewrite (Hc false), Hz; reflexivity|split; [lia|]].
    split; [|exact (Hguard 0%Z Hp)].
    exists ip, g, u, r; split; [reflexivity|split; [exact Hlit|split; [exact Hu|]]].
    split; [exact Hr|]; cbv zeta; fold product.
    right; split; [exact Hinf|split; [reflexivity|rewrite (Hc true), Hz; reflexivity]].
Qed.

Lemma parsed_bytes_nonnegative_and_pure_witness :
  exists bytes,
    Size.parse "64M" = inl bytes /\
    (forall debug_mode, fst (Size.convert_to_bytes debug_mode "64M") = bytes) /\
    snd (Size.convert_to_bytes false "64M") = [] /\
    (0 <= bytes)%Z /\
    (exists ip g u r,
        "64M" = ip ++ g ++ u ++ r /\
        Spec.numeric_literal ip g /\ Spec.unit_token u = true /\
        (r = EmptyString \/ r = String PyStr.LF EmptyString) /\
        let product :=
          PyFloat.mul (literal_float ip g) (PyFloat.of_Z (Spec.multiplier u)) in
        (PyFloat.to_int product = inr bytes /\
         snd (Size.convert_to_bytes true "64M") = [] \/
         product = S754_infinity false /\ bytes = 0%Z /\
         snd (Size.convert_to_bytes true "64M")
         = ["Size conversion error: cannot convert float infinity to integer"])) /\
    (forall size_bytes, Size.accept_size "64M" = inl size_bytes ->
                        size_bytes = bytes /\ (64 * 1024 ^ 2 <= bytes)%Z).
Proof.
  apply (parsed_bytes_nonnegative_and_pure "64M"); reflexivity.
Defined.

(** ** Claims on the free-space check *)

Lemma split_field (x rest : string) :
  no_colon x = true ->
  PyStr.split ":" (x ++ String ":" rest) = x :: PyStr.split ":" rest.
Proof.
  induction x as [|c x IH]; intros H; [reflexivity|].
  simpl in H; apply andb_true_iff in H as [Hc Hx].
  apply negb_true_iff in Hc.
  cbn [append PyStr.split]; rewrite Hc, (IH Hx); reflexivity.
Qed.

(** No row that [parted -m] prints for a free extent is counted: its
    fifth field is [free;]. *)
Lemma free_row_is_skipped (number start end_ size : string) :
  no_colon number = true -> no_colon start = true ->
  no_colon end_ = true -> no_colon size = true ->
  SwapManager.free_space_of_row (parted_free_row number start end_ size) = [].
Proof.
  intros H1 H2 H3 H4.
  unfold SwapManager.free_space_of_row, parted_free_row.
  change (number ++ ":" ++ start ++ ":" ++ end_ ++ ":" ++ size ++ ":free;")
    with (number ++ String ":" (start ++ String ":" (end_ ++ String ":"
            (size ++ String ":" "free;")))).
  rewrite !split_field by assumption.
  reflexivity.
Qed.

(** C7: the code at the failing input.  On a disk with a free extent of
    2 GiB, in the rows that [parted -m] prints, the check answers that
    a request of 1 GiB does not fit and that 0 MiB are available: the
    loop of [get_free_space_gib] looks for a fifth field equal to
    [free], and the row of a free extent ends in [free;].  No such row
    is ever counted.  With the semicolon of that row taken away, the
    same disk gives the answer of the claim: the request fits, and
    2048 MiB are available. *)
Theorem free_rows_of_parted_are_not_recognised :
  let w := Examples.fresh EmptyString in
  let probe := SwapManager.PartedPrintFree "/dev/sda" in
  In (parted_free_row "1" "8.00GiB" "10.0GiB" "2.00GiB")
     (PyStr.splitlines
        (PyStr.strip
           (SwapManager.stdout (Examples.parted_rows_with_2gib_free [] probe)))) /\
  SwapManager.check_free_space Examples.parted_rows_with_2gib_free "/dev/sda" "1G" w
  = (Runtime.Returned (false, PyFloat.zero), SwapManager.record_cmd probe w) /\
  SwapManager.check_free_space Examples.disk_with_2gib_free "/dev/sda" "1G" w
  = (Runtime.Returned (true, PyFloat.of_Z 2048), SwapManager.record_cmd probe w) /\
  (forall number start end_ size,
      no_colon number = true -> no_colon start = true ->
      no_colon end_ = true -> no_colon size = true ->
      SwapManager.free_space_of_row (parted_free_row number start end_ size) = []).
Proof.
  split; [vm_compute; tauto|].
  split; [vm_compute; reflexivity|].
  split; [vm_compute; reflexivity|exact free_row_is_skipped].
Qed.

Lemma free_rows_of_parted_are_not_recognised_witness :
  SwapManager.free_space_of_row "1:8.00GiB:10.0GiB:2.00GiB:free;" = [].
Proof.
  exact (proj2 (proj2 (proj2 free_rows_of_parted_are_not_recognised))
           "1" "8.00GiB" "10.0GiB" "2.00GiB" eq_refl eq_refl eq_refl eq_refl).
Defined.

(** A request of zero bytes is reported to fit on a disk without free
    extent: the test is [size_gib > free_gib]. *)
Example zero_request_fits_without_free_extent :
  fst (SwapManager.check_free_space Examples.full_disk "/dev/sda" "0G"
         (Examples.fresh EmptyString))
  = Runtime.Returned (true, PyFloat.zero).
Proof. vm_compute; reflexivity. Qed.

(** ** Claims on the partition provisioner *)

(** Inside [create_swap_partition] the number is read through a pattern
    with a capturing group: for an accepted size string only the fraction
    reaches [float()], and a size without a fraction raises [ValueError]. *)
Lemma creation_reads_only_the_fraction (ip g u r : string) :
  Spec.numeric_literal ip g ->
  Spec.unit_token u = true ->
  r = EmptyString \/ r = String PyStr.LF EmptyString ->
  match g with
  | EmptyString =>
      SwapManager.read_size_at_creation (ip ++ g ++ u ++ r) = inl Runtime.ValueError
  | String _ d =>
      exists unit,
        SwapManager.read_size_at_creation (ip ++ g ++ u ++ r)
        = inr (PyNum.decimal EmptyString d, unit)
  end.
Proof.
  intros Hlit Hu Hr.
  destruct (accepted_reads ip g u r Hlit Hu Hr)
    as (tl & tl' & m & tl'' & _ & Hg & Hm & _).
  unfold SwapManager.read_size_at_creation; rewrite Hg.
  destruct Hlit as (_ & _ & [->|(d & -> & Hd & Hne)]); [reflexivity|].
  exists (PyStr.lower m).
  assert (Hf : PyNum.float (String "." d) = Some (PyNum.decimal EmptyString d)).
  { change (PyNum.float (String "." d)) with (PyNum.float_unsigned (String "." d)).
    unfold PyNum.float_unsigned; simpl PyStr.span_digits.
    change (Ascii.eqb "." ".") with true; cbv iota.
    rewrite <- (append_empty_r d) at 1.
    rewrite (span_digits_app d EmptyString Hd I).
    apply is_empty_false in Hne; rewrite Hne; reflexivity. }
  rewrite Hf, Hm; reflexivity.
Qed.

(** C1: the code at the failing inputs.  On an empty 10 GiB disk the
    request ["2GiB"] stops [create_swap_partition] with an uncaught
    [ValueError] once the backup and the two listings are done, and the
    request ["1.5G"] creates a partition from 0 to 0.5 GiB; the free-space
    check reads the same strings as 2 and 1.5. *)
Theorem creation_size_read_through_capturing_group :
  SwapManager.read_size "2GiB" = Some (2 # 1, "gib") /\
  SwapManager.read_size_at_creation "2GiB" = inl Runtime.ValueError /\
  SwapManager.create_swap_partition Examples.blank_disk true "20260101_000000"
    "/dev/sda" "2GiB" (Examples.fresh EmptyString)
  = (Runtime.Raised Runtime.ValueError,
     {| SwapManager.issued :=
          [ SwapManager.SfdiskDump "/dev/sda"
              "/tmp/partition_table_sda_20260101_000000.backup";
            SwapManager.LsblkNames "/dev/sda";
            SwapManager.PartedPrint "/dev/sda" ];
        SwapManager.fstab := Runtime.rw_fstab EmptyString |}) /\
  SwapManager.read_size "1.5G" = Some (15 # 10, "g") /\
  SwapManager.read_size_at_creation "1.5G" = inr (5 # 10, "g") /\
  SwapManager.issued
    (snd (SwapManager.create_swap_partition Examples.blank_disk true "20260101_000000"
            "/dev/sda" "1.5G" (Examples.fresh EmptyString)))
  = [ SwapManager.SfdiskDump "/dev/sda"
        "/tmp/partition_table_sda_20260101_000000.backup";
      SwapManager.LsblkNames "/dev/sda";
      SwapManager.PartedPrint "/dev/sda";
      SwapManager.LsblkSize "/dev/sda";
      SwapManager.Mkpart "/dev/sda" 0 (5 # 10);
      SwapManager.LsblkNames "/dev/sda";
      SwapManager.Mkswap "/dev/sda1";
      SwapManager.Swapon "/dev/sda1" ] /\
  ~ (5 # 10 == 0 + (15 # 10)).
Proof.
  repeat split; try (vm_compute; reflexivity).
  intros H; vm_compute in H; discriminate H.
Qed.

(** C3, as stated, fails: two new entries do not stop the step; the last
    one is taken. *)
Lemma two_new_entries_are_not_rejected :
  ~ (forall parts_before part_list_after : list string,
        (forall p, SwapManager.new_parts parts_before part_list_after = [p] ->
                   SwapManager.detect_new_partition parts_before part_list_after = Some p) /\
        ((forall p, SwapManager.new_parts parts_before part_list_after <> [p]) ->
         SwapManager.detect_new_partition parts_before part_list_after = None)).
Proof.
  intros H.
  destruct (H ["sda"] ["sda"; "sda1"; "sda2"]) as [_ H2].
  assert (E : SwapManager.detect_new_partition ["sda"] ["sda"; "sda1"; "sda2"] = None).
  { apply H2; intros p Hp; vm_compute in Hp; discriminate Hp. }
  vm_compute in E; discriminate E.
Qed.

Lemma new_parts_in (parts_before part_list_after : list string) (p : string) :
  In p (SwapManager.new_parts parts_before part_list_after)
  <-> In p part_list_after /\ ~ In p parts_before.
Proof.
  unfold SwapManager.new_parts; rewrite filter_In, negb_true_iff.
  rewrite <- not_true_iff_false, in_list_iff; tauto.
Qed.

Lemma last_is_last (A : Type) (ps : list A) (p : A) :
  exists front, p :: ps = (front ++ [last ps p])%list.
Proof.
  exists (removelast (p :: ps)).
  assert (E : last (p :: ps) p = last ps p) by (destruct ps; reflexivity).
  rewrite <- E; apply app_removelast_last; discriminate.
Qed.

(** C3, amended: the difference holds the entries of the later listing
    that are absent from the earlier one, in order; when it is not empty
    its last entry is the detected partition, so a single new entry is the
    one detected (["sda2"] for [["sda","sda1"]] and
    [["sda","sda1","sda2"]]); detection fails exactly when the difference
    is empty, in particular when both listings are the same. *)
Theorem new_partition_is_last_of_difference (parts_before part_list_after : list string) :
  (forall p, In p (SwapManager.new_parts parts_before part_list_after)
             <-> In p part_list_after /\ ~ In p parts_before) /\
  (forall p, SwapManager.new_parts parts_before part_list_after = [p] ->
             SwapManager.detect_new_partition parts_before part_list_after = Some p) /\
  (forall p, SwapManager.detect_new_partition parts_before part_list_after = Some p ->
             exists front, SwapManager.new_parts parts_before part_list_after
                           = (front ++ [p])%list) /\
  (SwapManager.detect_new_partition parts_before part_list_after = None
   <-> SwapManager.new_parts parts_before part_list_after = []) /\
  SwapManager.detect_new_partition parts_before parts_before = None /\
  SwapManager.detect_new_partition ["sda"; "sda1"] ["sda"; "sda1"; "sda2"] = Some "sda2".
Proof.
  split; [intros p; apply new_parts_in|].
  unfold SwapManager.detect_new_partition.
  split; [intros p ->; reflexivity|].
  split; [|split; [|split; [|reflexivity]]].
  - intros p; destruct (SwapManager.new_parts parts_before part_list_after) as [|q ps];
      [discriminate|].
    intros H; injection H as <-; apply last_is_last.
  - destruct (SwapManager.new_parts parts_before part_list_after);
      split; intros H; congruence.
  - destruct (SwapManager.new_parts parts_before parts_before) as [|q ps] eqn:E;
      [reflexivity|].
    assert (Hq : In q (SwapManager.new_parts parts_before parts_before))
      by (rewrite E; left; reflexivity).
    apply new_parts_in in Hq; tauto.
Qed.

Lemma new_partition_is_last_of_difference_witness :
  SwapManager.detect_new_partition ["sda"] ["sda"; "sda1"; "sda2"] = Some "sda2" /\
  SwapManager.detect_new_partition ["sda"; "sda1"] ["sda"; "sda3"] = Some "sda3".
Proof.
  split.
  - reflexivity.
  - apply (proj1 (proj2 (new_partition_is_last_of_difference
                           ["sda"; "sda1"] ["sda"; "sda3"])) "sda3").
    reflexivity.
Defined.

(** ** Claims on the persisted mount table *)

Lemma prefix_app (t x : string) : String.prefix t (t ++ x) = true.
Proof.
  induction t as [|c t IH]; simpl; [destruct x; reflexivity|].
  destruct (ascii_dec c c); [exact IH|congruence].
Qed.

Lemma contains_prefix (t s : string) :
  String.prefix t s = true -> PyStr.contains t s = true.
Proof. destruct s; simpl; intros ->; reflexivity. Qed.

Lemma contains_intro (t pre post : string) :
  PyStr.contains t (pre ++ t ++ post) = true.
Proof.
  induction pre as [|c pre IH].
  - apply contains_prefix; exact (prefix_app t post).
  - simpl; rewrite IH; apply orb_true_r.
Qed.

Lemma split_not_nil (sep : ascii) (s : string) : PyStr.split sep s <> [].
Proof.
  destruct s as [|c r]; simpl; [discriminate|].
  destruct (Ascii.eqb c sep); [discriminate|].
  destruct (PyStr.split sep r); discriminate.
Qed.

Lemma split_head_prefix (sep : ascii) (s h : string) (t : list string) :
  PyStr.split sep s = h :: t -> exists post, s = h ++ post.
Proof.
  revert h t; induction s as [|c r IH]; simpl; intros h t H.
  - injection H as <- _; exists EmptyString; reflexivity.
  - destruct (Ascii.eqb c sep).
    + injection H as <- _; exists (String c r); reflexivity.
    + destruct (PyStr.split sep r) as [|h' t'] eqn:E.
      * injection H as <- _; exists r; reflexivity.
      * injection H as <- _.
        destruct (IH h' t' eq_refl) as (post & ->).
        exists post; reflexivity.
Qed.

Lemma split_item_substring (sep : ascii) (s x : string) :
  In x (PyStr.split sep s) -> exists pre post, s = pre ++ x ++ post.
Proof.
  revert x; induction s as [|c r IH]; simpl; intros x H.
  - destruct H as [<-|[]]; exists EmptyString, EmptyString; reflexivity.
  - destruct (Ascii.eqb c sep).
    + destruct H as [<-|H].
      * exists EmptyString, (String c r); reflexivity.
      * destruct (IH x H) as (pre & post & ->).
        exists (String c pre), post; reflexivity.
    + destruct (PyStr.split sep r) as [|h t] eqn:E.
      * destruct (split_not_nil sep r E).
      * destruct H as [<-|H].
        -- destruct (split_head_prefix sep r h t E) as (post & ->).
           exists EmptyString, post; reflexivity.
        -- destruct (IH x (or_intror H)) as (pre & post & ->).
           exists (String c pre), post; reflexivity.
Qed.

Lemma split_app_sep (sep : ascii) (a b : string) :
  PyStr.split sep (a ++ String sep b) = (PyStr.split sep a ++ PyStr.split sep b)%list.
Proof.
  induction a as [|c a IH]; simpl.
  - rewrite Ascii.eqb_refl; reflexivity.
  - destruct (Ascii.eqb c sep); [now rewrite IH|].
    rewrite IH.
    destruct (PyStr.split sep a) as [|h t] eqn:E; [destruct (split_not_nil sep a E)|].
    reflexivity.
Qed.

Lemma split_no_lf (s : string) :
  Spec.no_lf s = true -> PyStr.split PyStr.LF s = [s].
Proof.
  induction s as [|c r IH]; simpl; [reflexivity|].
  intros H; apply andb_true_iff in H as [Hc Hr].
  apply negb_true_iff in Hc; rewrite Hc, (IH Hr); reflexivity.
Qed.

Lemma split_items_no_lf (s x : string) :
  In x (PyStr.split PyStr.LF s) -> Spec.no_lf x = true.
Proof.
  revert x; induction s as [|c r IH]; simpl; intros x H.
  - destruct H as [<-|[]]; reflexivity.
  - destruct (Ascii.eqb c PyStr.LF) eqn:Hc.
    + destruct H as [<-|H]; [reflexivity|apply (IH x H)].
    + destruct (PyStr.split PyStr.LF r) as [|h t] eqn:E.
      * destruct H as [<-|[]]; simpl; rewrite Hc; reflexivity.
      * destruct H as [<-|H].
        -- simpl; rewrite Hc; simpl; apply IH; left; reflexivity.
        -- apply IH; right; exact H.
Qed.

Lemma no_lf_app (a b : string) : Spec.no_lf (a ++ b) = Spec.no_lf a && Spec.no_lf b.
Proof.
  induction a as [|c a IH]; simpl; [reflexivity|].
  rewrite IH; apply andb_assoc.
Qed.

(** A table in which [target] does not occur has no swap line for it. *)
Lemma absent_target_has_no_line (target text : string) :
  PyStr.contains target text = false -> Spec.swap_lines_for target text = 0%nat.
Proof.
  intros H; unfold Spec.swap_lines_for, Spec.table_lines.
  apply count_occ_not_In; intros Hin.
  destruct (split_item_substring _ _ _ Hin) as (pre & post & E).
  unfold Runtime.swap_line in E; rewrite append_assoc in E.
  rewrite E, contains_intro in H; discriminate H.
Qed.

(** The count of swap lines once the line has been appended. *)
Lemma appended_line_count (target text : string) :
  PyStr.contains target text = false ->
  let text' := text ++ String PyStr.LF (Runtime.swap_line target ++ String PyStr.LF EmptyString) in
  (Spec.swap_lines_for target text' <= 1)%nat /\
  (Spec.no_lf target = true -> Spec.swap_lines_for target text' = 1%nat).
Proof.
  intros H text'.
  pose proof (absent_target_has_no_line _ _ H) as H0.
  unfold Spec.swap_lines_for, Spec.table_lines in *; subst text'.
  rewrite split_app_sep, split_app_sep, count_occ_app, count_occ_app, H0.
  simpl PyStr.split.
  assert (Hne : EmptyString <> Runtime.swap_line target)
    by (destruct target; discriminate).
  rewrite (count_occ_cons_neq string_dec [] Hne).
  destruct (Spec.no_lf target) eqn:Hlf.
  - assert (Hl : Spec.no_lf (Runtime.swap_line target) = true)
      by (unfold Runtime.swap_line; rewrite no_lf_app, Hlf; reflexivity).
    rewrite (split_no_lf _ Hl).
    rewrite (count_occ_cons_eq string_dec [] (eq_refl (Runtime.swap_line target))).
    simpl; auto.
  - rewrite (proj1 (count_occ_not_In string_dec _ _)).
    + simpl; split; [auto|discriminate].
    + intros Hin; apply split_items_no_lf in Hin.
      unfold Runtime.swap_line in Hin; rewrite no_lf_app, Hlf in Hin; discriminate Hin.
Qed.

(** C4, as stated, fails: on a table that already holds the line, the
    first application answers [AlreadyPresent], not [Added]. *)
Lemma first_application_on_present_target_is_not_added :
  ~ (forall (m : SwapFileManager.manager) (history : list string) (table : string),
        exists w1 w2,
          SwapFileManager.update_fstab
            {| SwapFileManager.self := m;
               SwapFileManager.issued := history;
               SwapFileManager.fstab := Runtime.rw_fstab table |}
          = (Runtime.Returned Runtime.Added, w1) /\
          SwapFileManager.update_fstab w1 = (Runtime.Returned Runtime.AlreadyPresent, w2)).
Proof.
  intros H.
  destruct (H SwapFileManager.init []
              ("/swapfile none swap sw 0 0" ++ String PyStr.LF EmptyString))
    as (w1 & w2 & E & _).
  vm_compute in E; discriminate E.
Qed.

(** C4, amended: on a table in which the target does not occur yet, two
    applications with the same target answer [Added] and then
    [AlreadyPresent]; the first one appends a line feed and the line
    ["<target> none swap sw 0 0"] to the table, whose earlier text is kept
    as it was, the second one changes nothing; the table held no swap line
    for the target before and holds at most one afterwards (exactly one
    when the target has no line feed in it).  The same holds for the step
    that persists a new partition. *)
Theorem fstab_persister_adds_once (target table : string) :
  PyStr.contains target table = false ->
  let table' :=
    table ++ String PyStr.LF (Runtime.swap_line target ++ String PyStr.LF EmptyString) in
  (forall (m : SwapFileManager.manager) (history : list string),
      SwapFileManager.swap_file_path m = target ->
      let w0 := {| SwapFileManager.self := m;
                   SwapFileManager.issued := history;
                   SwapFileManager.fstab := Runtime.rw_fstab table |} in
      let w1 := {| SwapFileManager.self := m;
                   SwapFileManager.issued := history;
                   SwapFileManager.fstab := Runtime.rw_fstab table' |} in
      SwapFileManager.update_fstab w0 = (Runtime.Returned Runtime.Added, w1) /\
      SwapFileManager.update_fstab w1 = (Runtime.Returned Runtime.AlreadyPresent, w1)) /\
  (forall history : list SwapManager.command,
      let w0 := {| SwapManager.issued := history;
                   SwapManager.fstab := Runtime.rw_fstab table |} in
      let w1 := {| SwapManager.issued := history;
                   SwapManager.fstab := Runtime.rw_fstab table' |} in
      SwapManager.persist_partition target w0 = (Runtime.Returned Runtime.Added, w1) /\
      SwapManager.persist_partition target w1
      = (Runtime.Returned Runtime.AlreadyPresent, w1)) /\
  Spec.swap_lines_for target table = 0%nat /\
  (Spec.swap_lines_for target table' <= 1)%nat /\
  (Spec.no_lf target = true -> Spec.swap_lines_for target table' = 1%nat).
Proof.
  intros H table'.
  assert (H' : PyStr.contains target table' = true).
  { subst table'; unfold Runtime.swap_line.
    change (PyStr.contains target
              (table ++ String PyStr.LF EmptyString
                 ++ (target ++ " none swap sw 0 0") ++ String PyStr.LF EmptyString) = true).
    rewrite <- (append_assoc table), (append_assoc target).
    apply contains_intro. }
  split; [|split; [|split; [|apply (appended_line_count target table H)]]].
  - intros m history <- w0 w1; subst w0 w1.
    unfold SwapFileManager.update_fstab; simpl.
    rewrite H, H'; split; reflexivity.
  - intros history w0 w1; subst w0 w1.
    unfold SwapManager.persist_partition; simpl.
    rewrite H, H'; split; reflexivity.
  - apply (absent_target_has_no_line _ _ H).
Qed.

Lemma fstab_persister_adds_once_witness :
  SwapFileManager.update_fstab
    {| SwapFileManager.self := SwapFileManager.init;
       SwapFileManager.issued := [];
       SwapFileManager.fstab :=
         Runtime.rw_fstab ("UUID=0a1b / ext4 defaults 0 1" ++ String PyStr.LF EmptyString) |}
  = (Runtime.Returned Runtime.Added,
     {| SwapFileManager.self := SwapFileManager.init;
        SwapFileManager.issued := [];
        SwapFileManager.fstab :=
          Runtime.rw_fstab
            (("UUID=0a1b / ext4 defaults 0 1" ++ String PyStr.LF EmptyString)
               ++ String PyStr.LF ("/swapfile none swap sw 0 0" ++ String PyStr.LF EmptyString)) |}).
Proof.
  exact (proj1 (proj1 (fstab_persister_adds_once "/swapfile"
                         ("UUID=0a1b / ext4 defaults 0 1" ++ String PyStr.LF EmptyString)
                         eq_refl)
                  SwapFileManager.init [] eq_refl)).
Defined.

(** C10: whenever the target occurs anywhere in a readable table - in a
    comment, or as the beginning of another path - the persister answers
    [AlreadyPresent] and leaves the table as it is; so does the step that
    persists a new partition. *)
Theorem fstab_substring_counts_as_present (target : string) (f : Runtime.etc_fstab) :
  Runtime.fstab_readable f = true ->
  PyStr.contains target (Runtime.fstab_text f) = true ->
  (forall (m : SwapFileManager.manager) (history : list string),
      SwapFileManager.swap_file_path m = target ->
      let w := {| SwapFileManager.self := m;
                  SwapFileManager.issued := history;
                  SwapFileManager.fstab := f |} in
      SwapFileManager.update_fstab w = (Runtime.Returned Runtime.AlreadyPresent, w)) /\
  (forall history : list SwapManager.command,
      let w := {| SwapManager.issued := history; SwapManager.fstab := f |} in
      SwapManager.persist_partition target w = (Runtime.Returned Runtime.AlreadyPresent, w)).
Proof.
  intros Hr Hc; split.
  - intros m history <- w; subst w.
    unfold SwapFileManager.update_fstab; simpl; rewrite Hr, Hc; reflexivity.
  - intros history w; subst w.
    unfold SwapManager.persist_partition; simpl; rewrite Hr, Hc; reflexivity.
Qed.

Lemma fstab_substring_counts_as_present_witness :
  let other := Runtime.rw_fstab ("/swapfile2 none swap sw 0 0" ++ String PyStr.LF EmptyString) in
  let comment := Runtime.rw_fstab ("# was: /swapfile" ++ String PyStr.LF EmptyString) in
  Spec.swap_lines_for "/swapfile" (Runtime.fstab_text other) = 0%nat /\
  Spec.swap_lines_for "/swapfile" (Runtime.fstab_text comment) = 0%nat /\
  SwapFileManager.update_fstab
    {| SwapFileManager.self := SwapFileManager.init;
       SwapFileManager.issued := [];
       SwapFileManager.fstab := other |}
  = (Runtime.Returned Runtime.AlreadyPresent,
     {| SwapFileManager.self := SwapFileManager.init;
        SwapFileManager.issued := [];
        SwapFileManager.fstab := other |}) /\
  SwapFileManager.update_fstab
    {| SwapFileManager.self := SwapFileManager.init;
       SwapFileManager.issued := [];
       SwapFileManager.fstab := comment |}
  = (Runtime.Returned Runtime.AlreadyPresent,
     {| SwapFileManager.self := SwapFileManager.init;
        SwapFileManager.issued := [];
        SwapFileManager.fstab := comment |}).
Proof.
  intros other comment.
  split; [reflexivity|split; [reflexivity|split]].
  - exact (proj1 (fstab_substring_counts_as_present "/swapfile" other eq_refl eq_refl)
             SwapFileManager.init [] eq_refl).
  - exact (proj1 (fstab_substring_counts_as_present "/swapfile" comment eq_refl eq_refl)
             SwapFileManager.init [] eq_refl).
Defined.

(** ** Claims on the swap-file provisioner *)

Lemma contains_skip (a : ascii) (p pre x : string) :
  no_char a pre = true ->
  PyStr.contains (String a p) (pre ++ x) = true ->
  PyStr.contains (String a p) x = true.
Proof.
  induction pre as [|c pre IH]; simpl; intros Hn H; [exact H|].
  apply andb_true_iff in Hn as [Hc Hp].
  destruct (ascii_dec a c) as [->|_].
  - rewrite Ascii.eqb_refl in Hc; discriminate Hc.
  - apply (IH Hp H).
Qed.

Lemma prefix_cut (p x : string) (q : ascii) (b : string) :
  no_char q p = true ->
  String.prefix p (x ++ String q b) = true ->
  String.prefix p x = true.
Proof.
  revert x; induction p as [|pc p IH]; intros x Hn H; [destruct x; reflexivity|].
  simpl in Hn; apply andb_true_iff in Hn as [Hc Hp].
  destruct x as [|xc x]; simpl in *.
  - destruct (ascii_dec pc q) as [->|_]; [|discriminate H].
    rewrite Ascii.eqb_refl in Hc; discriminate Hc.
  - destruct (ascii_dec pc xc); [apply (IH _ Hp H)|discriminate H].
Qed.

Lemma contains_cut (a : ascii) (p cmd : string) (q : ascii) (b : string) :
  no_char q (String a p) = true ->
  no_char a (String q b) = true ->
  PyStr.contains (String a p) (cmd ++ String q b) = true ->
  PyStr.contains (String a p) cmd = true.
Proof.
  intros Hq Ha; induction cmd as [|c cmd IH]; intros H.
  - simpl append in H.
    rewrite <- (append_empty_r (String q b)) in H.
    apply (contains_skip a p _ _ Ha) in H; discriminate H.
  - change (String.prefix (String a p) (String c cmd ++ String q b)
            || PyStr.contains (String a p) (cmd ++ String q b) = true) in H.
    apply orb_true_iff in H as [H|H].
    + apply contains_prefix, (prefix_cut _ _ q b Hq H).
    + simpl; rewrite (IH H); apply orb_true_r.
Qed.

Lemma no_char_app (a : ascii) (x y : string) :
  no_char a (x ++ y) = no_char a x && no_char a y.
Proof.
  induction x as [|c x IH]; simpl; [reflexivity|].
  rewrite IH; apply andb_assoc.
Qed.

Lemma no_capital_i_in_digits (n : N) :
  no_char "I" (SwapFileManager.decimal_of_N n) = true.
Proof.
  unfold SwapFileManager.decimal_of_N, NilZero.string_of_uint.
  assert (H : forall d, no_char "I" (NilEmpty.string_of_uint d) = true)
    by (induction d; simpl; auto).
  destruct (N.to_uint n); try apply H; reflexivity.
Qed.

(** The text of a [CalledProcessError] holds ["Invalid argument"] only if
    the command line itself does: the error stream is not part of it. *)
Lemma retry_text_comes_from_command_line
    (rc : N) (cmd : string) (output stderr : option string) :
  PyStr.contains "Invalid argument"
    (SwapFileManager.str_of_exn (Runtime.CalledProcessError rc cmd output stderr)) = true ->
  PyStr.contains "Invalid argument" cmd = true.
Proof.
  unfold SwapFileManager.str_of_exn; intros H.
  apply (contains_skip "I" "nvalid argument" "Command '") in H; [|reflexivity].
  change ("' returned non-zero exit status " ++ SwapFileManager.decimal_of_N rc ++ ".")
    with (String "'" (" returned non-zero exit status "
                        ++ SwapFileManager.decimal_of_N rc ++ ".")) in H.
  apply (contains_cut "I" "nvalid argument") in H; [exact H|reflexivity|].
  change (no_char "I" ("' returned non-zero exit status "
                         ++ SwapFileManager.decimal_of_N rc ++ ".") = true).
  rewrite !no_char_app, no_capital_i_in_digits; reflexivity.
Qed.

Lemma run_cmd_checked (sh : SwapFileManager.shell) (cmd : string)
    (w : SwapFileManager.world) :
  SwapFileManager.run_cmd sh cmd true None w
  = let r := sh (SwapFileManager.issued w) cmd in
    if (SwapFileManager.returncode r =? 0)%N
    then (Runtime.Returned (PyStr.strip (SwapFileManager.stdout r)),
          SwapFileManager.record_cmd cmd w)
    else (Runtime.Raised (Runtime.CalledProcessError (SwapFileManager.returncode r)
                            cmd None None),
          SwapFileManager.record_cmd cmd w).
Proof.
  unfold SwapFileManager.run_cmd, SwapFileManager.subprocess_run, Runtime.bind; simpl.
  destruct (SwapFileManager.returncode _ =? 0)%N; reflexivity.
Qed.

Lemma run_cmd_unchecked (sh : SwapFileManager.shell) (cmd : string)
    (w : SwapFileManager.world) :
  SwapFileManager.run_cmd sh cmd false None w
  = (Runtime.Returned
       (PyStr.strip (SwapFileManager.stdout (sh (SwapFileManager.issued w) cmd))),
     SwapFileManager.record_cmd cmd w).
Proof.
  unfold SwapFileManager.run_cmd, SwapFileManager.subprocess_run, Runtime.bind; simpl.
  rewrite andb_false_r; reflexivity.
Qed.

Lemma cleanup_runs_two_commands (sh : SwapFileManager.shell) (w : SwapFileManager.world) :
  SwapFileManager.cleanup_swap_file sh w
  = (Runtime.Returned tt,
     SwapFileManager.record_cmd
       ("sudo rm -f " ++ SwapFileManager.swap_file_path (SwapFileManager.self w))
       (SwapFileManager.record_cmd
          ("sudo swapoff " ++ SwapFileManager.swap_file_path (SwapFileManager.self w)) w)).
Proof.
  unfold SwapFileManager.cleanup_swap_file, Runtime.bind, Runtime.try_except.
  rewrite run_cmd_unchecked; simpl.
  rewrite run_cmd_unchecked; reflexivity.
Qed.

(** When no command line of the steps holds the text of the retry test,
    the loop never reaches the recursive call. *)
Lemma loop_never_retries (sh : SwapFileManager.shell)
    (again again' : Runtime.M SwapFileManager.world unit)
    (steps : list (string * string)) (w : SwapFileManager.world) :
  forallb (fun step => negb (PyStr.contains "Invalid argument" (snd step))) steps = true ->
  SwapFileManager.btrfs_loop sh again steps w
  = SwapFileManager.btrfs_loop sh again' steps w.
Proof.
  revert w; induction steps as [|[d cmd] rest IH]; intros w H; [reflexivity|].
  simpl in H; apply andb_true_iff in H as [Hc Hrest].
  apply negb_true_iff in Hc.
  simpl SwapFileManager.btrfs_loop; rewrite run_cmd_checked; cbv zeta.
  destruct (SwapFileManager.returncode _ =? 0)%N; [apply (IH _ Hrest)|].
  simpl SwapFileManager.is_called_process_error; cbv iota.
  destruct (PyStr.contains "Invalid argument"
              (SwapFileManager.str_of_exn _)) eqn:E.
  - apply retry_text_comes_from_command_line in E; congruence.
  - rewrite andb_false_r; reflexivity.
Qed.

(** The COW-safe strategy makes a single attempt, whatever the machine
    answers, unless a command line of its steps holds ["Invalid
    argument"]. *)
Lemma cow_safe_makes_one_attempt (sh : SwapFileManager.shell)
    (fuel : nat) (w : SwapFileManager.world) :
  steps_silent (SwapFileManager.self w) = true ->
  SwapFileManager.btrfs_swap_creation sh (S fuel) w
  = SwapFileManager.btrfs_swap_creation sh 1 w.
Proof.
  intros H; simpl; apply (loop_never_retries _ _ _ _ _ H).
Qed.

(** Fuel above the retries still allowed is enough for
    [btrfs_swap_creation] to end by itself. *)
Lemma loop_has_fuel (sh : SwapFileManager.shell)
    (again : Runtime.M SwapFileManager.world unit)
    (steps : list (string * string)) (w : SwapFileManager.world) :
  (forall w',
      SwapFileManager.retry_count (SwapFileManager.self w')
      = S (SwapFileManager.retry_count (SwapFileManager.self w)) ->
      SwapFileManager.max_retries (SwapFileManager.self w')
      = SwapFileManager.max_retries (SwapFileManager.self w) ->
      (SwapFileManager.retry_count (SwapFileManager.self w)
       < SwapFileManager.max_retries (SwapFileManager.self w))%nat ->
      fst (again w') <> Runtime.OutOfFuel) ->
  fst (SwapFileManager.btrfs_loop sh again steps w) <> Runtime.OutOfFuel.
Proof.
  revert w; induction steps as [|[d cmd] rest IH]; intros w H; [discriminate|].
  simpl SwapFileManager.btrfs_loop; rewrite run_cmd_checked; cbv zeta.
  destruct (SwapFileManager.returncode _ =? 0)%N; [apply IH; exact H|].
  simpl SwapFileManager.is_called_process_error; cbv iota.
  destruct (_ && _); [|discriminate].
  destruct (_ <? _)%nat eqn:Hlt; [|discriminate].
  apply Nat.ltb_lt in Hlt; simpl in Hlt.
  unfold Runtime.bind; rewrite cleanup_runs_two_commands.
  apply H; simpl; [apply Nat.add_1_r|reflexivity|exact Hlt].
Qed.

Lemma enough_fuel (sh : SwapFileManager.shell) (fuel : nat) (w : SwapFileManager.world) :
  (SwapFileManager.max_retries (SwapFileManager.self w)
   - SwapFileManager.retry_count (SwapFileManager.self w) < fuel)%nat ->
  fst (SwapFileManager.btrfs_swap_creation sh fuel w) <> Runtime.OutOfFuel.
Proof.
  revert w; induction fuel as [|fuel IH]; intros w H; [lia|].
  change (SwapFileManager.btrfs_swap_creation sh (S fuel) w)
    with (SwapFileManager.btrfs_loop sh (SwapFileManager.btrfs_swap_creation sh fuel)
            (SwapFileManager.btrfs_steps (SwapFileManager.self w)) w).
  apply loop_has_fuel; intros w' Hr Hm Hlt.
  apply IH; lia.
Qed.

(** C2: the code at the failing input.  On [/swapfile] with
    [max_retries = 2], a [swapon] that fails every time with exit status
    255 and ["Invalid argument"] on its error stream ends
    [btrfs_swap_creation] after one run of the six steps, with the retry
    counter still 0, whatever the fuel: the text of the exception names
    the command and the status only.  [create_swap_file] then runs the
    strategy once more from its own handler and leaves through
    [sys.exit(1)]: two attempts, not three. *)
Theorem cow_safe_retry_does_not_fire_on_swapon_failure (fuel : nat) :
  let w0 := Examples.start (Examples.with_fs "btrfs" "/swapfile") in
  let failure := Runtime.CalledProcessError 255 "sudo swapon /swapfile" None None in
  SwapFileManager.btrfs_swap_creation Examples.swapon_refuses (S fuel) w0
  = (Runtime.Raised failure,
     {| SwapFileManager.self := Examples.with_fs "btrfs" "/swapfile";
        SwapFileManager.issued :=
          [ "sudo truncate -s 0 /swapfile"; "sudo chattr +C /swapfile";
            "sudo fallocate -l 1G /swapfile"; "sudo chmod 0600 /swapfile";
            "sudo mkswap /swapfile"; "sudo swapon /swapfile" ];
        SwapFileManager.fstab := Runtime.rw_fstab EmptyString |}) /\
  SwapFileManager.str_of_exn failure
  = "Command 'sudo swapon /swapfile' returned non-zero exit status 255." /\
  PyStr.contains "Invalid argument" (SwapFileManager.str_of_exn failure) = false /\
  Examples.attempts
    (snd (SwapFileManager.btrfs_swap_creation Examples.swapon_refuses (S fuel) w0)) = 1%nat /\
  fst (SwapFileManager.create_swap_file Examples.swapon_refuses false false (S fuel) w0)
  = Runtime.SysExit 1 /\
  Examples.attempts
    (snd (SwapFileManager.create_swap_file Examples.swapon_refuses false false (S fuel) w0))
  = 2%nat.
Proof.
  intros w0 failure.
  assert (E : forall f, SwapFileManager.btrfs_swap_creation Examples.swapon_refuses (S f) w0
                        = SwapFileManager.btrfs_swap_creation Examples.swapon_refuses 1 w0)
    by (intros f; apply cow_safe_makes_one_attempt; reflexivity).
  rewrite E.
  split; [reflexivity|split; [reflexivity|split; [reflexivity|split; [reflexivity|]]]].
  split; vm_compute; reflexivity.
Qed.

(** The retry does fire when the command line itself holds the text the
    test looks for: with such a path and [max_retries = 2] the same
    machine sees three attempts, each retry after a cleanup, before the
    error is raised. *)
Lemma retry_fires_when_the_path_names_the_condition :
  let w0 := Examples.start (Examples.with_fs "btrfs" "/mnt/Invalid argument/swapfile") in
  let r := SwapFileManager.btrfs_swap_creation Examples.swapon_refuses 3 w0 in
  fst r = Runtime.Raised
            (Runtime.CalledProcessError 255
               "sudo swapon /mnt/Invalid argument/swapfile" None None) /\
  Examples.attempts (snd r) = 3%nat /\
  SwapFileManager.retry_count (SwapFileManager.self (snd r)) = 2%nat /\
  List.length (SwapFileManager.issued (snd r)) = 22%nat.
Proof. vm_compute; repeat split; reflexivity. Qed.

(** *** The commands issued only grow *)

Lemma extends_refl (w : SwapFileManager.world) : extends w w.
Proof. exists []; symmetry; apply app_nil_r. Qed.

Lemma extends_trans (a b c : SwapFileManager.world) :
  extends a b -> extends b c -> extends a c.
Proof.
  intros (l & E) (l' & E'); exists (l ++ l')%list.
  rewrite E', E, app_assoc; reflexivity.
Qed.

Lemma extends_record (cmd : string) (w : SwapFileManager.world) :
  extends w (SwapFileManager.record_cmd cmd w).
Proof. exists [cmd]; reflexivity. Qed.

Lemma bind_extends (A B : Type) (m : Runtime.M SwapFileManager.world A)
    (k : A -> Runtime.M SwapFileManager.world B) (w0 w : SwapFileManager.world) :
  extends w0 (snd (m w)) -> (forall a, grows (k a)) ->
  extends w0 (snd (Runtime.bind m k w)).
Proof.
  unfold Runtime.bind; intros H Hk.
  destruct (m w) as [[a|e|c|] w']; simpl in *; try exact H.
  apply (extends_trans _ _ _ H), Hk.
Qed.

Lemma try_except_extends (A : Type) (m : Runtime.M SwapFileManager.world A)
    (handles : Runtime.exn -> bool) (h : Runtime.exn -> Runtime.M SwapFileManager.world A)
    (w0 w : SwapFileManager.world) :
  extends w0 (snd (m w)) -> (forall e, grows (h e)) ->
  extends w0 (snd (Runtime.try_except m handles h w)).
Proof.
  unfold Runtime.try_except; intros H Hh.
  destruct (m w) as [[a|e|c|] w']; simpl in *; try exact H.
  destruct (handles e); [apply (extends_trans _ _ _ H), Hh|exact H].
Qed.

Lemma grows_bind (A B : Type) (m : Runtime.M SwapFileManager.world A)
    (k : A -> Runtime.M SwapFileManager.world B) :
  grows m -> (forall a, grows (k a)) -> grows (Runtime.bind m k).
Proof. intros Hm Hk w; apply bind_extends; [apply Hm|exact Hk]. Qed.

Lemma grows_cleanup (sh : SwapFileManager.shell) :
  grows (SwapFileManager.cleanup_swap_file sh).
Proof.
  intros w; rewrite cleanup_runs_two_commands; simpl.
  eapply extends_trans; apply extends_record.
Qed.

Lemma grows_loop (sh : SwapFileManager.shell)
    (again : Runtime.M SwapFileManager.world unit) (steps : list (string * string)) :
  grows again -> grows (SwapFileManager.btrfs_loop sh again steps).
Proof.
  intros Ha; induction steps as [|[d cmd] rest IH]; intros w; [apply extends_refl|].
  simpl SwapFileManager.btrfs_loop; rewrite run_cmd_checked; cbv zeta.
  pose proof (extends_record cmd w) as Hr.
  destruct (SwapFileManager.returncode _ =? 0)%N;
    [apply (extends_trans _ _ _ Hr), IH|].
  simpl SwapFileManager.is_called_process_error; cbv iota.
  destruct (_ && _); [|exact Hr].
  destruct (_ <? _)%nat; [|exact Hr].
  unfold Runtime.bind; rewrite cleanup_runs_two_commands.
  eapply extends_trans; [|apply Ha].
  apply (extends_trans _ _ _ Hr).
  eapply extends_trans; [|apply extends_record].
  eapply extends_trans; [|apply extends_record].
  exists []; simpl; symmetry; apply app_nil_r.
Qed.

Lemma grows_cow_safe (sh : SwapFileManager.shell) (fuel : nat) :
  grows (SwapFileManager.btrfs_swap_creation sh fuel).
Proof.
  induction fuel as [|fuel IH]; intros w; [apply extends_refl|].
  change (SwapFileManager.btrfs_swap_creation sh (S fuel) w)
    with (SwapFileManager.btrfs_loop sh (SwapFileManager.btrfs_swap_creation sh fuel)
            (SwapFileManager.btrfs_steps (SwapFileManager.self w)) w).
  apply (grows_loop _ _ _ IH).
Qed.

Lemma grows_update_fstab : grows SwapFileManager.update_fstab.
Proof.
  intros w; unfold SwapFileManager.update_fstab.
  destruct (negb _); [apply extends_refl|].
  destruct (negb _); [|apply extends_refl].
  destruct (Runtime.fstab_writable _); [|apply extends_refl].
  exists []; simpl; symmetry; apply app_nil_r.
Qed.

(** The COW-safe strategy begins with its first step. *)
Lemma cow_safe_begins_with_truncate (sh : SwapFileManager.shell)
    (fuel : nat) (w : SwapFileManager.world) :
  extends
    (SwapFileManager.record_cmd
       ("sudo truncate -s 0 " ++ SwapFileManager.swap_file_path (SwapFileManager.self w)) w)
    (snd (SwapFileManager.btrfs_swap_creation sh (S fuel) w)).
Proof.
  change (SwapFileManager.btrfs_swap_creation sh (S fuel) w)
    with (SwapFileManager.btrfs_loop sh (SwapFileManager.btrfs_swap_creation sh fuel)
            (SwapFileManager.btrfs_steps (SwapFileManager.self w)) w).
  unfold SwapFileManager.btrfs_steps.
  set (cmd := "sudo truncate -s 0 " ++ SwapFileManager.swap_file_path (SwapFileManager.self w)).
  set (rest := _ :: _ :: _ :: _ :: _ :: nil).
  change (extends (SwapFileManager.record_cmd cmd w)
            (snd (match SwapFileManager.run_cmd sh cmd true None w with
                  | (Runtime.Returned _, w') =>
                      SwapFileManager.btrfs_loop sh
                        (SwapFileManager.btrfs_swap_creation sh fuel) rest w'
                  | (Runtime.Raised e, w') =>
                      if SwapFileManager.is_called_process_error e
                      then
                        if PyStr.contains "swapon" cmd
                           && PyStr.contains "Invalid argument" (SwapFileManager.str_of_exn e)
                        then
                          if (SwapFileManager.retry_count (SwapFileManager.self w')
                              <? SwapFileManager.max_retries (SwapFileManager.self w'))%nat
                          then
                            Runtime.bind
                              (fun v => (Runtime.Returned tt,
                                         SwapFileManager.set_retry_count
                                           (SwapFileManager.retry_count
                                              (SwapFileManager.self v) + 1) v))
                              (fun _ => Runtime.bind (SwapFileManager.cleanup_swap_file sh)
                                          (fun _ => SwapFileManager.btrfs_swap_creation sh fuel))
                              w'
                          else (Runtime.Raised e, w')
                        else (Runtime.Raised e, w')
                      else (Runtime.Raised e, w')
                  | (Runtime.SysExit c, w') => (Runtime.SysExit c, w')
                  | (Runtime.OutOfFuel, w') => (Runtime.OutOfFuel, w')
                  end))).
  rewrite run_cmd_checked; cbv zeta.
  destruct (SwapFileManager.returncode _ =? 0)%N;
    [apply grows_loop, grows_cow_safe|].
  simpl SwapFileManager.is_called_process_error; cbv iota.
  destruct (_ && _); [|apply extends_refl].
  destruct (_ <? _)%nat; [|apply extends_refl].
  apply bind_extends; [exists []; simpl; symmetry; apply app_nil_r|].
  intros _; apply grows_bind; [apply grows_cleanup|intros _; apply grows_cow_safe].
Qed.

(** *** The commands of the COW-safe strategy *)

Lemma continues_refl (m : SwapFileManager.manager) : continues m m.
Proof. repeat split; auto. Qed.

Lemma continues_trans (a b c : SwapFileManager.manager) :
  continues a b -> continues b c -> continues a c.
Proof.
  intros (H1 & H2 & H3 & H4) (H5 & H6 & H7 & H8).
  repeat split; try congruence; lia.
Qed.

Lemma continues_steps (m m' : SwapFileManager.manager) :
  continues m m' ->
  SwapFileManager.btrfs_steps m' = SwapFileManager.btrfs_steps m /\
  cleanup_commands m' = cleanup_commands m.
Proof.
  intros (H1 & H2 & _); unfold SwapFileManager.btrfs_steps, cleanup_commands.
  rewrite H1, H2; split; reflexivity.
Qed.

Lemma trace_again (m : SwapFileManager.manager) (k : nat) (earlier : list nat)
    (last : nat) :
  cow_safe_trace m (k :: earlier) last
  = (firstn k (cow_safe_commands m) ++ cleanup_commands m
     ++ cow_safe_trace m earlier last)%list.
Proof.
  unfold cow_safe_trace; cbn [flat_map]; rewrite <- !app_assoc; reflexivity.
Qed.

Lemma trace_app (m : SwapFileManager.manager) (e1 : list nat) (k : nat)
    (e2 : list nat) (last : nat) :
  cow_safe_trace m (e1 ++ k :: e2) last
  = (cow_safe_trace m e1 k ++ cleanup_commands m ++ cow_safe_trace m e2 last)%list.
Proof.
  unfold cow_safe_trace; rewrite flat_map_app; cbn [flat_map].
  rewrite <- !app_assoc; reflexivity.
Qed.

(** One pass of the loop of the COW-safe strategy, from any of its
    steps on. *)
Lemma loop_is_cow_safe (sh : SwapFileManager.shell)
    (again : Runtime.M SwapFileManager.world unit) (m : SwapFileManager.manager) :
  (forall W, continues m (SwapFileManager.self W) -> cow_safe_run m [] W (again W)) ->
  forall (todo : list (string * string)) (done : list string) (w : SwapFileManager.world),
    cow_safe_commands m = (done ++ map snd todo)%list ->
    continues m (SwapFileManager.self w) ->
    cow_safe_run m done w (SwapFileManager.btrfs_loop sh again todo w).
Proof.
  intros Ha; induction todo as [|[d cmd] rest IH]; intros done w Hsteps Hw.
  - cbn [SwapFileManager.btrfs_loop map] in *; rewrite app_nil_r in Hsteps.
    split; [exact Hw|split; [reflexivity|]].
    exists [], [], 6%nat; cbn [fst snd Runtime.ret].
    split; [symmetry; apply app_nil_r|].
    split; [rewrite app_nil_r, <- Hsteps; reflexivity|].
    split; [constructor|split; [lia|split; [lia|reflexivity]]].
  - assert (Hlen : (List.length done + 1 + List.length rest = 6)%nat).
    { assert (H6 : List.length (cow_safe_commands m) = 6%nat) by reflexivity.
      rewrite Hsteps, length_app in H6; cbn [map List.length] in H6.
      rewrite length_map in H6; lia. }
    assert (Hfirst : firstn (List.length done + 1) (cow_safe_commands m)
                     = (done ++ [cmd])%list).
    { rewrite Hsteps, firstn_app_2; reflexivity. }
    cbn [SwapFileManager.btrfs_loop]; rewrite run_cmd_checked; cbv zeta.
    assert (Hstop : forall e,
               cow_safe_run m done w
                 (Runtime.Raised (A := unit) e, SwapFileManager.record_cmd cmd w)).
    { intros e; split; [exact Hw|split; [reflexivity|]].
      exists [cmd], [], (List.length done + 1)%nat; cbn [fst snd].
      split; [reflexivity|split; [symmetry; exact Hfirst|]].
      split; [constructor|split; [lia|split; [lia|]]].
      intros (a & Ha'); discriminate Ha'. }
    destruct (SwapFileManager.returncode _ =? 0)%N.
    + destruct (IH (done ++ [cmd])%list (SwapFileManager.record_cmd cmd w))
        as (Hc & Hf & tail & earlier & last & Hi & Ht & He & Hl & Hn & Hr).
      * rewrite <- app_assoc; exact Hsteps.
      * exact Hw.
      * split; [exact Hc|split; [exact Hf|]].
        exists (cmd :: tail), earlier, last.
        split; [rewrite Hi; cbn [SwapFileManager.record_cmd SwapFileManager.issued];
                rewrite <- app_assoc; reflexivity|].
        split; [rewrite <- Ht, <- app_assoc; reflexivity|].
        split; [exact He|split; [exact Hl|split; [exact Hn|exact Hr]]].
    + cbn [SwapFileManager.is_called_process_error].
      destruct (_ && _); [|apply Hstop].
      destruct (_ <? _)%nat; [|apply Hstop].
      unfold Runtime.bind; rewrite cleanup_runs_two_commands.
      match goal with |- context [again ?W] => set (W0 := W) end.
      assert (HW : continues m (SwapFileManager.self W0)).
      { destruct Hw as (H1 & H2 & H3 & H4).
        unfold W0; repeat split; cbn; try assumption; lia. }
      destruct (Ha W0 HW)
        as (Hc & Hf & tail & earlier & last & Hi & Ht & He & Hl & Hn & Hr).
      split; [exact Hc|split; [exact Hf|]].
      exists ((cmd :: cleanup_commands m) ++ tail)%list,
        ((List.length done + 1)%nat :: earlier), last.
      split.
      { rewrite Hi; unfold W0.
        cbn [SwapFileManager.record_cmd SwapFileManager.issued
             SwapFileManager.set_retry_count SwapFileManager.self
             SwapFileManager.swap_file_path].
        destruct Hw as (H1 & _); unfold cleanup_commands; rewrite <- H1.
        rewrite <- !app_assoc; reflexivity. }
      split.
      { rewrite trace_again, Hfirst, <- Ht, <- !app_assoc; reflexivity. }
      split; [constructor; [lia|exact He]|].
      split; [exact Hl|split; [exact Hn|exact Hr]].
Qed.

(** The COW-safe strategy issues the commands of its own attempts and
    cleanups and nothing else; when it returns, the six steps of the
    last attempt were run. *)
Lemma cow_safe_is_cow_safe (sh : SwapFileManager.shell) (m : SwapFileManager.manager)
    (fuel : nat) (w : SwapFileManager.world) :
  continues m (SwapFileManager.self w) ->
  cow_safe_run m [] w (SwapFileManager.btrfs_swap_creation sh fuel w).
Proof.
  revert w; induction fuel as [|fuel IH]; intros w Hw.
  - split; [exact Hw|split; [reflexivity|]].
    exists [], [], 0%nat; cbn [fst snd SwapFileManager.btrfs_swap_creation].
    split; [symmetry; apply app_nil_r|split; [reflexivity|]].
    split; [constructor|split; [lia|split; [congruence|]]].
    intros (a & Ha); discriminate Ha.
  - change (SwapFileManager.btrfs_swap_creation sh (S fuel) w)
      with (SwapFileManager.btrfs_loop sh (SwapFileManager.btrfs_swap_creation sh fuel)
              (SwapFileManager.btrfs_steps (SwapFileManager.self w)) w).
    apply (loop_is_cow_safe sh _ m IH); [|exact Hw].
    unfold cow_safe_commands; rewrite (proj1 (continues_steps _ _ Hw)); reflexivity.
Qed.

(** On [btrfs], the strategy step of [create_swap_file] is a run of the
    COW-safe strategy alone: its handler starts that strategy again. *)
Lemma strategy_is_cow_safe (sh : SwapFileManager.shell) (fuel : nat)
    (w : SwapFileManager.world) :
  SwapFileManager.fs_type (SwapFileManager.self w) = Some "btrfs" ->
  cow_safe_run (SwapFileManager.self w) [] w
    (SwapFileManager.create_by_strategy sh fuel w).
Proof.
  intros Hfs; unfold SwapFileManager.create_by_strategy; rewrite Hfs.
  change (String.eqb "btrfs" "btrfs") with true; cbv iota.
  unfold Runtime.try_except.
  pose proof (cow_safe_is_cow_safe sh (SwapFileManager.self w) fuel w (continues_refl _))
    as H1.
  destruct (SwapFileManager.btrfs_swap_creation sh fuel w) as [[[]|e|c|] w1];
    try exact H1.
  destruct e as [rc cmd o e|cmd t| | |msg|];
    cbn [SwapFileManager.is_called_process_error]; try exact H1.
  destruct (_ && _); [|exact H1].
  unfold Runtime.bind; rewrite cleanup_runs_two_commands.
  destruct H1 as (Hc & Hf & tail & earlier & last & Hi & Ht & He & Hl & Hn & _).
  cbn [fst snd] in Hc, Hf, Hi, Hn.
  match goal with
  | |- cow_safe_run _ _ _ (SwapFileManager.btrfs_swap_creation sh fuel ?W) =>
      set (W1 := W)
  end.
  destruct (cow_safe_is_cow_safe sh (SwapFileManager.self w) fuel W1 Hc)
    as (Hc2 & Hf2 & tail2 & earlier2 & last2 & Hi2 & Ht2 & He2 & Hl2 & Hn2 & Hr2).
  split; [exact Hc2|split; [rewrite Hf2; exact Hf|]].
  exists (tail ++ cleanup_commands (SwapFileManager.self w) ++ tail2)%list,
    (earlier ++ last :: earlier2)%list, last2.
  split.
  { rewrite Hi2; unfold W1.
    cbn [SwapFileManager.record_cmd SwapFileManager.issued].
    rewrite Hi; destruct Hc as (Hp & _); unfold cleanup_commands; rewrite <- Hp.
    rewrite <- !app_assoc; reflexivity. }
  split.
  { rewrite trace_app; cbn [app] in Ht, Ht2; rewrite Ht, Ht2; reflexivity. }
  split; [|split; [exact Hl2|split; [exact Hn2|exact Hr2]]].
  apply Forall_app; split; [exact He|].
  constructor; [|exact He2].
  split; [apply Hn; discriminate|exact Hl].
Qed.

(** Without a file at the path, [create_swap_file] issues the commands
    of its strategy step and no other. *)
Lemma creation_issues_the_strategy (sh : SwapFileManager.shell)
    (recreate : bool) (fuel : nat) (w : SwapFileManager.world) :
  SwapFileManager.issued
    (snd (SwapFileManager.create_swap_file sh false recreate fuel w))
  = SwapFileManager.issued (snd (SwapFileManager.create_by_strategy sh fuel w)).
Proof.
  unfold SwapFileManager.create_swap_file, Runtime.try_except.
  unfold Runtime.bind at 1; unfold Runtime.ret at 1; cbv iota beta.
  unfold Runtime.bind at 1.
  destruct (SwapFileManager.create_by_strategy sh fuel w) as [[[]|e|c|] w1];
    cbn [fst snd]; try reflexivity.
  unfold Runtime.bind, SwapFileManager.update_fstab.
  destruct (negb _); [reflexivity|].
  destruct (negb _); [|reflexivity].
  destruct (Runtime.fstab_writable _); reflexivity.
Qed.

(** On a machine on which every command succeeds, the COW-safe strategy
    runs its six steps once. *)
Lemma cow_safe_runs_six_steps (sh : SwapFileManager.shell) (fuel : nat)
    (w : SwapFileManager.world) :
  (forall history cmd, SwapFileManager.returncode (sh history cmd) = 0%N) ->
  SwapFileManager.btrfs_swap_creation sh (S fuel) w
  = (Runtime.Returned tt,
     {| SwapFileManager.self := SwapFileManager.self w;
        SwapFileManager.issued :=
          (SwapFileManager.issued w ++ cow_safe_commands (SwapFileManager.self w))%list;
        SwapFileManager.fstab := SwapFileManager.fstab w |}).
Proof.
  intros Hok.
  change (SwapFileManager.btrfs_swap_creation sh (S fuel) w)
    with (SwapFileManager.btrfs_loop sh (SwapFileManager.btrfs_swap_creation sh fuel)
            (SwapFileManager.btrfs_steps (SwapFileManager.self w)) w).
  unfold SwapFileManager.btrfs_steps, cow_safe_commands.
  cbn [SwapFileManager.btrfs_loop map snd].
  repeat (rewrite run_cmd_checked; cbv zeta; rewrite Hok;
          change (0 =? 0)%N with true; cbv iota).
  unfold Runtime.ret, SwapFileManager.record_cmd;
    cbn [SwapFileManager.self SwapFileManager.issued SwapFileManager.fstab].
  rewrite <- !app_assoc; reflexivity.
Qed.

(** C8: when the detected filesystem is [btrfs], the strategy step of
    [create_swap_file] is the COW-safe strategy alone.  The first
    command it issues is the truncation of the swap file - also for the
    whole of [create_swap_file] when no file exists at the path yet -
    and that command is not the [fallocate] the standard strategy starts
    with.  No step of the standard strategy is run by itself: the
    commands issued are attempts of the COW-safe strategy, each the
    first steps of its six in their order, with a cleanup between one
    attempt and the next; when the step returns, the last attempt ran
    all six.  On a machine on which every command succeeds these are the
    six steps, once.  Fuel above the retries still allowed is enough
    for the step to end. *)
Theorem cow_filesystem_starts_with_truncate
    (sh : SwapFileManager.shell) (fuel : nat) (w : SwapFileManager.world) :
  SwapFileManager.fs_type (SwapFileManager.self w) = Some "btrfs" ->
  let m := SwapFileManager.self w in
  let path := SwapFileManager.swap_file_path m in
  let r := SwapFileManager.create_by_strategy sh (S fuel) w in
  (exists more,
      SwapFileManager.issued (snd r)
      = (SwapFileManager.issued w ++ ("sudo truncate -s 0 " ++ path)%string :: more)%list) /\
  (forall recreate, exists more,
      SwapFileManager.issued
        (snd (SwapFileManager.create_swap_file sh false recreate (S fuel) w))
      = (SwapFileManager.issued w ++ ("sudo truncate -s 0 " ++ path)%string :: more)%list) /\
  (forall description command,
      nth_error (SwapFileManager.standard_steps m) 0 = Some (description, command) ->
      command <> "sudo truncate -s 0 " ++ path) /\
  (exists earlier last,
      SwapFileManager.issued (snd r)
      = (SwapFileManager.issued w ++ cow_safe_trace m earlier last)%list /\
      Forall (fun k => 1 <= k <= 6)%nat earlier /\
      (last <= 6)%nat /\
      (fst r <> Runtime.OutOfFuel -> 1 <= last)%nat /\
      (fst r = Runtime.Returned tt -> last = 6%nat)) /\
  (forall recreate,
      SwapFileManager.issued
        (snd (SwapFileManager.create_swap_file sh false recreate (S fuel) w))
      = SwapFileManager.issued (snd r)) /\
  ((forall history cmd, SwapFileManager.returncode (sh history cmd) = 0%N) ->
   fst r = Runtime.Returned tt /\
   SwapFileManager.issued (snd r)
   = (SwapFileManager.issued w ++ cow_safe_commands m)%list) /\
  ((SwapFileManager.max_retries m - SwapFileManager.retry_count m < S fuel)%nat ->
   fst r <> Runtime.OutOfFuel).
Proof.
  intros Hfs m path r.
  assert (Hs : extends
                 (SwapFileManager.record_cmd ("sudo truncate -s 0 " ++ path) w)
                 (snd r)).
  { unfold r, SwapFileManager.create_by_strategy; rewrite Hfs.
    change (String.eqb "btrfs" "btrfs") with true; cbv iota.
    apply try_except_extends; [apply cow_safe_begins_with_truncate|].
    intros [rc cmd o e|cmd t| | |msg|] w'; try apply extends_refl.
    destruct (_ && _); [|apply extends_refl].
    apply grows_bind; [apply grows_cleanup|intros _; apply grows_cow_safe]. }
  assert (Hfirst : exists more,
             SwapFileManager.issued (snd r)
             = (SwapFileManager.issued w
                ++ ("sudo truncate -s 0 " ++ path)%string :: more)%list).
  { destruct Hs as (more & E); exists more; rewrite E; simpl.
    rewrite <- app_assoc; reflexivity. }
  split; [exact Hfirst|].
  split; [intros recreate; rewrite creation_issues_the_strategy; exact Hfirst|].
  split.
  { intros description command H; simpl in H; injection H as _ <-.
    discriminate. }
  split.
  { destruct (strategy_is_cow_safe sh (S fuel) w Hfs)
      as (_ & _ & tail & earlier & last & Hi & Ht & He & Hl & Hn & Hr).
    exists earlier, last; fold r in Hi, Hn, Hr.
    split; [rewrite Hi; cbn [app] in Ht; rewrite Ht; reflexivity|].
    split; [exact He|split; [exact Hl|split; [exact Hn|]]].
    intros E; apply Hr; exists tt; exact E. }
  split; [intros recreate; apply creation_issues_the_strategy|].
  split.
  - intros Hok; unfold r, SwapFileManager.create_by_strategy; rewrite Hfs.
    change (String.eqb "btrfs" "btrfs") with true; cbv iota.
    unfold Runtime.try_except; rewrite (cow_safe_runs_six_steps sh fuel w Hok).
    split; reflexivity.
  - intros Hfuel; unfold r, SwapFileManager.create_by_strategy; rewrite Hfs.
    change (String.eqb "btrfs" "btrfs") with true; cbv iota.
    unfold Runtime.try_except.
    pose proof (enough_fuel sh (S fuel) w Hfuel) as H1.
    destruct (cow_safe_is_cow_safe sh m (S fuel) w (continues_refl _))
      as ((_ & _ & Hmax & Hcount) & _).
    destruct (SwapFileManager.btrfs_swap_creation sh (S fuel) w) as [[[]|e|c|] w1];
      cbn [fst snd] in *; try discriminate; [|congruence].
    destruct e as [rc cmd o e|cmd t| | |msg|];
      cbn [SwapFileManager.is_called_process_error]; try discriminate.
    destruct (_ && _); [|discriminate].
    unfold Runtime.bind; rewrite cleanup_runs_two_commands.
    apply enough_fuel; cbn [SwapFileManager.record_cmd SwapFileManager.self].
    fold m in Hcount; lia.
Qed.

Lemma cow_filesystem_starts_with_truncate_witness :
  SwapFileManager.issued
    (snd (SwapFileManager.create_by_strategy Examples.all_succeed 1
            (Examples.start (Examples.with_fs "btrfs" "/swapfile"))))
  = [ "sudo truncate -s 0 /swapfile"; "sudo chattr +C /swapfile";
      "sudo fallocate -l 1G /swapfile"; "sudo chmod 0600 /swapfile";
      "sudo mkswap /swapfile"; "sudo swapon /swapfile" ].
Proof.
  exact (proj2
           (proj1 (proj2 (proj2 (proj2 (proj2 (proj2
              (cow_filesystem_starts_with_truncate Examples.all_succeed 0
                 (Examples.start (Examples.with_fs "btrfs" "/swapfile")) eq_refl))))))
              (fun _ _ => eq_refl))).
Defined.

(** A run with a retry and a fall-back of the handler: on a path that
    names the condition of the retry test, with [swapon] refused every
    time, the commands are four attempts of six steps with three
    cleanups between them. *)
Example cow_safe_attempts_and_cleanups :
  let w := Examples.start (Examples.with_fs "btrfs" "/mnt/Invalid argument/swapfile") in
  let r := SwapFileManager.create_by_strategy Examples.swapon_refuses 3 w in
  SwapFileManager.issued (snd r)
  = cow_safe_trace (SwapFileManager.self w) [6; 6; 6]%nat 6.
Proof. vm_compute; reflexivity. Qed.

(** ** Claims on the command runners *)

(** C9, as stated, fails: the runner of the partition manager raises no
    error that a caller may catch; it leaves through [sys.exit(1)]. *)
Lemma partition_runner_exits_instead_of_raising :
  ~ (forall (sh : SwapManager.shell) (cmd : SwapManager.command) (w : SwapManager.world),
        SwapManager.returncode (sh (SwapManager.issued w) cmd) <> 0%Z ->
        exists e w', SwapManager.run_cmd sh cmd true w = (Runtime.Raised e, w')).
Proof.
  intros H.
  destruct (H Examples.all_fail (SwapManager.LsblkNames "/dev/sda") (Examples.fresh EmptyString)
              ltac:(discriminate)) as (e & w' & E).
  vm_compute in E; discriminate E.
Qed.

(** C9, amended: with [check = True], a command that ends within its
    timeout with a non-zero exit status makes the runner of the swap-file
    manager raise a [CalledProcessError] that carries the exit status and
    the command line, which a handler of the provisioner receives; the
    runner of the partition manager ends the process with [sys.exit(1)]
    instead, past every handler. *)
Theorem failed_command_raises_or_exits :
  (forall (sh : SwapFileManager.shell) (cmd : string) (timeout : option nat)
          (w : SwapFileManager.world),
      let r := sh (SwapFileManager.issued w) cmd in
      SwapFileManager.expired timeout r = false ->
      SwapFileManager.returncode r <> 0%N ->
      exists output stderr,
        let e := Runtime.CalledProcessError (SwapFileManager.returncode r) cmd output stderr in
        SwapFileManager.run_cmd sh cmd true timeout w
        = (Runtime.Raised e, SwapFileManager.record_cmd cmd w) /\
        forall h : Runtime.exn -> Runtime.M SwapFileManager.world string,
          Runtime.try_except (SwapFileManager.run_cmd sh cmd true timeout)
            SwapFileManager.is_called_process_error h w
          = h e (SwapFileManager.record_cmd cmd w)) /\
  (forall (sh : SwapManager.shell) (cmd : SwapManager.command) (w : SwapManager.world),
      SwapManager.returncode (sh (SwapManager.issued w) cmd) <> 0%Z ->
      SwapManager.run_cmd sh cmd true w
      = (Runtime.SysExit 1, SwapManager.record_cmd cmd w) /\
      forall (handles : Runtime.exn -> bool)
             (h : Runtime.exn -> Runtime.M SwapManager.world string),
        Runtime.try_except (SwapManager.run_cmd sh cmd true) handles h w
        = (Runtime.SysExit 1, SwapManager.record_cmd cmd w)).
Proof.
  split.
  - intros sh cmd timeout w r Hexp Hrc.
    exists None, None; cbv zeta.
    assert (E : SwapFileManager.run_cmd sh cmd true timeout w
                = (Runtime.Raised (Runtime.CalledProcessError
                                     (SwapFileManager.returncode r) cmd None None),
                   SwapFileManager.record_cmd cmd w)).
    { unfold SwapFileManager.run_cmd, SwapFileManager.subprocess_run, Runtime.bind.
      fold r. unfold SwapFileManager.expired in Hexp.
      apply N.eqb_neq in Hrc.
      destruct timeout as [t|]; [rewrite Hexp|]; rewrite Hrc; reflexivity. }
    split; [exact E|].
    intros h; unfold Runtime.try_except; rewrite E; reflexivity.
  - intros sh cmd w Hrc.
    assert (E : SwapManager.run_cmd sh cmd true w
                = (Runtime.SysExit 1, SwapManager.record_cmd cmd w)).
    { unfold SwapManager.run_cmd. apply Z.eqb_neq in Hrc; rewrite Hrc; reflexivity. }
    split; [exact E|].
    intros handles h; unfold Runtime.try_except; rewrite E; reflexivity.
Qed.

Lemma failed_command_raises_or_exits_witness :
  (exists output stderr,
      SwapFileManager.run_cmd Examples.chattr_fails "sudo chattr +C /swapfile" true None
        (Examples.start SwapFileManager.init)
      = (Runtime.Raised (Runtime.CalledProcessError 1 "sudo chattr +C /swapfile"
                           output stderr),
         SwapFileManager.record_cmd "sudo chattr +C /swapfile"
           (Examples.start SwapFileManager.init))) /\
  SwapManager.run_cmd Examples.all_fail (SwapManager.LsblkNames "/dev/sda") true
    (Examples.fresh EmptyString)
  = (Runtime.SysExit 1,
     SwapManager.record_cmd (SwapManager.LsblkNames "/dev/sda") (Examples.fresh EmptyString)).
Proof.
  split.
  - destruct (proj1 failed_command_raises_or_exits Examples.chattr_fails
                "sudo chattr +C /swapfile" None (Examples.start SwapFileManager.init)
                eq_refl ltac:(discriminate)) as (output & stderr & E & _).
    exists output, stderr; exact E.
  - exact (proj1 (proj2 failed_command_raises_or_exits Examples.all_fail
                    (SwapManager.LsblkNames "/dev/sda") (Examples.fresh EmptyString)
                    ltac:(discriminate))).
Defined.

(** * Further properties of the code *)

(** ** The partition provisioner as a whole *)

Lemma partition_run_cmd_checked (sh : SwapManager.shell) (cmd : SwapManager.command)
    (w : SwapManager.world) :
  SwapManager.run_cmd sh cmd true w
  = if (SwapManager.returncode (sh (SwapManager.issued w) cmd) =? 0)%Z
    then (Runtime.Returned
            (PyStr.strip (SwapManager.stdout (sh (SwapManager.issued w) cmd))),
          SwapManager.record_cmd cmd w)
    else (Runtime.SysExit 1, SwapManager.record_cmd cmd w).
Proof.
  unfold SwapManager.run_cmd; simpl.
  destruct (SwapManager.returncode _ =? 0)%Z; reflexivity.
Qed.

Ltac open_partition_run :=
  unfold SwapManager.create_swap_partition;
  cbv [negb Runtime.bind Runtime.ret SwapManager.backup_partition_table
       SwapManager.lift Runtime.raise Runtime.sys_exit].

Ltac next_command :=
  rewrite partition_run_cmd_checked;
  match goal with
  | |- context [(SwapManager.returncode ?r =? 0)%Z] =>
      let E := fresh "Hrc" in
      destruct (SwapManager.returncode r =? 0)%Z eqn:E; cbv iota beta
  end.

Ltac close_sequence :=
  first
    [ exists []; split; [cbn [snd]; symmetry; apply app_nil_r|reflexivity]
    | eexists; split;
      [ cbn [snd SwapManager.issued SwapManager.record_cmd];
        rewrite <- ?app_assoc; cbn [app]; reflexivity
      | cbn [partition_sequence andb]; rewrite ?String.eqb_refl; reflexivity ] ].

Lemma gt_false_le (x y : Q) : PyNum.gt x y = false -> x <= y.
Proof. unfold PyNum.gt; intros H; apply negb_false_iff, Qle_bool_iff in H; exact H. Qed.

Lemma gt_true_lt (x y : Q) : PyNum.gt x y = true -> y < x.
Proof.
  unfold PyNum.gt; intros H; apply negb_true_iff in H.
  apply Qnot_le_lt; intros Hle; apply Qle_bool_iff in Hle; congruence.
Qed.

(** The greatest end boundary is found among the rows and never falls
    below the [0.0] it starts from. *)
Lemma last_end_fold_ge (disk : string) (rows : list string) (acc : Q) :
  let step := fun last_end line =>
    if PyStr.startswith line "#" || PyStr.startswith line disk then last_end
    else
      let fields := PyStr.split ":" line in
      if (3 <? List.length fields)%nat
      then match PyNum.float (PyStr.remove "GiB" (nth 2 fields EmptyString)) with
           | Some end_gib => if PyNum.gt end_gib last_end then end_gib else last_end
           | None => last_end
           end
      else last_end in
  acc <= fold_left step rows acc /\
  forall line end_gib,
    In line rows ->
    PyStr.startswith line "#" || PyStr.startswith line disk = false ->
    (3 < List.length (PyStr.split ":" line))%nat ->
    PyNum.float (PyStr.remove "GiB" (nth 2 (PyStr.split ":" line) EmptyString))
    = Some end_gib ->
    end_gib <= fold_left step rows acc.
Proof.
  intros step; revert acc; induction rows as [|row rows IH]; intros acc.
  - split; [apply Qle_refl|intros line e []].
  - cbn [fold_left].
    destruct (IH (step acc row)) as [H1 H2].
    assert (Hacc : acc <= step acc row).
    { unfold step.
      destruct (_ || _); [apply Qle_refl|]; cbv zeta.
      destruct (_ <? _)%nat; [|apply Qle_refl].
      destruct (PyNum.float _) as [e|]; [|apply Qle_refl].
      destruct (PyNum.gt e acc) eqn:Hgt; [|apply Qle_refl].
      apply Qlt_le_weak, gt_true_lt, Hgt. }
    split; [apply (Qle_trans _ _ _ Hacc H1)|].
    intros line e [<-|Hin] Hskip Hlen Hf; [|apply (H2 line e Hin Hskip Hlen Hf)].
    apply (Qle_trans _ (step acc row)); [|exact H1].
    unfold step; rewrite Hskip; cbv zeta.
    apply Nat.ltb_lt in Hlen; rewrite Hlen, Hf.
    destruct (PyNum.gt e acc) eqn:Hgt; [apply Qle_refl|apply gt_false_le, Hgt].
Qed.

(** *** The loop on binary64 floats *)

(** [x < y] on floats is the order of their ranks. *)
Lemma ltb_rank (x y : PyFloat.float) :
  SFltb x y = true <->
  x <> S754_nan /\ y <> S754_nan /\ rank_lt (float_rank x) (float_rank y).
Proof.
  unfold SFltb, rank_lt.
  destruct x as [[]|[]| |[] mx ex], y as [[]|[]| |[] my ey];
    cbn [SFcompare float_rank];
    try (split; [discriminate|intros (H1 & H2 & H3); try congruence; lia]);
    try (split; [intros _; repeat split; try discriminate; lia|reflexivity]).
  - change (Pos.compare_cont Eq mx my) with (Pos.compare mx my).
    destruct (Z.compare_spec ex ey), (Pos.compare_spec mx my); cbn [CompOpp];
      split; try discriminate; try reflexivity;
        try (intros _; repeat split; try discriminate; lia);
        intros (_ & _ & H3); lia.
  - change (Pos.compare_cont Eq mx my) with (Pos.compare mx my).
    destruct (Z.compare_spec ex ey), (Pos.compare_spec mx my);
      split; try discriminate; try reflexivity;
        try (intros _; repeat split; try discriminate; lia);
        intros (_ & _ & H3); lia.
Qed.

Lemma gt_trans (x y z : PyFloat.float) :
  PyFloat.gt x y = true -> PyFloat.gt y z = true -> PyFloat.gt x z = true.
Proof.
  unfold PyFloat.gt; rewrite !ltb_rank.
  intros (Hy & Hx & H1) (Hz & _ & H2).
  split; [exact Hz|split; [exact Hx|]].
  unfold rank_lt in *.
  destruct (float_rank x) as [[x1 x2] x3], (float_rank y) as [[y1 y2] y3],
    (float_rank z) as [[z1 z2] z3]; lia.
Qed.

Lemma gt_irrefl (x : PyFloat.float) : PyFloat.gt x x = false.
Proof.
  destruct (PyFloat.gt x x) eqn:E; [|reflexivity].
  unfold PyFloat.gt in E; apply ltb_rank in E as (_ & _ & H).
  unfold rank_lt in H; destruct (float_rank x) as [[x1 x2] x3]; lia.
Qed.

(** What is greater than a number not below zero is one as well. *)
Lemma gt_not_negative (x y : PyFloat.float) :
  not_negative y = true -> PyFloat.gt x y = true -> not_negative x = true.
Proof.
  unfold PyFloat.gt, SFltb.
  destruct y as [[]|[]| |[] my ey], x as [[]|[]| |[] mx ex];
    cbn [SFcompare not_negative negb]; intros Hy H;
    try discriminate Hy; try discriminate H; reflexivity.
Qed.

(** The greatest end boundary, as the floats order it: the loop never
    leaves the numbers not below zero, and no end that it read is
    greater than its result. *)
Lemma last_end_fold_float (disk : string) (rows : list string) (acc : PyFloat.float) :
  let step := fun last_end line =>
    if PyStr.startswith line "#" || PyStr.startswith line disk then last_end
    else
      let fields := PyStr.split ":" line in
      if (3 <? List.length fields)%nat
      then match PyFloat.of_text (PyStr.remove "GiB" (nth 2 fields EmptyString)) with
           | Some end_gib => if PyFloat.gt end_gib last_end then end_gib else last_end
           | None => last_end
           end
      else last_end in
  (not_negative acc = true -> not_negative (fold_left step rows acc) = true) /\
  (forall y, PyFloat.gt y (fold_left step rows acc) = true -> PyFloat.gt y acc = true) /\
  forall line end_gib,
    In line rows ->
    PyStr.startswith line "#" || PyStr.startswith line disk = false ->
    (3 < List.length (PyStr.split ":" line))%nat ->
    PyFloat.of_text (PyStr.remove "GiB" (nth 2 (PyStr.split ":" line) EmptyString))
    = Some end_gib ->
    PyFloat.gt end_gib (fold_left step rows acc) = false.
Proof.
  intros step; revert acc; induction rows as [|row rows IH]; intros acc.
  - split; [auto|split; [auto|intros line e []]].
  - cbn [fold_left].
    destruct (IH (step acc row)) as (H1 & H2 & H3).
    assert (Hstep : (not_negative acc = true -> not_negative (step acc row) = true) /\
                    (forall y, PyFloat.gt y (step acc row) = true ->
                               PyFloat.gt y acc = true)).
    { unfold step.
      destruct (_ || _); [auto|]; cbv zeta.
      destruct (_ <? _)%nat; [|auto].
      destruct (PyFloat.of_text _) as [e|]; [|auto].
      destruct (PyFloat.gt e acc) eqn:Hgt; [|auto].
      split; [intros Hacc; apply (gt_not_negative _ _ Hacc Hgt)|].
      intros y Hy; apply (gt_trans _ _ _ Hy Hgt). }
    destruct Hstep as [Hs1 Hs2].
    split; [intros Hacc; apply H1, Hs1, Hacc|].
    split; [intros y Hy; apply Hs2, H2, Hy|].
    intros line e [<-|Hin] Hskip Hlen Hf; [|apply (H3 line e Hin Hskip Hlen Hf)].
    destruct (PyFloat.gt e (fold_left step rows (step acc row))) eqn:E; [|reflexivity].
    apply H2 in E; unfold step in E; rewrite Hskip in E; cbv zeta in E.
    apply Nat.ltb_lt in Hlen; rewrite Hlen, Hf in E.
    destruct (PyFloat.gt e acc) eqn:Hgt;
      [rewrite gt_irrefl in E; discriminate E|congruence].
Qed.

(** X1. The start of the new partition, [last_end], as the loop over
    the rows of [parted ... print] computes it on floats: it is a number
    not below zero - never a NaN, never negative - and no row that the
    loop reads has an end greater than it.  The loop reads a row that
    is neither a comment nor the line of the disk and has more than
    three fields and an end that [float()] accepts, be it a decimal
    number, one with an exponent, [inf] or [nan]. *)
Theorem last_end_bounds_every_row (disk parted_print : string) :
  not_negative (SwapManager.last_end_float disk parted_print) = true /\
  forall line end_gib,
    In line (PyStr.splitlines parted_print) ->
    PyStr.startswith line "#" || PyStr.startswith line disk = false ->
    (3 < List.length (PyStr.split ":" line))%nat ->
    PyFloat.of_text (PyStr.remove "GiB" (nth 2 (PyStr.split ":" line) EmptyString))
    = Some end_gib ->
    PyFloat.gt end_gib (SwapManager.last_end_float disk parted_print) = false.
Proof.
  destruct (last_end_fold_float disk (PyStr.splitlines parted_print) PyFloat.zero)
    as (H1 & _ & H3).
  split; [apply H1; reflexivity|exact H3].
Qed.

Lemma last_end_bounds_every_row_witness :
  PyFloat.gt (PyFloat.of_Z 8)
    (SwapManager.last_end_float "/dev/sda"
       (Examples.lines ["BYT;"; "/dev/sda:10.0GiB:scsi:512:512:gpt:QEMU:;";
                        "1:0.00GiB:8GiB:8.00GiB:ext4::;"])) = false.
Proof.
  apply (proj2 (last_end_bounds_every_row "/dev/sda"
                  (Examples.lines ["BYT;"; "/dev/sda:10.0GiB:scsi:512:512:gpt:QEMU:;";
                                   "1:0.00GiB:8GiB:8.00GiB:ext4::;"]))
           "1:0.00GiB:8GiB:8.00GiB:ext4::;");
    [vm_compute; tauto|vm_compute; reflexivity|vm_compute; lia|vm_compute; reflexivity].
Defined.

(** Rows with an end that is no plain number: a NaN is never taken, an
    infinity is. *)
Example last_end_of_odd_rows :
  SwapManager.last_end_float "/dev/sda"
    (Examples.lines ["1:0.00GiB:nanGiB:1.00GiB:ext4::;"; "2:1.00GiB:2e0GiB:1.00GiB:ext4::;"])
  = PyFloat.of_Z 2 /\
  SwapManager.last_end_float "/dev/sda"
    (Examples.lines ["1:0.00GiB:8.00GiB:8.00GiB:ext4::;"; "2:8.00GiB:infGiB:1.00GiB:ext4::;"])
  = S754_infinity false.
Proof. split; vm_compute; reflexivity. Qed.

(** X2. Whatever the machine answers, the commands of one run of
    [create_swap_partition] are a beginning of the sequence backup,
    listing, [parted print], size query, [mkpart], listing, [mkswap],
    [swapon], in that order and on the chosen disk; a declined
    confirmation ends in [sys.exit(0)] with no command issued and nothing
    changed. *)
Theorem partition_commands_follow_the_sequence
    (sh : SwapManager.shell) (proceed : bool) (timestamp disk size : string)
    (w : SwapManager.world) :
  (exists done,
      SwapManager.issued
        (snd (SwapManager.create_swap_partition sh proceed timestamp disk size w))
      = (SwapManager.issued w ++ done)%list /\
      partition_sequence disk done = true) /\
  SwapManager.create_swap_partition sh false timestamp disk size w
  = (Runtime.SysExit 0, w).
Proof.
  split; [|reflexivity].
  open_partition_run.
  destruct proceed; cbv iota beta; [|close_sequence].
  next_command; [|close_sequence].
  next_command; [|close_sequence].
  next_command; [|close_sequence].
  destruct (SwapManager.read_size_at_creation size) as [e|[num unit]];
    cbv iota beta; [close_sequence|].
  next_command; [|close_sequence].
  destruct (PyNum.int_of_str _) as [n|]; cbv iota beta; [|close_sequence].
  destruct (PyNum.gt _ _); cbv iota beta; [close_sequence|].
  next_command; [|close_sequence].
  next_command; [|close_sequence].
  destruct (SwapManager.detect_new_partition _ _) as [p|]; cbv iota beta;
    [|close_sequence].
  next_command; [|close_sequence].
  next_command; [|close_sequence].
  unfold SwapManager.persist_partition; cbv beta zeta.
  destruct (negb (Runtime.fstab_readable _)); [close_sequence|].
  destruct (negb (PyStr.contains _ _)); [|close_sequence].
  destruct (Runtime.fstab_writable _); close_sequence.
Qed.

Ltac settle_commands Hd :=
  cbn [snd SwapManager.issued SwapManager.record_cmd] in Hd;
  rewrite <- ?app_assoc in Hd; cbn [app] in Hd;
  first [ apply app_inv_head in Hd
        | rewrite <- (app_nil_r (SwapManager.issued _)) in Hd at 1;
          apply app_inv_head in Hd ];
  match type of Hd with _ = ?x => subst x end.

Ltac pick_mkpart Hin tac :=
  lazymatch type of Hin with
  | _ \/ _ =>
      let H1 := fresh "Hc" in
      destruct Hin as [H1|Hin];
      [ first [ discriminate H1 | injection H1 as <- <- <-; tac ]
      | pick_mkpart Hin tac ]
  | False => destruct Hin
  end.

Ltac leaf Hd Hin tac := settle_commands Hd; cbn [In] in Hin; pick_mkpart Hin tac.

Lemma last_end_not_negative (disk parted_print : string) :
  0 <= SwapManager.last_end_of disk parted_print.
Proof. exact (proj1 (last_end_fold_ge disk (PyStr.splitlines parted_print) 0)). Qed.

Ltac found :=
  split; [eexists; reflexivity|];
  split; [first [reflexivity|assumption]|];
  split; [match goal with H : ?s = SwapManager.last_end_of _ _ |- 0 <= ?s =>
            rewrite H; apply last_end_not_negative end|];
  eexists; split; [first [reflexivity|eassumption]|assumption].



(** X4. [create_swap_partition] changes the mount table only as the
    last step of a run that created, formatted and activated the new
    partition: either the table is left as it was, or the run returns
    with the entry of that partition appended, right after [mkswap] and
    [swapon] on it. *)
Theorem partition_entry_follows_activation
    (sh : SwapManager.shell) (proceed : bool) (timestamp disk size : string)
    (w : SwapManager.world) :
  let r := SwapManager.create_swap_partition sh proceed timestamp disk size w in
  SwapManager.fstab (snd r) = SwapManager.fstab w \/
  exists c front,
    fst r = Runtime.Returned c /\
    SwapManager.fstab_result c = Runtime.Added /\
    SwapManager.backup_file c = backup_name timestamp disk /\
    SwapManager.fstab (snd r)
    = Runtime.append_swap_line (SwapManager.swap_partition c) (SwapManager.fstab w) /\
    SwapManager.issued (snd r)
    = (front ++ [ SwapManager.Mkswap (SwapManager.swap_partition c);
                  SwapManager.Swapon (SwapManager.swap_partition c) ])%list.
Proof.
  cbv zeta; unfold backup_name.
  open_partition_run.
  destruct proceed; cbv iota beta; [|left; reflexivity].
  next_command; [|left; reflexivity].
  next_command; [|left; reflexivity].
  next_command; [|left; reflexivity].
  destruct (SwapManager.read_size_at_creation size) as [e|[num unit]];
    cbv iota beta; [left; reflexivity|].
  next_command; [|left; reflexivity].
  destruct (PyNum.int_of_str _) as [n|]; cbv iota beta; [|left; reflexivity].
  destruct (PyNum.gt _ _); cbv iota beta; [left; reflexivity|].
  next_command; [|left; reflexivity].
  next_command; [|left; reflexivity].
  destruct (SwapManager.detect_new_partition _ _) as [p|]; cbv iota beta;
    [|left; reflexivity].
  next_command; [|left; reflexivity].
  next_command; [|left; reflexivity].
  unfold SwapManager.persist_partition; cbv beta zeta.
  destruct (negb (Runtime.fstab_readable _)); [left; reflexivity|].
  destruct (negb (PyStr.contains _ _)); [|left; reflexivity].
  destruct (Runtime.fstab_writable _); [|left; reflexivity].
  right; eexists; eexists.
  cbn [fst snd SwapManager.fstab SwapManager.issued SwapManager.record_cmd
       SwapManager.fstab_result SwapManager.swap_partition SwapManager.backup_file].
  repeat split.
  rewrite <- app_assoc; reflexivity.
Qed.

(** ** The swap-file provisioner as a whole *)

Lemma attempts_record (cmd : string) (w : SwapFileManager.world) :
  attempts_made (SwapFileManager.record_cmd cmd w)
  = (attempts_made w + if String.prefix "sudo truncate -s 0 " cmd then 1 else 0)%nat.
Proof.
  unfold attempts_made; cbn [SwapFileManager.issued SwapFileManager.record_cmd].
  rewrite filter_app, length_app; cbn [filter].
  destruct (String.prefix _ cmd); reflexivity.
Qed.

(** One pass of the loop over steps none of which is the first step. *)
Lemma loop_keeps_the_count (sh : SwapFileManager.shell)
    (again : Runtime.M SwapFileManager.world unit)
    (steps : list (string * string)) (w : SwapFileManager.world) :
  forallb (fun step => negb (String.prefix "sudo truncate -s 0 " (snd step))) steps = true ->
  (forall W,
      SwapFileManager.retry_count (SwapFileManager.self W)
      = S (SwapFileManager.retry_count (SwapFileManager.self w)) ->
      SwapFileManager.max_retries (SwapFileManager.self W)
      = SwapFileManager.max_retries (SwapFileManager.self w) ->
      (SwapFileManager.retry_count (SwapFileManager.self w)
       < SwapFileManager.max_retries (SwapFileManager.self w))%nat ->
      (attempts_made (snd (again W)) + SwapFileManager.retry_count (SwapFileManager.self W)
       = attempts_made W + 1
         + SwapFileManager.retry_count (SwapFileManager.self (snd (again W))))%nat /\
      (SwapFileManager.retry_count (SwapFileManager.self W)
       <= SwapFileManager.retry_count (SwapFileManager.self (snd (again W)))
       <= SwapFileManager.max_retries (SwapFileManager.self W))%nat /\
      SwapFileManager.max_retries (SwapFileManager.self (snd (again W)))
      = SwapFileManager.max_retries (SwapFileManager.self W)) ->
  let w' := snd (SwapFileManager.btrfs_loop sh again steps w) in
  (attempts_made w' + SwapFileManager.retry_count (SwapFileManager.self w)
   = attempts_made w + SwapFileManager.retry_count (SwapFileManager.self w'))%nat /\
  (SwapFileManager.retry_count (SwapFileManager.self w)
   <= SwapFileManager.retry_count (SwapFileManager.self w'))%nat /\
  ((SwapFileManager.retry_count (SwapFileManager.self w)
    <= SwapFileManager.max_retries (SwapFileManager.self w))%nat ->
   (SwapFileManager.retry_count (SwapFileManager.self w')
    <= SwapFileManager.max_retries (SwapFileManager.self w))%nat) /\
  SwapFileManager.max_retries (SwapFileManager.self w')
  = SwapFileManager.max_retries (SwapFileManager.self w).
Proof.
  revert w; induction steps as [|[d cmd] rest IH]; intros w Hs Ha;
    [cbn; repeat split; auto|].
  cbn [forallb snd] in Hs; apply andb_true_iff in Hs as [Hc Hrest].
  apply negb_true_iff in Hc.
  cbn [SwapFileManager.btrfs_loop]; rewrite run_cmd_checked; cbv zeta.
  assert (Hrec : attempts_made (SwapFileManager.record_cmd cmd w) = attempts_made w)
    by (rewrite attempts_record, Hc; lia).
  destruct (SwapFileManager.returncode _ =? 0)%N.
  - destruct (IH (SwapFileManager.record_cmd cmd w) Hrest Ha) as (H1 & H2 & H3 & H4).
    rewrite Hrec in H1; auto.
  - cbn [SwapFileManager.is_called_process_error].
    destruct (_ && _); [|cbn [snd]; rewrite Hrec; repeat split; auto].
    destruct (_ <? _)%nat eqn:Hlt; [|cbn [snd]; rewrite Hrec; repeat split; auto].
    apply Nat.ltb_lt in Hlt; cbn in Hlt.
    unfold Runtime.bind; rewrite cleanup_runs_two_commands.
    match goal with |- context [again ?W] => set (W0 := W) end.
    destruct (Ha W0) as (H1 & H2 & H3);
      [cbn; apply Nat.add_1_r|reflexivity|exact Hlt|].
    assert (HW : attempts_made W0 = attempts_made w).
    { unfold W0; rewrite !attempts_record.
      unfold attempts_made at 1; cbn [SwapFileManager.issued SwapFileManager.set_retry_count].
      fold (attempts_made (SwapFileManager.record_cmd cmd w)); rewrite Hrec.
      cbn; lia. }
    assert (HR : SwapFileManager.retry_count (SwapFileManager.self W0)
                 = S (SwapFileManager.retry_count (SwapFileManager.self w)))
      by (cbn; apply Nat.add_1_r).
    assert (HM : SwapFileManager.max_retries (SwapFileManager.self W0)
                 = SwapFileManager.max_retries (SwapFileManager.self w)) by reflexivity.
    rewrite HW, HR in H1; rewrite HR, HM in H2; rewrite HM in H3.
    repeat split; try lia; exact H3.
Qed.

(** X5. With fuel above the retries still allowed, [btrfs_swap_creation]
    ends by itself, and the retry counter counts what it did: the runs of
    the steps started are one more than the increase of [retry_count],
    which never decreases and never passes [max_retries]; so at most
    [1 + max_retries - retry_count] runs are made. *)
Theorem retry_counter_counts_the_attempts
    (sh : SwapFileManager.shell) (fuel : nat) (w : SwapFileManager.world) :
  (SwapFileManager.retry_count (SwapFileManager.self w)
   <= SwapFileManager.max_retries (SwapFileManager.self w))%nat ->
  (SwapFileManager.max_retries (SwapFileManager.self w)
   - SwapFileManager.retry_count (SwapFileManager.self w) < fuel)%nat ->
  let r := SwapFileManager.btrfs_swap_creation sh fuel w in
  fst r <> Runtime.OutOfFuel /\
  (attempts_made (snd r) + SwapFileManager.retry_count (SwapFileManager.self w)
   = attempts_made w + 1 + SwapFileManager.retry_count (SwapFileManager.self (snd r)))%nat /\
  (SwapFileManager.retry_count (SwapFileManager.self w)
   <= SwapFileManager.retry_count (SwapFileManager.self (snd r))
   <= SwapFileManager.max_retries (SwapFileManager.self w))%nat /\
  (attempts_made (snd r)
   <= attempts_made w + 1
      + (SwapFileManager.max_retries (SwapFileManager.self w)
         - SwapFileManager.retry_count (SwapFileManager.self w)))%nat.
Proof.
  intros Hle Hfuel r; subst r.
  split; [apply enough_fuel, Hfuel|].
  assert (H : (attempts_made (snd (SwapFileManager.btrfs_swap_creation sh fuel w))
               + SwapFileManager.retry_count (SwapFileManager.self w)
               = attempts_made w + 1
                 + SwapFileManager.retry_count
                     (SwapFileManager.self (snd (SwapFileManager.btrfs_swap_creation sh fuel w))))%nat /\
              (SwapFileManager.retry_count (SwapFileManager.self w)
               <= SwapFileManager.retry_count
                    (SwapFileManager.self (snd (SwapFileManager.btrfs_swap_creation sh fuel w)))
               <= SwapFileManager.max_retries (SwapFileManager.self w))%nat /\
              SwapFileManager.max_retries
                (SwapFileManager.self (snd (SwapFileManager.btrfs_swap_creation sh fuel w)))
              = SwapFileManager.max_retries (SwapFileManager.self w)).
  { revert w Hle Hfuel; induction fuel as [|fuel IH]; intros w Hle Hfuel; [lia|].
    change (SwapFileManager.btrfs_swap_creation sh (S fuel) w)
      with (SwapFileManager.btrfs_loop sh (SwapFileManager.btrfs_swap_creation sh fuel)
              (SwapFileManager.btrfs_steps (SwapFileManager.self w)) w).
    unfold SwapFileManager.btrfs_steps.
    set (cmd := "sudo truncate -s 0 "
                  ++ SwapFileManager.swap_file_path (SwapFileManager.self w)).
    set (rest := _ :: _ :: _ :: _ :: _ :: nil).
    assert (Hrest : forallb (fun step => negb (String.prefix "sudo truncate -s 0 " (snd step)))
                      rest = true) by reflexivity.
    assert (Hagain : forall W,
               SwapFileManager.retry_count (SwapFileManager.self W)
               = S (SwapFileManager.retry_count (SwapFileManager.self w)) ->
               SwapFileManager.max_retries (SwapFileManager.self W)
               = SwapFileManager.max_retries (SwapFileManager.self w) ->
               (SwapFileManager.retry_count (SwapFileManager.self w)
                < SwapFileManager.max_retries (SwapFileManager.self w))%nat ->
               (attempts_made (snd (SwapFileManager.btrfs_swap_creation sh fuel W))
                + SwapFileManager.retry_count (SwapFileManager.self W)
                = attempts_made W + 1
                  + SwapFileManager.retry_count
                      (SwapFileManager.self (snd (SwapFileManager.btrfs_swap_creation sh fuel W))))%nat /\
               (SwapFileManager.retry_count (SwapFileManager.self W)
                <= SwapFileManager.retry_count
                     (SwapFileManager.self (snd (SwapFileManager.btrfs_swap_creation sh fuel W)))
                <= SwapFileManager.max_retries (SwapFileManager.self W))%nat /\
               SwapFileManager.max_retries
                 (SwapFileManager.self (snd (SwapFileManager.btrfs_swap_creation sh fuel W)))
               = SwapFileManager.max_retries (SwapFileManager.self W)).
    { intros W HR HM Hlt; apply IH; lia. }
    assert (Hcmd : attempts_made (SwapFileManager.record_cmd cmd w) = (attempts_made w + 1)%nat).
    { rewrite attempts_record; unfold cmd.
      change (String.prefix "sudo truncate -s 0 "
                ("sudo truncate -s 0 "
                   ++ SwapFileManager.swap_file_path (SwapFileManager.self w)))
        with (String.prefix EmptyString
                (SwapFileManager.swap_file_path (SwapFileManager.self w))).
      destruct (SwapFileManager.swap_file_path _); reflexivity. }
    change (SwapFileManager.btrfs_loop sh (SwapFileManager.btrfs_swap_creation sh fuel)
              (("Creating empty file", cmd) :: rest) w)
      with (match SwapFileManager.run_cmd sh cmd true None w with
            | (Runtime.Returned _, w') =>
                SwapFileManager.btrfs_loop sh
                  (SwapFileManager.btrfs_swap_creation sh fuel) rest w'
            | (Runtime.Raised e, w') =>
                if SwapFileManager.is_called_process_error e
                then
                  if PyStr.contains "swapon" cmd
                     && PyStr.contains "Invalid argument" (SwapFileManager.str_of_exn e)
                  then
                    if (SwapFileManager.retry_count (SwapFileManager.self w')
                        <? SwapFileManager.max_retries (SwapFileManager.self w'))%nat
                    then
                      Runtime.bind
                        (fun v => (Runtime.Returned tt,
                                   SwapFileManager.set_retry_count
                                     (SwapFileManager.retry_count
                                        (SwapFileManager.self v) + 1) v))
                        (fun _ => Runtime.bind (SwapFileManager.cleanup_swap_file sh)
                                    (fun _ => SwapFileManager.btrfs_swap_creation sh fuel))
                        w'
                    else (Runtime.Raised e, w')
                  else (Runtime.Raised e, w')
                else (Runtime.Raised e, w')
            | (Runtime.SysExit c, w') => (Runtime.SysExit c, w')
            | (Runtime.OutOfFuel, w') => (Runtime.OutOfFuel, w')
            end).
    rewrite run_cmd_checked; cbv zeta.
    destruct (SwapFileManager.returncode _ =? 0)%N.
    - destruct (loop_keeps_the_count sh (SwapFileManager.btrfs_swap_creation sh fuel)
                  rest (SwapFileManager.record_cmd cmd w) Hrest Hagain)
        as (H1 & H2 & H3 & H4).
      rewrite Hcmd in H1.
      cbn [SwapFileManager.self SwapFileManager.record_cmd] in *.
      specialize (H3 Hle).
      repeat split; try lia; exact H4.
    - cbn [SwapFileManager.is_called_process_error].
      destruct (_ && _); [|cbn [snd]; rewrite Hcmd; repeat split; auto; lia].
      destruct (_ <? _)%nat eqn:Hlt; [|cbn [snd]; rewrite Hcmd; repeat split; auto; lia].
      apply Nat.ltb_lt in Hlt; cbn in Hlt.
      unfold Runtime.bind; rewrite cleanup_runs_two_commands.
      match goal with |- context [SwapFileManager.btrfs_swap_creation sh fuel ?W] =>
                        set (W0 := W) end.
      destruct (Hagain W0) as (H1 & H2 & H3);
        [cbn; apply Nat.add_1_r|reflexivity|exact Hlt|].
      assert (HW : attempts_made W0 = (attempts_made w + 1)%nat).
      { unfold W0; rewrite !attempts_record.
        unfold attempts_made at 1;
          cbn [SwapFileManager.issued SwapFileManager.set_retry_count].
        fold (attempts_made (SwapFileManager.record_cmd cmd w)); rewrite Hcmd.
        cbn; lia. }
      assert (HR : SwapFileManager.retry_count (SwapFileManager.self W0)
                   = S (SwapFileManager.retry_count (SwapFileManager.self w)))
        by (cbn; apply Nat.add_1_r).
      assert (HM : SwapFileManager.max_retries (SwapFileManager.self W0)
                   = SwapFileManager.max_retries (SwapFileManager.self w)) by reflexivity.
      rewrite HW, HR in H1; rewrite HR, HM in H2; rewrite HM in H3.
      repeat split; try lia; exact H3. }
  destruct H as (H1 & H2 & H3).
  repeat split; lia.
Qed.

Lemma retry_counter_counts_the_attempts_witness :
  let w0 := Examples.start (Examples.with_fs "btrfs" "/mnt/Invalid argument/swapfile") in
  (attempts_made (snd (SwapFileManager.btrfs_swap_creation Examples.swapon_refuses 3 w0))
   <= attempts_made w0 + 1 + (2 - 0))%nat.
Proof.
  intros w0.
  destruct (retry_counter_counts_the_attempts Examples.swapon_refuses 3 w0)
    as (_ & _ & _ & H); [cbn; lia|cbn; lia|exact H].
Defined.

(** One step of the loop of the standard strategy, with its two
    handlers written out. *)
Lemma standard_loop_step (sh : SwapFileManager.shell) (d cmd : string)
    (rest : list (string * string)) (w : SwapFileManager.world) :
  SwapFileManager.standard_loop sh ((d, cmd) :: rest) w
  = let r := sh (SwapFileManager.issued w) cmd in
    let w' := SwapFileManager.record_cmd cmd w in
    if (SwapFileManager.timeout_seconds <? SwapFileManager.elapsed r)%nat
    then (Runtime.Returned true, w')
    else if (SwapFileManager.returncode r =? 0)%N
    then SwapFileManager.standard_loop sh rest w'
    else if PyStr.contains "fallocate" (PyStr.lower cmd)
    then
      let dd := SwapFileManager.dd_command (SwapFileManager.self w') in
      let r2 := sh (SwapFileManager.issued w') dd in
      let w'' := SwapFileManager.record_cmd dd w' in
      if (SwapFileManager.timeout_seconds <? SwapFileManager.elapsed r2)%nat
      then (Runtime.Returned true, w'')
      else if (SwapFileManager.returncode r2 =? 0)%N
      then SwapFileManager.standard_loop sh rest w''
      else (Runtime.Raised (Runtime.CalledProcessError (SwapFileManager.returncode r2)
                              dd None None), w'')
    else (Runtime.Raised (Runtime.CalledProcessError (SwapFileManager.returncode r) cmd
                            (Some (SwapFileManager.stdout r))
                            (Some (SwapFileManager.stderr r))), w').
Proof.
  cbn [SwapFileManager.standard_loop].
  unfold Runtime.bind, SwapFileManager.subprocess_run, SwapFileManager.run_cmd,
    Runtime.raise, Runtime.ret; cbv zeta.
  destruct (_ <? SwapFileManager.elapsed (sh (SwapFileManager.issued w) cmd))%nat;
    [reflexivity|].
  destruct (SwapFileManager.returncode (sh (SwapFileManager.issued w) cmd) =? 0)%N;
    cbn [negb]; [reflexivity|].
  cbn [SwapFileManager.is_timeout_expired SwapFileManager.is_called_process_error].
  destruct (PyStr.contains "fallocate" (PyStr.lower cmd)); [|reflexivity].
  unfold Runtime.bind, SwapFileManager.subprocess_run.
  destruct (_ <? SwapFileManager.elapsed _)%nat; [reflexivity|].
  destruct (SwapFileManager.returncode _ =? 0)%N; reflexivity.
Qed.

Ltac behaved :=
  repeat split;
  solve [ reflexivity | discriminate | apply extends_refl | apply extends_record
        | exists []; cbn; symmetry; apply app_nil_r | auto ].

Lemma extends_two (a b : string) (w : SwapFileManager.world) :
  extends w (SwapFileManager.record_cmd b (SwapFileManager.record_cmd a w)).
Proof. eapply extends_trans; apply extends_record. Qed.

Lemma behaved_bind (A B : Type) (m : Runtime.M SwapFileManager.world A)
    (k : A -> Runtime.M SwapFileManager.world B) :
  well_behaved m -> (forall a, well_behaved (k a)) -> well_behaved (Runtime.bind m k).
Proof.
  intros Hm Hk w; unfold Runtime.bind.
  specialize (Hm w); destruct (m w) as [[a|e|c|] w']; cbn [fst snd] in *;
    destruct Hm as (H5 & H6 & H7 & H8 & H9).
  - destruct (Hk a w') as (H1 & H2 & H3 & H4 & H0).
    repeat split; [congruence|congruence|exact H3|exact H4|].
    apply (extends_trans _ _ _ H9 H0).
  - repeat split; [exact H5|exact H6|discriminate| |exact H9].
    intros e0 H; injection H as <-; apply H8; reflexivity.
  - exfalso; apply (H7 c); reflexivity.
  - repeat split; [exact H5|exact H6|discriminate|discriminate|exact H9].
Qed.

Lemma behaved_try_except (A : Type) (m : Runtime.M SwapFileManager.world A)
    (handles : Runtime.exn -> bool) (h : Runtime.exn -> Runtime.M SwapFileManager.world A) :
  well_behaved m -> (forall e, handles e = true -> well_behaved (h e)) ->
  well_behaved (Runtime.try_except m handles h).
Proof.
  intros Hm Hh w; unfold Runtime.try_except.
  specialize (Hm w); destruct (m w) as [[a|e|c|] w']; cbn [fst snd] in *; try exact Hm.
  destruct (handles e) eqn:He; [|exact Hm].
  destruct (Hh e He w') as (H1 & H2 & H3 & H4 & H0); destruct Hm as (H5 & H6 & _ & _ & H9).
  repeat split; [congruence|congruence|exact H3|exact H4|].
  apply (extends_trans _ _ _ H9 H0).
Qed.

Lemma behaved_ret (A : Type) (a : A) :
  well_behaved (Runtime.ret (W := SwapFileManager.world) a).
Proof. intros w; behaved. Qed.

Lemma behaved_command_error (A : Type) (rc : N) (cmd : string)
    (output stderr : option string) (w w' : SwapFileManager.world) :
  SwapFileManager.fstab w' = SwapFileManager.fstab w ->
  SwapFileManager.swap_file_path (SwapFileManager.self w')
  = SwapFileManager.swap_file_path (SwapFileManager.self w) ->
  extends w w' ->
  let r := (Runtime.Raised (A := A) (Runtime.CalledProcessError rc cmd output stderr), w') in
  SwapFileManager.fstab (snd r) = SwapFileManager.fstab w /\
  SwapFileManager.swap_file_path (SwapFileManager.self (snd r))
  = SwapFileManager.swap_file_path (SwapFileManager.self w) /\
  (forall code, fst r <> Runtime.SysExit code) /\
  (forall e, fst r = Runtime.Raised e ->
             SwapFileManager.is_called_process_error e = true) /\
  extends w (snd r).
Proof.
  intros Hf Hp He; cbn; repeat split; try assumption; try discriminate.
  intros e H; injection H as <-; reflexivity.
Qed.

Lemma behaved_run_cmd (sh : SwapFileManager.shell) (cmd : string) (check : bool) :
  well_behaved (SwapFileManager.run_cmd sh cmd check None).
Proof.
  intros w; unfold SwapFileManager.run_cmd, SwapFileManager.subprocess_run,
              Runtime.bind, Runtime.raise, Runtime.ret.
  destruct (_ && _); [|behaved].
  apply behaved_command_error; [reflexivity|reflexivity|apply extends_record].
Qed.

Lemma behaved_cleanup (sh : SwapFileManager.shell) :
  well_behaved (SwapFileManager.cleanup_swap_file sh).
Proof.
  intros w; rewrite cleanup_runs_two_commands.
  repeat split; try discriminate; apply extends_two.
Qed.

Lemma behaved_loop (sh : SwapFileManager.shell)
    (again : Runtime.M SwapFileManager.world unit) (steps : list (string * string)) :
  well_behaved again -> well_behaved (SwapFileManager.btrfs_loop sh again steps).
Proof.
  intros Ha; induction steps as [|[d cmd] rest IH]; intros w; [behaved|].
  cbn [SwapFileManager.btrfs_loop]; rewrite run_cmd_checked; cbv zeta.
  pose proof (extends_record cmd w) as Hr.
  destruct (SwapFileManager.returncode _ =? 0)%N.
  { destruct (IH (SwapFileManager.record_cmd cmd w)) as (H1 & H2 & H3 & H4 & H5).
    repeat split; [exact H1|exact H2|exact H3|exact H4|].
    apply (extends_trans _ _ _ Hr H5). }
  cbn [SwapFileManager.is_called_process_error].
  destruct (_ && _);
    [|apply behaved_command_error; [reflexivity|reflexivity|exact Hr]].
  destruct (_ <? _)%nat;
    [|apply behaved_command_error; [reflexivity|reflexivity|exact Hr]].
  unfold Runtime.bind; rewrite cleanup_runs_two_commands.
  match goal with |- context [again ?W] =>
                    destruct (Ha W) as (H1 & H2 & H3 & H4 & H5) end.
  repeat split; [exact H1|exact H2|exact H3|exact H4|].
  eapply extends_trans; [|exact H5].
  apply (extends_trans _ _ _ Hr).
  eapply extends_trans; [|apply extends_two].
  exists []; cbn; symmetry; apply app_nil_r.
Qed.

Lemma behaved_cow_safe (sh : SwapFileManager.shell) (fuel : nat) :
  well_behaved (SwapFileManager.btrfs_swap_creation sh fuel).
Proof.
  induction fuel as [|fuel IH]; intros w; [behaved|].
  change (SwapFileManager.btrfs_swap_creation sh (S fuel) w)
    with (SwapFileManager.btrfs_loop sh (SwapFileManager.btrfs_swap_creation sh fuel)
            (SwapFileManager.btrfs_steps (SwapFileManager.self w)) w).
  apply (behaved_loop _ _ _ IH).
Qed.

Lemma behaved_standard_loop (sh : SwapFileManager.shell) (steps : list (string * string)) :
  well_behaved (SwapFileManager.standard_loop sh steps).
Proof.
  induction steps as [|[d cmd] rest IH]; intros w; [behaved|].
  rewrite standard_loop_step; cbv zeta.
  pose proof (extends_record cmd w) as Hr.
  destruct (_ <? _)%nat; [behaved|].
  destruct (_ =? 0)%N.
  { destruct (IH (SwapFileManager.record_cmd cmd w)) as (H1 & H2 & H3 & H4 & H5).
    repeat split; [exact H1|exact H2|exact H3|exact H4|].
    apply (extends_trans _ _ _ Hr H5). }
  destruct (PyStr.contains _ _);
    [|apply behaved_command_error; [reflexivity|reflexivity|exact Hr]].
  destruct (_ <? _)%nat; [repeat split; try discriminate; apply extends_two|].
  destruct (_ =? 0)%N;
    [|apply behaved_command_error; [reflexivity|reflexivity|apply extends_two]].
  match goal with |- context [SwapFileManager.standard_loop sh rest ?W] =>
                    destruct (IH W) as (H1 & H2 & H3 & H4 & H5) end.
  repeat split; [exact H1|exact H2|exact H3|exact H4|].
  eapply extends_trans; [apply extends_two|exact H5].
Qed.

Lemma behaved_standard (sh : SwapFileManager.shell) (fuel : nat) :
  well_behaved (SwapFileManager.standard_swap_creation sh fuel).
Proof.
  intros w; unfold SwapFileManager.standard_swap_creation.
  apply behaved_bind; [apply behaved_standard_loop|].
  intros [|]; [|apply behaved_ret].
  apply behaved_bind; [apply behaved_cleanup|intros _; apply behaved_cow_safe].
Qed.

Lemma behaved_strategy (sh : SwapFileManager.shell) (fuel : nat) :
  well_behaved (SwapFileManager.create_by_strategy sh fuel).
Proof.
  intros w; unfold SwapFileManager.create_by_strategy.
  apply behaved_try_except.
  - destruct (match SwapFileManager.fs_type _ with Some _ => _ | None => _ end);
      [apply behaved_cow_safe|apply behaved_standard].
  - intros [rc cmd o e|cmd t| | |msg|] He; try discriminate He.
    destruct (_ && _).
    + apply behaved_bind; [apply behaved_cleanup|intros _; apply behaved_cow_safe].
    + intros v; apply behaved_command_error; [reflexivity|reflexivity|apply extends_refl].
Qed.

Lemma behaved_verify (sh : SwapFileManager.shell) :
  well_behaved (SwapFileManager.verify_swap_file sh).
Proof.
  intros w; unfold SwapFileManager.verify_swap_file.
  apply behaved_try_except; [|intros e _; apply behaved_ret].
  apply behaved_bind; [apply behaved_run_cmd|intros a; apply behaved_ret].
Qed.

Lemma verify_runs_one_command (sh : SwapFileManager.shell) (w : SwapFileManager.world) :
  SwapFileManager.verify_swap_file sh w
  = (Runtime.Returned
       (PyStr.contains "swap file"
          (PyStr.lower (PyStr.strip
                          (SwapFileManager.stdout
                             (sh (SwapFileManager.issued w)
                                ("file " ++ SwapFileManager.swap_file_path
                                              (SwapFileManager.self w))))))),
     SwapFileManager.record_cmd
       ("file " ++ SwapFileManager.swap_file_path (SwapFileManager.self w)) w).
Proof.
  unfold SwapFileManager.verify_swap_file, Runtime.try_except, Runtime.bind.
  rewrite run_cmd_unchecked; reflexivity.
Qed.

(** The loop of the standard strategy ends by itself and leaves the
    attributes alone. *)
Lemma standard_loop_ends (sh : SwapFileManager.shell) (steps : list (string * string))
    (w : SwapFileManager.world) :
  fst (SwapFileManager.standard_loop sh steps w) <> Runtime.OutOfFuel /\
  SwapFileManager.self (snd (SwapFileManager.standard_loop sh steps w))
  = SwapFileManager.self w.
Proof.
  revert w; induction steps as [|[d cmd] rest IH]; intros w;
    [split; [discriminate|reflexivity]|].
  rewrite standard_loop_step; cbv zeta.
  destruct (_ <? _)%nat; [split; [discriminate|reflexivity]|].
  destruct (_ =? 0)%N; [apply (IH (SwapFileManager.record_cmd cmd w))|].
  destruct (PyStr.contains _ _); [|split; [discriminate|reflexivity]].
  destruct (_ <? _)%nat; [split; [discriminate|reflexivity]|].
  destruct (_ =? 0)%N; [|split; [discriminate|reflexivity]].
  match goal with |- context [SwapFileManager.standard_loop sh rest ?W] =>
                    apply (IH W) end.
Qed.

(** With fuel above the retries still allowed, the strategy step of
    [create_swap_file] ends by itself, whichever strategy it takes. *)
Lemma strategy_has_fuel (sh : SwapFileManager.shell) (fuel : nat)
    (w : SwapFileManager.world) :
  (SwapFileManager.max_retries (SwapFileManager.self w)
   - SwapFileManager.retry_count (SwapFileManager.self w) < fuel)%nat ->
  fst (SwapFileManager.create_by_strategy sh fuel w) <> Runtime.OutOfFuel.
Proof.
  intros Hfuel.
  assert (Hagain : forall w1,
             continues (SwapFileManager.self w) (SwapFileManager.self w1) ->
             fst (Runtime.bind (SwapFileManager.cleanup_swap_file sh)
                    (fun _ => SwapFileManager.btrfs_swap_creation sh fuel) w1)
             <> Runtime.OutOfFuel).
  { intros w1 (_ & _ & Hmax & Hcount).
    unfold Runtime.bind; rewrite cleanup_runs_two_commands.
    apply enough_fuel; cbn [SwapFileManager.record_cmd SwapFileManager.self]; lia. }
  assert (Hinner :
            forall inner : Runtime.M SwapFileManager.world unit,
              fst (inner w) <> Runtime.OutOfFuel ->
              continues (SwapFileManager.self w) (SwapFileManager.self (snd (inner w))) ->
              fst (Runtime.try_except inner SwapFileManager.is_called_process_error
                     (fun e =>
                        match e with
                        | Runtime.CalledProcessError rc cmd _ _ =>
                            if PyStr.contains "swapon" (PyStr.lower cmd) && (rc =? 255)%N
                            then Runtime.bind (SwapFileManager.cleanup_swap_file sh)
                                   (fun _ => SwapFileManager.btrfs_swap_creation sh fuel)
                            else Runtime.raise e
                        | _ => Runtime.raise e
                        end) w)
              <> Runtime.OutOfFuel).
  { intros inner H1 H2; unfold Runtime.try_except.
    destruct (inner w) as [[[]|e|c|] w1]; cbn [fst snd] in *;
      try discriminate; [|congruence].
    destruct e as [rc cmd o e|cmd t| | |msg|];
      cbn [SwapFileManager.is_called_process_error]; try discriminate.
    destruct (_ && _); [apply Hagain, H2|discriminate]. }
  unfold SwapFileManager.create_by_strategy.
  destruct (match SwapFileManager.fs_type _ with Some _ => _ | None => _ end).
  - apply Hinner; [apply enough_fuel, Hfuel|].
    apply (cow_safe_is_cow_safe sh _ fuel w (continues_refl _)).
  - unfold SwapFileManager.standard_swap_creation.
    apply Hinner; unfold Runtime.bind;
      destruct (standard_loop_ends sh
                  (SwapFileManager.standard_steps (SwapFileManager.self w)) w)
        as [Hend Hself];
      destruct (SwapFileManager.standard_loop sh _ w) as [[[|]|e|c|] w1];
      cbn [fst snd] in *; try discriminate; try congruence;
      try (rewrite Hself; apply continues_refl).
    + apply (Hagain w1); rewrite Hself; apply continues_refl.
    + rewrite cleanup_runs_two_commands.
      match goal with
      | |- continues _ (SwapFileManager.self
                          (snd (SwapFileManager.btrfs_swap_creation sh fuel ?W))) =>
          apply (cow_safe_is_cow_safe sh _ fuel W)
      end.
      cbn [SwapFileManager.record_cmd SwapFileManager.self].
      rewrite Hself; apply continues_refl.
    + unfold Runtime.ret; cbn [snd]; rewrite Hself; apply continues_refl.
Qed.

Lemma bind_ends (W A B : Type) (m : Runtime.M W A) (k : A -> Runtime.M W B) (w : W) :
  fst (m w) <> Runtime.OutOfFuel ->
  (forall a, fst (m w) = Runtime.Returned a ->
             fst (k a (snd (m w))) <> Runtime.OutOfFuel) ->
  fst (Runtime.bind m k w) <> Runtime.OutOfFuel.
Proof.
  unfold Runtime.bind; intros Hm Hk.
  destruct (m w) as [[a|e|c|] w']; cbn [fst snd] in *;
    [apply (Hk a eq_refl)|discriminate|discriminate|congruence].
Qed.

(** With fuel above the retries still allowed, [create_swap_file] ends
    by itself. *)
Lemma creation_has_fuel (sh : SwapFileManager.shell) (exists_ recreate : bool)
    (fuel : nat) (w : SwapFileManager.world) :
  (SwapFileManager.max_retries (SwapFileManager.self w)
   - SwapFileManager.retry_count (SwapFileManager.self w) < fuel)%nat ->
  fst (SwapFileManager.create_swap_file sh exists_ recreate fuel w) <> Runtime.OutOfFuel.
Proof.
  intros Hfuel.
  unfold SwapFileManager.create_swap_file, Runtime.try_except.
  match goal with
  | |- fst (match ?work w with _ => _ end) <> _ =>
      assert (Hwork : fst (work w) <> Runtime.OutOfFuel);
      [|destruct (work w) as [[a|e|c|] w']; cbn [fst] in *;
        [discriminate|discriminate|discriminate|congruence]]
  end.
  set (pre := if exists_ then _ else _).
  assert (Hpre : exists keep w1,
             pre w = (Runtime.Returned keep, w1) /\
             SwapFileManager.self w1 = SwapFileManager.self w).
  { unfold pre; destruct exists_;
      [|exists false, w; split; reflexivity].
    unfold Runtime.bind at 1; rewrite verify_runs_one_command.
    destruct (_ && negb recreate);
      [eexists; eexists; split; reflexivity|].
    unfold Runtime.bind; rewrite cleanup_runs_two_commands.
    eexists; eexists; split; reflexivity. }
  destruct Hpre as (keep & w1 & Hpre & Hself).
  apply bind_ends; rewrite Hpre; cbn [fst snd]; [discriminate|].
  intros [|] _; [cbn; discriminate|].
  apply bind_ends; [apply strategy_has_fuel; rewrite Hself; exact Hfuel|].
  intros _ _; unfold Runtime.bind, SwapFileManager.update_fstab.
  destruct (Runtime.fstab_readable _), (PyStr.contains _ _), (Runtime.fstab_writable _);
    cbn; discriminate.
Qed.

(** What [create_swap_file] does to the mount table, whatever the fuel. *)
Lemma creation_keeps_the_table
    (sh : SwapFileManager.shell) (exists_ recreate : bool) (fuel : nat)
    (w : SwapFileManager.world) :
  let r := SwapFileManager.create_swap_file sh exists_ recreate fuel w in
  (forall e, fst r <> Runtime.Raised e) /\
  (forall code, fst r = Runtime.SysExit code -> code = 1%Z) /\
  (SwapFileManager.fstab (snd r) = SwapFileManager.fstab w \/
   fst r = Runtime.Returned (Some Runtime.Added) /\
   SwapFileManager.fstab (snd r)
   = Runtime.append_swap_line (SwapFileManager.swap_file_path (SwapFileManager.self w))
       (SwapFileManager.fstab w)).
Proof.
  cbv zeta; unfold SwapFileManager.create_swap_file, Runtime.try_except.
  set (pre := if exists_ then _ else _).
  assert (Hpre : well_behaved pre).
  { unfold pre; destruct exists_; [|apply behaved_ret].
    apply behaved_bind; [apply behaved_verify|].
    intros valid; destruct (valid && negb recreate); [apply behaved_ret|].
    apply behaved_bind; [apply behaved_cleanup|intros _; apply behaved_ret]. }
  unfold Runtime.bind, Runtime.ret, Runtime.sys_exit.
  destruct (Hpre w) as (Hf1 & Hp1 & Hx1 & _ & _).
  destruct (pre w) as [[keep|e|c|] w1]; cbn [fst snd] in *.
  - destruct keep;
      [repeat split; [discriminate|discriminate|left; exact Hf1]|].
    destruct (behaved_strategy sh fuel w1) as (Hf2 & Hp2 & Hx2 & _ & _).
    destruct (SwapFileManager.create_by_strategy sh fuel w1) as [[[]|e|c|] w2];
      cbn [fst snd] in *.
    + unfold SwapFileManager.update_fstab.
      rewrite Hf2, Hf1, Hp2, Hp1.
      destruct (negb (Runtime.fstab_readable _));
        [cbn; repeat split; try discriminate; left; congruence|].
      destruct (negb (PyStr.contains _ _));
        [|cbn; repeat split; try discriminate; left; congruence].
      destruct (Runtime.fstab_writable _);
        [|cbn; repeat split; try discriminate; left; congruence].
      cbn; repeat split; try discriminate; right; split; reflexivity.
    + cbn; repeat split; [discriminate|intros code H; injection H as <-; reflexivity|].
      left; congruence.
    + exfalso; apply (Hx2 c); reflexivity.
    + cbn; repeat split; try discriminate; left; congruence.
  - cbn; repeat split; [discriminate|intros code H; injection H as <-; reflexivity|].
    left; exact Hf1.
  - exfalso; apply (Hx1 c); reflexivity.
  - cbn; repeat split; try discriminate; left; exact Hf1.
Qed.

(** X6. [create_swap_file] never lets an exception out: it returns, or it
    ends in [sys.exit(1)] - and with fuel above the retries still
    allowed it does end in one of the two.  It changes the mount table
    only when the creation succeeded and [update_fstab] answered
    ["Added"], and then by appending the line of the swap file; after
    any failure, and when the user keeps an existing swap file, the
    table is as it was. *)
Theorem swap_file_entry_follows_success
    (sh : SwapFileManager.shell) (exists_ recreate : bool) (fuel : nat)
    (w : SwapFileManager.world) :
  let r := SwapFileManager.create_swap_file sh exists_ recreate fuel w in
  (forall e, fst r <> Runtime.Raised e) /\
  (forall code, fst r = Runtime.SysExit code -> code = 1%Z) /\
  (SwapFileManager.fstab (snd r) = SwapFileManager.fstab w \/
   fst r = Runtime.Returned (Some Runtime.Added) /\
   SwapFileManager.fstab (snd r)
   = Runtime.append_swap_line (SwapFileManager.swap_file_path (SwapFileManager.self w))
       (SwapFileManager.fstab w)) /\
  ((SwapFileManager.max_retries (SwapFileManager.self w)
    - SwapFileManager.retry_count (SwapFileManager.self w) < fuel)%nat ->
   (exists status, fst r = Runtime.Returned status) \/ fst r = Runtime.SysExit 1).
Proof.
  intros r.
  destruct (creation_keeps_the_table sh exists_ recreate fuel w) as (H1 & H2 & H3).
  fold r in H1, H2, H3.
  split; [exact H1|split; [exact H2|split; [exact H3|]]].
  intros Hfuel.
  pose proof (creation_has_fuel sh exists_ recreate fuel w Hfuel) as Hend.
  fold r in Hend.
  destruct (fst r) as [status|e|c|] eqn:E.
  - left; exists status; reflexivity.
  - exfalso; apply (H1 e); reflexivity.
  - right; rewrite (H2 c eq_refl); reflexivity.
  - congruence.
Qed.

Lemma swap_file_entry_follows_success_witness :
  (exists status,
      fst (SwapFileManager.create_swap_file Examples.all_succeed false false 3
             (Examples.start (Examples.with_fs "ext4" "/swapfile")))
      = Runtime.Returned status) \/
  fst (SwapFileManager.create_swap_file Examples.all_succeed false false 3
         (Examples.start (Examples.with_fs "ext4" "/swapfile")))
  = Runtime.SysExit 1.
Proof.
  apply (proj2 (proj2 (proj2
           (swap_file_entry_follows_success Examples.all_succeed false false 3
              (Examples.start (Examples.with_fs "ext4" "/swapfile")))))).
  cbn; lia.
Defined.

Lemma lower_fallocate_command (x : string) :
  PyStr.contains "fallocate" (PyStr.lower ("sudo fallocate -l " ++ x)) = true.
Proof.
  change (PyStr.lower ("sudo fallocate -l " ++ x))
    with ("sudo " ++ "fallocate" ++ (" -l " ++ PyStr.lower x)).
  apply contains_intro.
Qed.

(** X7. A timeout never leaves the strategy step: every exception that
    comes out of [create_by_strategy] is a [CalledProcessError].  When
    the first step of the standard strategy, [fallocate], runs over its
    30 seconds, [standard_swap_creation] cleans up and goes on with the
    COW-safe strategy. *)
Theorem timeout_switches_to_the_cow_safe_strategy
    (sh : SwapFileManager.shell) (fuel : nat) (w : SwapFileManager.world) :
  (forall e, fst (SwapFileManager.create_by_strategy sh fuel w) = Runtime.Raised e ->
             SwapFileManager.is_called_process_error e = true) /\
  (let fallocate :=
     "sudo fallocate -l " ++ SwapFileManager.size (SwapFileManager.self w) ++ " "
       ++ SwapFileManager.swap_file_path (SwapFileManager.self w) in
   (30 < SwapFileManager.elapsed (sh (SwapFileManager.issued w) fallocate))%nat ->
   SwapFileManager.standard_swap_creation sh fuel w
   = Runtime.bind (SwapFileManager.cleanup_swap_file sh)
       (fun _ => SwapFileManager.btrfs_swap_creation sh fuel)
       (SwapFileManager.record_cmd fallocate w)).
Proof.
  split.
  - destruct (behaved_strategy sh fuel w) as (_ & _ & _ & H & _); exact H.
  - intros fallocate Hslow.
    unfold SwapFileManager.standard_swap_creation, SwapFileManager.standard_steps.
    unfold Runtime.bind at 1.
    rewrite standard_loop_step; cbv zeta.
    apply Nat.ltb_lt in Hslow.
    fold fallocate; unfold SwapFileManager.timeout_seconds; rewrite Hslow.
    reflexivity.
Qed.

Lemma timeout_switches_to_the_cow_safe_strategy_witness :
  SwapFileManager.issued
    (snd (SwapFileManager.standard_swap_creation Examples.slow_fallocate 1
            (Examples.start (Examples.with_fs "ext4" "/swapfile"))))
  = [ "sudo fallocate -l 1G /swapfile";
      "sudo swapoff /swapfile"; "sudo rm -f /swapfile";
      "sudo truncate -s 0 /swapfile"; "sudo chattr +C /swapfile";
      "sudo fallocate -l 1G /swapfile"; "sudo chmod 0600 /swapfile";
      "sudo mkswap /swapfile"; "sudo swapon /swapfile" ].
Proof.
  rewrite (proj2 (timeout_switches_to_the_cow_safe_strategy Examples.slow_fallocate 1
                    (Examples.start (Examples.with_fs "ext4" "/swapfile"))));
    [vm_compute; reflexivity|cbn; lia].
Defined.

Lemma int_of_float_ratio (b k : Z) :
  (0 <= b)%Z -> (0 < k)%Z ->
  PyNum.int_of_float (inject_Z b / inject_Z k) = (b / k)%Z.
Proof.
  intros Hb Hk; unfold PyNum.int_of_float.
  destruct k as [|k|k]; try lia.
  cbn; rewrite Z.mul_1_r, Z.quot_div_nonneg by lia; reflexivity.
Qed.

(** X8. When [fallocate] ends within its 30 seconds with a failure, the
    standard strategy allocates with [dd] instead, one MiB block at a
    time: the block count is the size in bytes divided by [1024**2], so
    [dd] never writes more than the size asked for and falls short of it
    by less than one MiB.  A [dd] that runs over 30 seconds switches to
    the COW-safe strategy, one that fails is raised, one that succeeds
    lets the strategy go on with its remaining steps. *)
Theorem failed_fallocate_is_replaced_by_dd
    (sh : SwapFileManager.shell) (w : SwapFileManager.world) :
  let m := SwapFileManager.self w in
  let fallocate :=
    "sudo fallocate -l " ++ SwapFileManager.size m ++ " "
      ++ SwapFileManager.swap_file_path m in
  let w1 := SwapFileManager.record_cmd fallocate w in
  let dd := SwapFileManager.dd_command m in
  let r2 := sh (SwapFileManager.issued w1) dd in
  let w2 := SwapFileManager.record_cmd dd w1 in
  (SwapFileManager.elapsed (sh (SwapFileManager.issued w) fallocate) <= 30)%nat ->
  SwapFileManager.returncode (sh (SwapFileManager.issued w) fallocate) <> 0%N ->
  (0 <= SwapFileManager.size_bytes m)%Z ->
  SwapFileManager.standard_loop sh (SwapFileManager.standard_steps m) w
  = (if (30 <? SwapFileManager.elapsed r2)%nat then (Runtime.Returned true, w2)
     else if (SwapFileManager.returncode r2 =? 0)%N
          then SwapFileManager.standard_loop sh (tl (SwapFileManager.standard_steps m)) w2
          else (Runtime.Raised
                  (Runtime.CalledProcessError (SwapFileManager.returncode r2) dd None None),
                w2)) /\
  exists block_count,
    dd = "sudo dd if=/dev/zero of=" ++ SwapFileManager.swap_file_path m
           ++ " bs=1M count=" ++ SwapFileManager.decimal_of_Z block_count
           ++ " status=progress" /\
    (block_count * 1024 ^ 2 <= SwapFileManager.size_bytes m
     < (block_count + 1) * 1024 ^ 2)%Z.
Proof.
  intros m fallocate w1 dd r2 w2 Hfast Hfail Hsize.
  split.
  - unfold SwapFileManager.standard_steps; rewrite standard_loop_step; cbv zeta.
    fold fallocate.
    assert (Hnot : (SwapFileManager.timeout_seconds
                    <? SwapFileManager.elapsed (sh (SwapFileManager.issued w) fallocate))%nat
                   = false) by (apply Nat.ltb_ge; exact Hfast).
    rewrite Hnot.
    apply N.eqb_neq in Hfail; rewrite Hfail.
    unfold fallocate at 1; rewrite lower_fallocate_command.
    reflexivity.
  - exists (SwapFileManager.size_bytes m / 1024 ^ 2)%Z; split.
    + unfold dd, SwapFileManager.dd_command.
      rewrite int_of_float_ratio by lia; reflexivity.
    + pose proof (Z.mul_div_le (SwapFileManager.size_bytes m) (1024 ^ 2)).
      pose proof (Z.mul_succ_div_gt (SwapFileManager.size_bytes m) (1024 ^ 2)).
      lia.
Qed.

Lemma failed_fallocate_is_replaced_by_dd_witness :
  SwapFileManager.standard_loop Examples.no_fallocate
    (SwapFileManager.standard_steps (Examples.with_fs "ext4" "/swapfile"))
    (Examples.start (Examples.with_fs "ext4" "/swapfile"))
  = (Runtime.Returned false,
     {| SwapFileManager.self := Examples.with_fs "ext4" "/swapfile";
        SwapFileManager.issued :=
          [ "sudo fallocate -l 1G /swapfile";
            "sudo dd if=/dev/zero of=/swapfile bs=1M count=1024 status=progress";
            "sudo chmod 0600 /swapfile"; "sudo mkswap /swapfile";
            "sudo swapon /swapfile" ];
        SwapFileManager.fstab := Runtime.rw_fstab EmptyString |}).
Proof.
  refine (eq_trans
            (proj1 (failed_fallocate_is_replaced_by_dd Examples.no_fallocate
                      (Examples.start (Examples.with_fs "ext4" "/swapfile")) _ _ _)) _).
  - vm_compute; lia.
  - vm_compute; discriminate.
  - vm_compute; discriminate.
  - vm_compute; reflexivity.
Defined.

(** X9. The two soft probes never fail: whatever [swapoff] and [rm]
    answer, [cleanup_swap_file] returns after exactly these two commands,
    and whatever [file] answers, [verify_swap_file] returns whether its
    output, in lower case, holds ["swap file"]. *)
Theorem soft_probes_never_fail (sh : SwapFileManager.shell) (w : SwapFileManager.world) :
  let path := SwapFileManager.swap_file_path (SwapFileManager.self w) in
  SwapFileManager.cleanup_swap_file sh w
  = (Runtime.Returned tt,
     SwapFileManager.record_cmd ("sudo rm -f " ++ path)
       (SwapFileManager.record_cmd ("sudo swapoff " ++ path) w)) /\
  SwapFileManager.verify_swap_file sh w
  = (Runtime.Returned
       (PyStr.contains "swap file"
          (PyStr.lower (PyStr.strip
                          (SwapFileManager.stdout
                             (sh (SwapFileManager.issued w) ("file " ++ path)))))),
     SwapFileManager.record_cmd ("file " ++ path) w).
Proof.
  split; [apply cleanup_runs_two_commands|apply verify_runs_one_command].
Qed.

(** X10. When a file exists at the path, [create_swap_file] first asks
    [file] about it.  A valid swap file that the user does not want
    recreated ends the call at once: nothing else is run and nothing is
    changed.  In every other case the old file is switched off and
    removed before anything is created. *)
Theorem existing_file_is_kept_or_removed_first
    (sh : SwapFileManager.shell) (recreate : bool) (fuel : nat)
    (w : SwapFileManager.world) :
  let path := SwapFileManager.swap_file_path (SwapFileManager.self w) in
  let valid :=
    PyStr.contains "swap file"
      (PyStr.lower (PyStr.strip
                      (SwapFileManager.stdout
                         (sh (SwapFileManager.issued w) ("file " ++ path))))) in
  (valid && negb recreate = true ->
   SwapFileManager.create_swap_file sh true recreate fuel w
   = (Runtime.Returned None, SwapFileManager.record_cmd ("file " ++ path) w)) /\
  (valid && negb recreate = false ->
   exists more,
     SwapFileManager.issued (snd (SwapFileManager.create_swap_file sh true recreate fuel w))
     = (SwapFileManager.issued w
          ++ ("file " ++ path)%string :: ("sudo swapoff " ++ path)%string
          :: ("sudo rm -f " ++ path)%string :: more)%list).
Proof.
  intros path valid.
  assert (Hpre : forall k : bool -> Runtime.M SwapFileManager.world (option Runtime.fstab_status),
             Runtime.bind
               (Runtime.bind (SwapFileManager.verify_swap_file sh)
                  (fun v : bool =>
                     if v && negb recreate then Runtime.ret true
                     else Runtime.bind (SwapFileManager.cleanup_swap_file sh)
                            (fun _ => Runtime.ret false))) k w
             = if valid && negb recreate
               then k true (SwapFileManager.record_cmd ("file " ++ path) w)
               else k false
                      (SwapFileManager.record_cmd ("sudo rm -f " ++ path)
                         (SwapFileManager.record_cmd ("sudo swapoff " ++ path)
                            (SwapFileManager.record_cmd ("file " ++ path) w)))).
  { intros k; unfold Runtime.bind at 1 2.
    rewrite verify_runs_one_command; fold path; fold valid.
    destruct (valid && negb recreate); [reflexivity|].
    unfold Runtime.bind; rewrite cleanup_runs_two_commands; reflexivity. }
  split; intros Hv.
  - unfold SwapFileManager.create_swap_file, Runtime.try_except.
    rewrite Hpre, Hv; reflexivity.
  - unfold SwapFileManager.create_swap_file.
    set (W := SwapFileManager.record_cmd ("sudo rm -f " ++ path)
                (SwapFileManager.record_cmd ("sudo swapoff " ++ path)
                   (SwapFileManager.record_cmd ("file " ++ path) w))).
    assert (He : extends W
                   (snd (SwapFileManager.create_swap_file sh true recreate fuel w))).
    { unfold SwapFileManager.create_swap_file.
      apply try_except_extends; [|intros e v; apply extends_refl].
      rewrite Hpre, Hv.
      apply bind_extends;
        [destruct (behaved_strategy sh fuel W) as (_ & _ & _ & _ & H); exact H|].
      intros _; apply grows_bind; [apply grows_update_fstab|].
      intros a v; apply extends_refl. }
    destruct He as (more & E); exists more.
    unfold SwapFileManager.create_swap_file in E; rewrite E.
    unfold W; cbn [SwapFileManager.issued SwapFileManager.record_cmd].
    rewrite <- !app_assoc; reflexivity.
Qed.

Lemma existing_file_is_kept_or_removed_first_witness :
  SwapFileManager.create_swap_file Examples.swap_file_present true false 1
    (Examples.start (Examples.with_fs "ext4" "/swapfile"))
  = (Runtime.Returned None,
     SwapFileManager.record_cmd "file /swapfile"
       (Examples.start (Examples.with_fs "ext4" "/swapfile"))).
Proof.
  apply (proj1 (existing_file_is_kept_or_removed_first Examples.swap_file_present false 1
                  (Examples.start (Examples.with_fs "ext4" "/swapfile")))).
  vm_compute; reflexivity.
Defined.

Lemma remove_without_slash (s : string) :
  no_char "/" s = true -> PyStr.remove_from "/dev/" s 0 = s.
Proof.
  induction s as [|c s IH]; intros H; [reflexivity|].
  cbn [no_char] in H; apply andb_true_iff in H as [Hc Hs].
  cbn [PyStr.remove_from String.prefix].
  destruct (ascii_dec "/" c) as [<-|_]; [discriminate Hc|].
  rewrite (IH Hs); reflexivity.
Qed.

(** X11. For a device [/dev/<name>] whose name has no slash - the form
    [choose_disk] returns - the backup of the partition table goes to
    [/tmp/partition_table_<name>_<timestamp>.backup]: the directory part
    of the device is dropped from the file name. *)
Theorem backup_file_is_named_after_the_device (timestamp name : string) :
  no_char "/" name = true ->
  backup_name timestamp ("/dev/" ++ name)
  = "/tmp/partition_table_" ++ name ++ "_" ++ timestamp ++ ".backup" /\
  forall (sh : SwapManager.shell) (w : SwapManager.world),
    SwapManager.returncode
      (sh (SwapManager.issued w)
         (SwapManager.SfdiskDump ("/dev/" ++ name)
            ("/tmp/partition_table_" ++ name ++ "_" ++ timestamp ++ ".backup"))) = 0%Z ->
    fst (SwapManager.backup_partition_table sh timestamp ("/dev/" ++ name) w)
    = Runtime.Returned ("/tmp/partition_table_" ++ name ++ "_" ++ timestamp ++ ".backup").
Proof.
  intros H.
  assert (E : PyStr.remove "/dev/" ("/dev/" ++ name) = name).
  { unfold PyStr.remove; cbn [append PyStr.remove_from String.prefix String.length].
    assert (P : String.prefix EmptyString name = true) by (destruct name; reflexivity).
    cbn; rewrite P; apply (remove_without_slash _ H). }
  split; [unfold backup_name; rewrite E; reflexivity|].
  intros sh w Hrc.
  unfold SwapManager.backup_partition_table, Runtime.bind, Runtime.ret.
  rewrite partition_run_cmd_checked, E, Hrc; reflexivity.
Qed.

Lemma backup_file_is_named_after_the_device_witness :
  backup_name "20260101_000000" "/dev/nvme0n1"
  = "/tmp/partition_table_nvme0n1_20260101_000000.backup".
Proof.
  exact (proj1 (backup_file_is_named_after_the_device "20260101_000000" "nvme0n1" eq_refl)).
Defined.

(** ** The size parser of the status report *)

(** The status parser on an accepted size, by the spelling of its unit. *)
Lemma kib_of_accepted (ip g u r : string) :
  Spec.numeric_literal ip g ->
  In u unit_spellings ->
  r = EmptyString \/ r = String PyStr.LF EmptyString ->
  let x := literal_float ip g in
  let kibi := PyFloat.of_Z 1024 in
  Size.parse_size_to_kib (ip ++ g ++ u ++ r)
  = (if Size.in_list u ["g"; "G"]
     then PyFloat.to_int (PyFloat.mul (PyFloat.mul x kibi) kibi)
     else if Size.in_list u ["m"; "M"]
     then PyFloat.to_int (PyFloat.mul x kibi)
     else inr 0%Z) /\
  PyStr.endswith (PyStr.upper (PyStr.strip (ip ++ g ++ u ++ r))) "B"
  = negb (Size.in_list u ["g"; "G"; "m"; "M"]).
Proof.
  intros Hlit Hu Hr; cbv zeta.
  pose proof (literal_number_chars _ _ Hlit) as Hy.
  assert (Hus : no_space u = true /\ u <> EmptyString).
  { unfold unit_spellings in Hu; simpl in Hu.
    repeat (destruct Hu as [<-|Hu]; [split; [reflexivity|discriminate]|]).
    destruct Hu. }
  assert (Hstrip : PyStr.strip (ip ++ g ++ u ++ r) = (ip ++ g) ++ u).
  { rewrite <- (append_assoc ip g (u ++ r)), <- (append_assoc (ip ++ g) u r).
    apply strip_without_blanks; [|rewrite no_space_app, (number_chars_no_space _ Hy);
                                   apply Hus|exact Hr].
    destruct Hlit as (_ & Hne & _).
    destruct ip; [congruence|discriminate]. }
  pose proof (of_text_literal _ _ Hlit) as Hnum.
  unfold Size.parse_size_to_kib; rewrite Hstrip, (upper_number _ _ Hy).
  rewrite !(endswith_after_number (ip ++ g)) by (simpl; tauto || assumption).
  unfold unit_spellings in Hu; simpl in Hu.
  repeat (destruct Hu as [<-|Hu];
          [first [ split; reflexivity
                 | change (PyStr.upper _) with "G" || change (PyStr.upper _) with "M";
                   cbn [PyStr.endswith String.eqb Ascii.eqb Bool.eqb orb andb];
                   rewrite drop_last_letter, Hnum; split; reflexivity ]|]).
  destruct Hu.
Qed.

(** X12. On a size that [validate_size] accepts, the parser of the
    status report, [parse_size_to_kib], reads the one-letter units
    only: for [M] it gives [int()] of the float of the number times
    1024, for [G] of that float times 1024 twice; a unit that ends in
    [B] ([MB], [GB], [MiB], [GiB], in any case) is read as bytes and
    gives 0 KiB, whatever the number.  The count is never negative,
    and the only error is the [OverflowError] of [int()], raised when
    the product is infinite (a number of some 310 digits). *)
Theorem status_parser_reads_one_letter_units (s : string) :
  Size.validate_size s = true ->
  exists ip g u r,
    s = ip ++ g ++ u ++ r /\
    Spec.numeric_literal ip g /\ Spec.unit_token u = true /\
    (r = EmptyString \/ r = String PyStr.LF EmptyString) /\
    let x := literal_float ip g in
    let kibi := PyFloat.of_Z 1024 in
    let product :=
      if Size.in_list u ["g"; "G"] then PyFloat.mul (PyFloat.mul x kibi) kibi
      else PyFloat.mul x kibi in
    PyStr.endswith (PyStr.upper (PyStr.strip s)) "B"
    = negb (Size.in_list u ["g"; "G"; "m"; "M"]) /\
    Size.parse_size_to_kib s
    = (if PyStr.endswith (PyStr.upper (PyStr.strip s)) "B" then inr 0%Z
       else PyFloat.to_int product) /\
    ((exists kib, Size.parse_size_to_kib s = inr kib /\ (0 <= kib)%Z) \/
     Size.parse_size_to_kib s = inl PyFloat.OverflowError /\
     product = S754_infinity false).
Proof.
  intros H; apply validate_size_shape, shape_lf_split in H.
  destruct H as (ip & g & u & r & Hlit & Hu & Hr & ->).
  exists ip, g, u, r.
  split; [reflexivity|split; [exact Hlit|split; [exact Hu|split; [exact Hr|]]]].
  cbv zeta.
  destruct (kib_of_accepted ip g u r Hlit (unit_token_spelling _ Hu) Hr) as [Hk Hb].
  cbv zeta in Hk.
  assert (H1024 : PyFloat.of_Z 1024 = S754_finite false 4503599627370496 (-42))
    by (vm_compute; reflexivity).
  pose proof (literal_float_not_negative ip g) as Hx.
  pose proof (mul_not_negative _ 4503599627370496 (-42) Hx) as Hm.
  pose proof (mul_not_negative _ 4503599627370496 (-42) Hm) as Hg.
  rewrite <- H1024 in Hm, Hg.
  split; [exact Hb|].
  rewrite Hb, Hk.
  apply unit_token_spelling in Hu; unfold unit_spellings in Hu; simpl in Hu.
  repeat (destruct Hu as [<-|Hu];
          [cbn [Size.in_list existsb String.eqb Ascii.eqb Bool.eqb orb andb negb];
           split; [reflexivity|];
           first [ left; exists 0%Z; split; [reflexivity|lia]
                 | destruct (to_int_not_negative _ Hg) as [(z & Hz & Hz0)|(Hinf & Hz)];
                   [left; exists z; split; [exact Hz|exact Hz0]
                   |right; split; [exact Hz|exact Hinf]]
                 | destruct (to_int_not_negative _ Hm) as [(z & Hz & Hz0)|(Hinf & Hz)];
                   [left; exists z; split; [exact Hz|exact Hz0]
                   |right; split; [exact Hz|exact Hinf]] ]|]).
  destruct Hu.
Qed.

Lemma status_parser_reads_one_letter_units_witness :
  exists ip g u r,
    "512MB" = ip ++ g ++ u ++ r /\
    Spec.numeric_literal ip g /\ Spec.unit_token u = true /\
    (r = EmptyString \/ r = String PyStr.LF EmptyString) /\
    let x := literal_float ip g in
    let kibi := PyFloat.of_Z 1024 in
    let product :=
      if Size.in_list u ["g"; "G"] then PyFloat.mul (PyFloat.mul x kibi) kibi
      else PyFloat.mul x kibi in
    PyStr.endswith (PyStr.upper (PyStr.strip "512MB")) "B"
    = negb (Size.in_list u ["g"; "G"; "m"; "M"]) /\
    Size.parse_size_to_kib "512MB"
    = (if PyStr.endswith (PyStr.upper (PyStr.strip "512MB")) "B" then inr 0%Z
       else PyFloat.to_int product) /\
    ((exists kib, Size.parse_size_to_kib "512MB" = inr kib /\ (0 <= kib)%Z) \/
     Size.parse_size_to_kib "512MB" = inl PyFloat.OverflowError /\
     product = S754_infinity false).
Proof.
  apply (status_parser_reads_one_letter_units "512MB"); reflexivity.
Defined.

(** The two parsers disagree on a unit that ends in [B], and a number
    too large for a float, which [convert_to_bytes] turns into 0 bytes,
    is an error here. *)
Example status_parser_and_converter_differ :
  Size.parse "512MB" = inl 536870912%Z /\
  Size.parse_size_to_kib "512MB" = inr 0%Z /\
  Size.parse_size_to_kib "512M" = inr 524288%Z /\
  Size.parse_size_to_kib (Examples.replicate 310 "9" ++ "G") = inl PyFloat.OverflowError.
Proof. repeat split; vm_compute; reflexivity. Qed.


(** ** The prompts of the swap-file workflow *)

(** What the loop of the size prompt leaves: the attributes other than
    [size] are untouched, and [size] is the first accepted answer. *)
Lemma ask_size_again_ends (user : SwapFileManager.answers) (fuel n : nat)
    (w : SwapFileManager.world) :
  let r := SwapFileManager.ask_size_again user n fuel w in
  (exists v,
      snd r = snd (SwapFileManager.assign (SwapFileManager.set_size v) w) /\
      (v = SwapFileManager.size (SwapFileManager.self w) \/
       exists k, (n <= k)%nat /\ v = SwapFileManager.size_answers user k /\
                 Size.validate_size (SwapFileManager.size (SwapFileManager.self w)) = false /\
                 forall j, (n <= j < k)%nat ->
                           Size.validate_size (SwapFileManager.size_answers user j) = false)) /\
  (fst r = Runtime.Returned tt /\
   Size.validate_size (SwapFileManager.size (SwapFileManager.self (snd r))) = true \/
   fst r = Runtime.OutOfFuel /\
   Size.validate_size (SwapFileManager.size (SwapFileManager.self w)) = false /\
   forall j, (n <= j < n + fuel)%nat ->
             Size.validate_size (SwapFileManager.size_answers user j) = false).
Proof.
  revert n w; induction fuel as [|fuel IH]; intros n w; cbv zeta.
  - cbn [SwapFileManager.ask_size_again].
    destruct (Size.validate_size (SwapFileManager.size (SwapFileManager.self w))) eqn:Hv.
    + split; [|left; split; [reflexivity|first [exact Hv|reflexivity]]].
      exists (SwapFileManager.size (SwapFileManager.self w)); split; [|left; reflexivity].
      destruct w as [[] ? ?]; reflexivity.
    + split; [|right; split; [reflexivity|split; [first [exact Hv|reflexivity]|intros; lia]]].
      exists (SwapFileManager.size (SwapFileManager.self w)); split; [|left; reflexivity].
      destruct w as [[] ? ?]; reflexivity.
  - cbn [SwapFileManager.ask_size_again].
    destruct (Size.validate_size (SwapFileManager.size (SwapFileManager.self w))) eqn:Hv.
    + split; [|left; split; [reflexivity|first [exact Hv|reflexivity]]].
      exists (SwapFileManager.size (SwapFileManager.self w)); split; [|left; reflexivity].
      destruct w as [[] ? ?]; reflexivity.
    + unfold Runtime.bind at 1.
      change (SwapFileManager.assign
                (SwapFileManager.set_size (SwapFileManager.size_answers user n)) w)
        with (Runtime.Returned tt,
              snd (SwapFileManager.assign
                     (SwapFileManager.set_size (SwapFileManager.size_answers user n)) w)).
      set (w1 := snd (SwapFileManager.assign
                        (SwapFileManager.set_size (SwapFileManager.size_answers user n)) w)).
      cbv iota beta.
      destruct (IH (S n) w1) as [(v & Hw & Hwhich) Hend].
      split.
      * exists v; split; [rewrite Hw; reflexivity|].
        right; destruct Hwhich as [->|(k & Hk & -> & Hbad & Hall)].
        -- exists n; split; [lia|split; [reflexivity|split; [first [exact Hv|reflexivity]|intros; lia]]].
        -- exists k; split; [lia|split; [reflexivity|split; [first [exact Hv|reflexivity]|]]].
           intros j Hj; destruct (Nat.eq_dec j n) as [->|Hne];
             [exact Hbad|apply Hall; lia].
      * destruct Hend as [Hret|(Hout & Hbad & Hall)]; [left; exact Hret|right].
        split; [exact Hout|split; [first [exact Hv|reflexivity]|]].
        intros j Hj; destruct (Nat.eq_dec j n) as [->|Hne];
          [exact Hbad|apply Hall; lia].
Qed.

(** [detect_filesystem] always returns: a lower-case name after at
    most two commands, and nothing but the commands issued changes. *)
Lemma detect_filesystem_returns (sh : SwapFileManager.shell) (w : SwapFileManager.world) :
  exists fs cmds,
    SwapFileManager.detect_filesystem sh w
    = (Runtime.Returned fs,
       {| SwapFileManager.self := SwapFileManager.self w;
          SwapFileManager.issued := (SwapFileManager.issued w ++ cmds)%list;
          SwapFileManager.fstab := SwapFileManager.fstab w |}) /\
    PyStr.lower fs = fs /\ (1 <= List.length cmds <= 2)%nat.
Proof.
  unfold SwapFileManager.detect_filesystem, Runtime.try_except, Runtime.bind.
  rewrite run_cmd_checked; cbv zeta.
  match goal with |- context [N.eqb ?a ?b] => destruct (N.eqb a b) end.
  - rewrite run_cmd_checked; cbv zeta.
    match goal with |- context [N.eqb ?a ?b] => destruct (N.eqb a b) end.
    + eexists; eexists (_ :: _ :: nil); split;
        [unfold Runtime.ret, SwapFileManager.record_cmd;
         cbn [SwapFileManager.self SwapFileManager.issued SwapFileManager.fstab];
         rewrite <- app_assoc; reflexivity|].
      split; [apply lower_idempotent|simpl; lia].
    + eexists; eexists (_ :: _ :: nil); split;
        [unfold Runtime.ret, SwapFileManager.record_cmd;
         cbn [SwapFileManager.self SwapFileManager.issued SwapFileManager.fstab];
         rewrite <- app_assoc; reflexivity|].
      split; [reflexivity|simpl; lia].
  - eexists; eexists (_ :: nil); split; [reflexivity|].
    split; [reflexivity|simpl; lia].
Qed.

(** X13. [detect_filesystem] never fails.  It asks [df] for the mount
    point of the swap file path and then for the type of the filesystem
    mounted there, and returns that type in lower case; when either
    command fails it returns ["unknown"], without running the second
    command if the first one failed. *)
Theorem filesystem_detection_never_fails
    (sh : SwapFileManager.shell) (w : SwapFileManager.world) :
  let target :=
    "df --output=target " ++ SwapFileManager.swap_file_path (SwapFileManager.self w)
      ++ " | tail -1" in
  let r1 := sh (SwapFileManager.issued w) target in
  let w1 := SwapFileManager.record_cmd target w in
  let kind :=
    "df -T " ++ PyStr.strip (SwapFileManager.stdout r1)
      ++ " | tail -1 | awk '{print $2}'" in
  let r2 := sh (SwapFileManager.issued w1) kind in
  let w2 := SwapFileManager.record_cmd kind w1 in
  SwapFileManager.detect_filesystem sh w
  = (if (SwapFileManager.returncode r1 =? 0)%N
     then if (SwapFileManager.returncode r2 =? 0)%N
          then (Runtime.Returned (PyStr.lower (PyStr.strip (SwapFileManager.stdout r2))), w2)
          else (Runtime.Returned "unknown", w2)
     else (Runtime.Returned "unknown", w1)) /\
  exists fs,
    fst (SwapFileManager.detect_filesystem sh w) = Runtime.Returned fs /\
    PyStr.lower fs = fs.
Proof.
  cbv zeta; split.
  - unfold SwapFileManager.detect_filesystem, Runtime.try_except, Runtime.bind.
    rewrite run_cmd_checked; cbv zeta.
    match goal with |- context [N.eqb ?a ?b] => destruct (N.eqb a b) end; [|reflexivity].
    rewrite run_cmd_checked; cbv zeta.
    match goal with |- context [N.eqb ?a ?b] => destruct (N.eqb a b) end; reflexivity.
  - destruct (detect_filesystem_returns sh w) as (fs & cmds & E & Hlow & _).
    exists fs; rewrite E; split; [reflexivity|exact Hlow].
Qed.

Lemma ask_user_inputs_run (sh : SwapFileManager.shell)
    (user : SwapFileManager.answers) (fuel : nat) (w : SwapFileManager.world) :
  SwapFileManager.ask_user_inputs sh user fuel w
  = match SwapFileManager.ask_size_again user 1 fuel
            {| SwapFileManager.self :=
                 SwapFileManager.set_size (SwapFileManager.size_answers user 0)
                   (SwapFileManager.set_debug_mode (SwapFileManager.debug_answer user)
                      (SwapFileManager.set_swap_file_path (SwapFileManager.path_answer user)
                         (SwapFileManager.self w)));
               SwapFileManager.issued := SwapFileManager.issued w;
               SwapFileManager.fstab := SwapFileManager.fstab w |} with
    | (Runtime.Returned _, w4) =>
        let bytes :=
          fst (Size.convert_to_bytes (SwapFileManager.debug_mode (SwapFileManager.self w4))
                 (SwapFileManager.size (SwapFileManager.self w4))) in
        let w5 := {| SwapFileManager.self :=
                       SwapFileManager.set_size_bytes bytes (SwapFileManager.self w4);
                     SwapFileManager.issued := SwapFileManager.issued w4;
                     SwapFileManager.fstab := SwapFileManager.fstab w4 |} in
        if (bytes <? 64 * 1024 ^ 2)%Z then (Runtime.SysExit 1, w5)
        else match SwapFileManager.detect_filesystem sh w5 with
             | (Runtime.Returned fs, w6) =>
                 (Runtime.Returned tt,
                  {| SwapFileManager.self :=
                       SwapFileManager.set_fs_type (Some fs) (SwapFileManager.self w6);
                     SwapFileManager.issued := SwapFileManager.issued w6;
                     SwapFileManager.fstab := SwapFileManager.fstab w6 |})
             | (Runtime.Raised e, w') => (Runtime.Raised e, w')
             | (Runtime.SysExit c, w') => (Runtime.SysExit c, w')
             | (Runtime.OutOfFuel, w') => (Runtime.OutOfFuel, w')
             end
    | (Runtime.Raised e, w') => (Runtime.Raised e, w')
    | (Runtime.SysExit c, w') => (Runtime.SysExit c, w')
    | (Runtime.OutOfFuel, w') => (Runtime.OutOfFuel, w')
    end.
Proof.
  unfold SwapFileManager.ask_user_inputs, Runtime.bind, SwapFileManager.assign.
  cbn [SwapFileManager.self SwapFileManager.issued SwapFileManager.fstab].
  destruct (SwapFileManager.ask_size_again user 1 fuel _) as [[[]|e|c|] w4];
    try reflexivity.
  cbv zeta.
  match goal with |- context [Z.ltb ?a ?b] => destruct (Z.ltb a b) end; reflexivity.
Qed.

(** How [ask_user_inputs] ends. *)
Lemma ask_user_inputs_ends (sh : SwapFileManager.shell)
    (user : SwapFileManager.answers) (fuel : nat) (w : SwapFileManager.world) :
  let r := SwapFileManager.ask_user_inputs sh user fuel w in
  let m := SwapFileManager.self (snd r) in
  (forall e, fst r <> Runtime.Raised e) /\
  (forall n, Size.validate_size (SwapFileManager.size_answers user n) = true ->
             (n <= fuel)%nat -> fst r <> Runtime.OutOfFuel) /\
  (forall code, fst r = Runtime.SysExit code ->
                code = 1%Z /\
                SwapFileManager.issued (snd r) = SwapFileManager.issued w /\
                (SwapFileManager.size_bytes m < 64 * 1024 ^ 2)%Z) /\
  (fst r = Runtime.Returned tt ->
   SwapFileManager.swap_file_path m = SwapFileManager.path_answer user /\
   SwapFileManager.debug_mode m = SwapFileManager.debug_answer user /\
   (exists n, SwapFileManager.size m = SwapFileManager.size_answers user n /\
              forall k, (k < n)%nat ->
                        Size.validate_size (SwapFileManager.size_answers user k) = false) /\
   Size.validate_size (SwapFileManager.size m) = true /\
   SwapFileManager.size_bytes m
   = fst (Size.convert_to_bytes (SwapFileManager.debug_mode m) (SwapFileManager.size m)) /\
   (64 * 1024 ^ 2 <= SwapFileManager.size_bytes m)%Z /\
   (exists fs, SwapFileManager.fs_type m = Some fs /\ PyStr.lower fs = fs) /\
   SwapFileManager.retry_count m = SwapFileManager.retry_count (SwapFileManager.self w) /\
   SwapFileManager.max_retries m = SwapFileManager.max_retries (SwapFileManager.self w) /\
   SwapFileManager.fstab (snd r) = SwapFileManager.fstab w /\
   exists cmds, SwapFileManager.issued (snd r) = (SwapFileManager.issued w ++ cmds)%list /\
                (1 <= List.length cmds <= 2)%nat).
Proof.
  cbv zeta; rewrite ask_user_inputs_run.
  match goal with
  | |- context [SwapFileManager.ask_size_again user 1 fuel ?w3] => set (W := w3)
  end.
  destruct (ask_size_again_ends user fuel 1 W) as [(v & Hw & Hwhich) Hend].
  destruct (SwapFileManager.ask_size_again user 1 fuel W) as [o w4] eqn:E.
  cbn [fst snd] in Hw, Hend.
  destruct Hend as [[-> Hvalid]|(-> & Hbad & Hall)].
  - subst w4; cbv zeta.
    match goal with |- context [Z.ltb ?a ?b] => destruct (Z.ltb a b) eqn:Hsmall end.
    + cbn [fst snd].
      split; [discriminate|split; [discriminate|split; [|discriminate]]].
      intros code Hc; injection Hc as <-.
      split; [reflexivity|split; [reflexivity|]].
      apply Z.ltb_lt in Hsmall; exact Hsmall.
    + match goal with
      | |- context [SwapFileManager.detect_filesystem sh ?w5] =>
          destruct (detect_filesystem_returns sh w5) as (fs & cmds & Hd & Hlow & Hlen);
          rewrite Hd
      end.
      cbn [SwapFileManager.assign fst snd SwapFileManager.self SwapFileManager.issued
           SwapFileManager.fstab].
      split; [discriminate|split; [discriminate|split; [discriminate|]]].
      intros _.
      split; [reflexivity|]. split; [reflexivity|].
      split.
      { destruct Hwhich as [->|(k & Hk & -> & Hbad & Hall)].
        - exists 0%nat; split; [reflexivity|intros; lia].
        - exists k; split; [reflexivity|].
          intros j Hj; destruct j as [|j]; [exact Hbad|apply Hall; lia]. }
      split; [exact Hvalid|]. split; [reflexivity|].
      split; [apply Z.ltb_ge in Hsmall; exact Hsmall|].
      split; [exists fs; split; [reflexivity|exact Hlow]|].
      split; [reflexivity|]. split; [reflexivity|]. split; [reflexivity|].
      exists cmds; split; [reflexivity|exact Hlen].
  - cbn [fst snd].
    split; [discriminate|split; [|split; discriminate]].
    intros n Hn Hle _.
    destruct n as [|n]; [cbn in Hbad; congruence|].
    rewrite (Hall (S n)) in Hn by lia; discriminate.
Qed.

(** X14. What [ask_user_inputs] guarantees to the creation that follows
    it.  It never raises, and it ends as soon as one of the first
    [fuel + 1] size answers is accepted.  It leaves through
    [sys.exit(1)] only when the accepted size is below 64 MiB, before any
    command is run.  When it returns, the path and the debug flag are the
    answers given, [size] is the first answer that [validate_size]
    accepts, [size_bytes] is its conversion and at least 64 MiB,
    [fs_type] is a lower-case name, the retry counters and the mount
    table are untouched, and one or two commands have been run. *)
Theorem prompts_establish_the_settings (sh : SwapFileManager.shell)
    (user : SwapFileManager.answers) (fuel : nat) (w : SwapFileManager.world) :
  let r := SwapFileManager.ask_user_inputs sh user fuel w in
  let m := SwapFileManager.self (snd r) in
  (forall e, fst r <> Runtime.Raised e) /\
  (forall n, Size.validate_size (SwapFileManager.size_answers user n) = true ->
             (n <= fuel)%nat -> fst r <> Runtime.OutOfFuel) /\
  (forall code, fst r = Runtime.SysExit code ->
                code = 1%Z /\
                SwapFileManager.issued (snd r) = SwapFileManager.issued w /\
                (SwapFileManager.size_bytes m < 64 * 1024 ^ 2)%Z) /\
  (fst r = Runtime.Returned tt ->
   SwapFileManager.swap_file_path m = SwapFileManager.path_answer user /\
   SwapFileManager.debug_mode m = SwapFileManager.debug_answer user /\
   (exists n, SwapFileManager.size m = SwapFileManager.size_answers user n /\
              forall k, (k < n)%nat ->
                        Size.validate_size (SwapFileManager.size_answers user k) = false) /\
   Size.validate_size (SwapFileManager.size m) = true /\
   SwapFileManager.size_bytes m
   = fst (Size.convert_to_bytes (SwapFileManager.debug_mode m) (SwapFileManager.size m)) /\
   (64 * 1024 ^ 2 <= SwapFileManager.size_bytes m)%Z /\
   (exists fs, SwapFileManager.fs_type m = Some fs /\ PyStr.lower fs = fs) /\
   SwapFileManager.retry_count m = SwapFileManager.retry_count (SwapFileManager.self w) /\
   SwapFileManager.max_retries m = SwapFileManager.max_retries (SwapFileManager.self w) /\
   SwapFileManager.fstab (snd r) = SwapFileManager.fstab w /\
   exists cmds, SwapFileManager.issued (snd r) = (SwapFileManager.issued w ++ cmds)%list /\
                (1 <= List.length cmds <= 2)%nat).
Proof. exact (ask_user_inputs_ends sh user fuel w). Qed.

Lemma try_except_after_quiet_step (A B : Type)
    (m : Runtime.M SwapFileManager.world A)
    (k : A -> Runtime.M SwapFileManager.world B)
    (handles : Runtime.exn -> bool) (h : Runtime.exn -> Runtime.M SwapFileManager.world B)
    (w : SwapFileManager.world) :
  (forall e, fst (m w) <> Runtime.Raised e) ->
  Runtime.try_except (Runtime.bind m k) handles h w
  = Runtime.bind m (fun a => Runtime.try_except (k a) handles h) w.
Proof.
  intros Hm; unfold Runtime.try_except, Runtime.bind.
  destruct (m w) as [[a|e|c|] w1]; try reflexivity.
  destruct (Hm e eq_refl).
Qed.

(** X15. The prompts never reach the failure panel of
    [create_swap_file]: although they stand inside its [try] block, the
    whole function is [ask_user_inputs] followed by the creation on the
    attributes it has set; and when the accepted size is below 64 MiB
    the whole function ends in [sys.exit(1)] with no command run. *)
Theorem creation_follows_the_prompts (sh : SwapFileManager.shell)
    (user : SwapFileManager.answers) (asking : nat) (exists_ recreate : bool)
    (fuel : nat) (w : SwapFileManager.world) :
  let whole :=
    SwapFileManager.create_swap_file_from_prompts sh user asking exists_ recreate fuel w in
  whole
  = Runtime.bind (SwapFileManager.ask_user_inputs sh user asking)
      (fun _ => SwapFileManager.create_swap_file sh exists_ recreate fuel) w /\
  (forall code,
      fst (SwapFileManager.ask_user_inputs sh user asking w) = Runtime.SysExit code ->
      fst whole = Runtime.SysExit 1 /\
      SwapFileManager.issued (snd whole) = SwapFileManager.issued w).
Proof.
  cbv zeta.
  pose proof (ask_user_inputs_ends sh user asking w) as (Hraise & _ & Hexit & _).
  assert (Heq : SwapFileManager.create_swap_file_from_prompts sh user asking exists_
                  recreate fuel w
                = Runtime.bind (SwapFileManager.ask_user_inputs sh user asking)
                    (fun _ => SwapFileManager.create_swap_file sh exists_ recreate fuel) w).
  { unfold SwapFileManager.create_swap_file_from_prompts.
    rewrite try_except_after_quiet_step by exact Hraise; reflexivity. }
  split; [exact Heq|].
  intros code Hc; rewrite Heq; unfold Runtime.bind.
  destruct (Hexit code Hc) as (-> & Hi & _).
  destruct (SwapFileManager.ask_user_inputs sh user asking w) as [o w1].
  cbn [fst snd] in Hc, Hi; subst o; split; [reflexivity|exact Hi].
Qed.

Lemma creation_follows_the_prompts_witness :
  SwapFileManager.create_swap_file_from_prompts Examples.all_succeed
    {| SwapFileManager.path_answer := "/swapfile";
       SwapFileManager.debug_answer := false;
       SwapFileManager.size_answers := fun n => match n with O => "big" | _ => "32M" end |}
    1 false false 1 (Examples.start SwapFileManager.init)
  = (Runtime.SysExit 1,
     {| SwapFileManager.self :=
          SwapFileManager.set_size_bytes (32 * 1024 ^ 2)
            (SwapFileManager.set_size "32M" SwapFileManager.init);
        SwapFileManager.issued := [];
        SwapFileManager.fstab := Runtime.rw_fstab EmptyString |}).
Proof.
  rewrite (proj1 (creation_follows_the_prompts Examples.all_succeed _ 1 false false 1
                    (Examples.start SwapFileManager.init))).
  vm_compute; reflexivity.
Defined.

Lemma prompts_establish_the_settings_witness :
  fst (SwapFileManager.ask_user_inputs Examples.all_succeed
         {| SwapFileManager.path_answer := "/swapfile";
            SwapFileManager.debug_answer := false;
            SwapFileManager.size_answers :=
              fun n => match n with O => "big" | _ => "2G" end |}
         1 (Examples.start SwapFileManager.init))
  <> Runtime.OutOfFuel.
Proof.
  apply (proj1 (proj2 (prompts_establish_the_settings Examples.all_succeed
                         {| SwapFileManager.path_answer := "/swapfile";
                            SwapFileManager.debug_answer := false;
                            SwapFileManager.size_answers :=
                              fun n => match n with O => "big" | _ => "2G" end |}
                         1 (Examples.start SwapFileManager.init))) 1%nat);
    [vm_compute; reflexivity|lia].
Defined.

(** ** The dialogue of the partition workflow *)

Lemma plain_digits_are_a_number (s : string) :
  s <> EmptyString -> Spec.all_digits s = true ->
  (String.length s <= SwapManagerRun.max_str_digits)%nat ->
  SwapManagerRun.int_of_text s = Some (Z.of_N (PyStr.digits_value 0 s)).
Proof.
  intros Hne Hd Hlen; unfold SwapManagerRun.int_of_text.
  apply Nat.ltb_ge in Hlen; rewrite Hlen.
  assert (Hs : PyStr.span_digits s = (s, EmptyString)).
  { rewrite <- (append_empty_r s) at 1; apply (span_digits_app s EmptyString Hd I). }
  assert (Hu : PyNum.int_unsigned s = Some (Z.of_N (PyStr.digits_value 0 s))).
  { unfold PyNum.int_unsigned; rewrite Hs.
    apply is_empty_false in Hne; rewrite Hne; reflexivity. }
  destruct s as [|c s']; [congruence|].
  simpl in Hd; apply andb_true_iff in Hd as [Hc _].
  unfold PyNum.int_of_str.
  destruct c as [[] [] [] [] [] [] [] []]; try discriminate Hc; exact Hu.
Qed.

(** The loop of [choose_disk]: it reads and changes nothing, what it
    returns was chosen and confirmed in one round, and it raises only
    the [ValueError] of [int()] on a text that [isdigit()] accepts. *)
Lemma choose_disk_from_ends (u : SwapManagerRun.user) (fuel round : nat)
    (w : SwapManagerRun.world) :
  let r := SwapManagerRun.choose_disk_from u round fuel w in
  snd r = w /\
  (forall e, fst r = Runtime.Raised e ->
     e = Runtime.ValueError /\
     exists k,
       (round <= k < round + fuel)%nat /\
       SwapManagerRun.str_isdigit (SwapManagerRun.disk_choice u k) = true /\
       SwapManagerRun.int_of_text (SwapManagerRun.disk_choice u k) = None) /\
  (forall code, fst r <> Runtime.SysExit code) /\
  (forall selected, fst r = Runtime.Returned selected ->
     exists k n d,
       (round <= k < round + fuel)%nat /\
       SwapManagerRun.str_isdigit (SwapManagerRun.disk_choice u k) = true /\
       SwapManagerRun.int_of_text (SwapManagerRun.disk_choice u k) = Some n /\
       (1 <= n <= Z.of_nat (List.length (SwapManagerRun.disks w)))%Z /\
       nth_error (SwapManagerRun.disks w) (Z.to_nat (n - 1)) = Some d /\
       SwapManagerRun.disk_confirmed u k = true /\
       selected = "/dev/" ++ SwapManagerRun.name d) /\
  (forall k n,
      (round <= k < round + fuel)%nat ->
      SwapManagerRun.str_isdigit (SwapManagerRun.disk_choice u k) = true ->
      SwapManagerRun.int_of_text (SwapManagerRun.disk_choice u k) = Some n ->
      (1 <= n <= Z.of_nat (List.length (SwapManagerRun.disks w)))%Z ->
      SwapManagerRun.disk_confirmed u k = true ->
      fst r <> Runtime.OutOfFuel).
Proof.
  revert round; induction fuel as [|fuel IH]; intros round; cbv zeta.
  - cbn [SwapManagerRun.choose_disk_from fst snd].
    split; [reflexivity|split; [discriminate|split; [discriminate|split]]].
    + discriminate.
    + intros k n Hk; lia.
  - cbn [SwapManagerRun.choose_disk_from].
    specialize (IH (S round)); cbv zeta in IH.
    destruct IH as (Hw & Hr & Hx & Hsel & Hend).
    assert (Hnext :
      snd (SwapManagerRun.choose_disk_from u (S round) fuel w) = w /\
      (forall e,
          fst (SwapManagerRun.choose_disk_from u (S round) fuel w) = Runtime.Raised e ->
          e = Runtime.ValueError /\
          exists k,
            (round <= k < round + S fuel)%nat /\
            SwapManagerRun.str_isdigit (SwapManagerRun.disk_choice u k) = true /\
            SwapManagerRun.int_of_text (SwapManagerRun.disk_choice u k) = None) /\
      (forall code, fst (SwapManagerRun.choose_disk_from u (S round) fuel w)
                    <> Runtime.SysExit code) /\
      (forall selected,
          fst (SwapManagerRun.choose_disk_from u (S round) fuel w)
          = Runtime.Returned selected ->
          exists k n d,
            (round <= k < round + S fuel)%nat /\
            SwapManagerRun.str_isdigit (SwapManagerRun.disk_choice u k) = true /\
            SwapManagerRun.int_of_text (SwapManagerRun.disk_choice u k) = Some n /\
            (1 <= n <= Z.of_nat (List.length (SwapManagerRun.disks w)))%Z /\
            nth_error (SwapManagerRun.disks w) (Z.to_nat (n - 1)) = Some d /\
            SwapManagerRun.disk_confirmed u k = true /\
            selected = "/dev/" ++ SwapManagerRun.name d)).
    { split; [exact Hw|split; [|split; [exact Hx|]]].
      - intros e He; destruct (Hr e He) as (-> & k & Hk & H).
        split; [reflexivity|exists k; split; [lia|exact H]].
      - intros selected Hs; destruct (Hsel selected Hs) as (k & n & d & Hk & H).
        exists k, n, d; split; [lia|exact H]. }
    destruct Hnext as (Hw' & Hr' & Hx' & Hsel').
    destruct (SwapManagerRun.str_isdigit (SwapManagerRun.disk_choice u round)) eqn:Hdig;
      cbn [negb].
    + destruct (SwapManagerRun.int_of_text (SwapManagerRun.disk_choice u round))
        as [n|] eqn:Hint.
      * destruct ((0 <=? n - 1)%Z
                  && (n - 1 <? Z.of_nat (List.length (SwapManagerRun.disks w)))%Z)
          eqn:Hrange.
        -- apply andb_true_iff in Hrange as [Hlo Hhi].
           apply Z.leb_le in Hlo; apply Z.ltb_lt in Hhi.
           destruct (nth_error (SwapManagerRun.disks w) (Z.to_nat (n - 1))) as [d|] eqn:Hnth.
           ++ destruct (SwapManagerRun.disk_confirmed u round) eqn:Hconf.
              ** cbn [fst snd].
                 split; [reflexivity|split; [discriminate|split; [discriminate|split]]].
                 --- intros selected Hs; injection Hs as <-.
                     exists round, n, d.
                     split; [lia|]. split; [exact Hdig|].
                     split; [exact Hint|].
                     split; [lia|]. split; [exact Hnth|]. split; [exact Hconf|reflexivity].
                 --- discriminate.
              ** split; [exact Hw'|split; [exact Hr'|split; [exact Hx'|split; [exact Hsel'|]]]].
                 intros k m Hk Hd Hi Hm Hc.
                 destruct (Nat.eq_dec k round) as [->|Hne]; [congruence|].
                 apply (Hend k m); auto; lia.
           ++ apply nth_error_None in Hnth; lia.
        -- split; [exact Hw'|split; [exact Hr'|split; [exact Hx'|split; [exact Hsel'|]]]].
           intros k m Hk Hd Hi Hm Hc.
           destruct (Nat.eq_dec k round) as [->|Hne].
           ++ rewrite Hint in Hi; injection Hi as <-.
              apply andb_false_iff in Hrange as [H|H];
                [apply Z.leb_gt in H|apply Z.ltb_ge in H]; lia.
           ++ apply (Hend k m); auto; lia.
      * cbn [fst snd].
        split; [reflexivity|split; [|split; [discriminate|split; discriminate]]].
        intros e He; injection He as <-.
        split; [reflexivity|exists round; split; [lia|split; [exact Hdig|exact Hint]]].
    + split; [exact Hw'|split; [exact Hr'|split; [exact Hx'|split; [exact Hsel'|]]]].
      intros k m Hk Hd Hi Hm Hc.
      destruct (Nat.eq_dec k round) as [->|Hne]; [congruence|].
      apply (Hend k m); auto; lia.
Qed.

(** X16. [choose_disk] reads and changes nothing.  With no disk listed
    it leaves through [sys.exit(1)] without asking, and it exits in no
    other case.  What it returns is [/dev/<name>] for a listed disk, the
    one whose number (counted from 1) the user typed and confirmed in the
    same round; a number out of range, ["0"] included, selects nothing.
    It never raises [IndexError]; the only exception is the [ValueError]
    of [int()] on an answer that [isdigit()] accepts, a superscript digit
    or a number of more than 4300 digits, and none is raised when the
    answers are made of the digits [0] to [9], at most 4300 of them.  It
    ends as soon as a round has a confirmed number in range. *)
Theorem chosen_disk_is_listed_and_confirmed (u : SwapManagerRun.user) (fuel : nat)
    (w : SwapManagerRun.world) :
  let r := SwapManagerRun.choose_disk u fuel w in
  snd r = w /\
  (forall e, fst r = Runtime.Raised e ->
     e = Runtime.ValueError /\
     exists k,
       (k < fuel)%nat /\
       SwapManagerRun.str_isdigit (SwapManagerRun.disk_choice u k) = true /\
       SwapManagerRun.int_of_text (SwapManagerRun.disk_choice u k) = None) /\
  ((forall k, (k < fuel)%nat ->
              SwapManagerRun.str_isdigit (SwapManagerRun.disk_choice u k) = true ->
              Spec.all_digits (SwapManagerRun.disk_choice u k) = true /\
              (String.length (SwapManagerRun.disk_choice u k)
               <= SwapManagerRun.max_str_digits)%nat) ->
   forall e, fst r <> Runtime.Raised e) /\
  (SwapManagerRun.disks w = [] <-> exists code, fst r = Runtime.SysExit code) /\
  (SwapManagerRun.disks w = [] -> fst r = Runtime.SysExit 1) /\
  (forall selected, fst r = Runtime.Returned selected ->
     exists k n d,
       (k < fuel)%nat /\
       SwapManagerRun.str_isdigit (SwapManagerRun.disk_choice u k) = true /\
       SwapManagerRun.int_of_text (SwapManagerRun.disk_choice u k) = Some n /\
       (1 <= n <= Z.of_nat (List.length (SwapManagerRun.disks w)))%Z /\
       nth_error (SwapManagerRun.disks w) (Z.to_nat (n - 1)) = Some d /\
       SwapManagerRun.disk_confirmed u k = true /\
       selected = "/dev/" ++ SwapManagerRun.name d) /\
  (forall k n,
      (k < fuel)%nat ->
      SwapManagerRun.str_isdigit (SwapManagerRun.disk_choice u k) = true ->
      SwapManagerRun.int_of_text (SwapManagerRun.disk_choice u k) = Some n ->
      (1 <= n <= Z.of_nat (List.length (SwapManagerRun.disks w)))%Z ->
      SwapManagerRun.disk_confirmed u k = true ->
      fst r <> Runtime.OutOfFuel).
Proof.
  cbv zeta.
  assert (Hraise :
            forall e, fst (SwapManagerRun.choose_disk u fuel w) = Runtime.Raised e ->
              e = Runtime.ValueError /\
              exists k,
                (k < fuel)%nat /\
                SwapManagerRun.str_isdigit (SwapManagerRun.disk_choice u k) = true /\
                SwapManagerRun.int_of_text (SwapManagerRun.disk_choice u k) = None).
  { unfold SwapManagerRun.choose_disk.
    destruct (SwapManagerRun.disks w) as [|d0 ds] eqn:Hds; [discriminate|].
    destruct (choose_disk_from_ends u fuel 0 w) as (_ & Hr & _).
    intros e He; destruct (Hr e He) as (-> & k & Hk & H).
    split; [reflexivity|exists k; split; [lia|exact H]]. }
  split; [|split; [exact Hraise|split]].
  - unfold SwapManagerRun.choose_disk.
    destruct (SwapManagerRun.disks w) as [|d0 ds] eqn:Hds; [reflexivity|].
    apply (choose_disk_from_ends u fuel 0 w).
  - intros Hplain e He.
    destruct (Hraise e He) as (_ & k & Hk & Hdig & Hint).
    destruct (Hplain k Hk Hdig) as [Hd Hlen].
    rewrite plain_digits_are_a_number in Hint; [discriminate Hint| |exact Hd|exact Hlen].
    unfold SwapManagerRun.str_isdigit in Hdig.
    apply andb_true_iff in Hdig as [Hne _].
    apply negb_true_iff, is_empty_false in Hne; exact Hne.
  - unfold SwapManagerRun.choose_disk.
    destruct (SwapManagerRun.disks w) as [|d0 ds] eqn:Hds.
    + cbn [fst snd].
      split; [split; [intros _; exists 1%Z; reflexivity|reflexivity]|].
      split; [reflexivity|split; discriminate].
    + rewrite <- Hds.
      destruct (choose_disk_from_ends u fuel 0 w) as (_ & _ & Hx & Hsel & Hend).
      split; [|split; [|split]].
      * rewrite Hds; split; [discriminate|intros (code & Hc); destruct (Hx code Hc)].
      * rewrite Hds; discriminate.
      * intros selected Hs; destruct (Hsel selected Hs) as (k & n & d & Hk & H).
        exists k, n, d; split; [lia|exact H].
      * intros k n Hk; apply (Hend k n); lia.
Qed.

Lemma chosen_disk_is_listed_and_confirmed_witness :
  SwapManagerRun.choose_disk Examples.picks_second 2 Examples.two_disks
  = (Runtime.Returned "/dev/sdb", Examples.two_disks) /\
  exists k n d,
    (k < 2)%nat /\
    SwapManagerRun.str_isdigit (SwapManagerRun.disk_choice Examples.picks_second k) = true /\
    SwapManagerRun.int_of_text (SwapManagerRun.disk_choice Examples.picks_second k) = Some n /\
    (1 <= n <= Z.of_nat (List.length (SwapManagerRun.disks Examples.two_disks)))%Z /\
    nth_error (SwapManagerRun.disks Examples.two_disks) (Z.to_nat (n - 1)) = Some d /\
    SwapManagerRun.disk_confirmed Examples.picks_second k = true /\
    "/dev/sdb" = "/dev/" ++ SwapManagerRun.name d.
Proof.
  split; [vm_compute; reflexivity|].
  apply (proj1 (proj2 (proj2 (proj2 (proj2 (proj2
           (chosen_disk_is_listed_and_confirmed Examples.picks_second 2
              Examples.two_disks)))))) "/dev/sdb").
  vm_compute; reflexivity.
Defined.

(** An answer that [isdigit()] accepts and [int()] refuses ends
    [choose_disk] with a [ValueError]. *)
Lemma superscript_choice_raises :
  SwapManagerRun.choose_disk
    {| SwapManagerRun.disk_choice := fun _ => String (ascii_of_nat 178) EmptyString;
       SwapManagerRun.disk_confirmed := fun _ => true;
       SwapManagerRun.size_answer := fun _ => "1G";
       SwapManagerRun.go_back := fun _ => "n";
       SwapManagerRun.size_confirmed := fun _ => true;
       SwapManagerRun.proceed := true |}
    1 Examples.two_disks
  = (Runtime.Raised Runtime.ValueError, Examples.two_disks).
Proof. vm_compute; reflexivity. Qed.

Lemma only_probes_bind (A B : Type) (m : Runtime.M SwapManagerRun.world A)
    (k : A -> Runtime.M SwapManagerRun.world B) :
  only_probes m -> (forall a, only_probes (k a)) -> only_probes (Runtime.bind m k).
Proof.
  intros Hm Hk w; unfold Runtime.bind.
  destruct (Hm w) as (Hd & Hf & probes & Hi & Hp).
  destruct (m w) as [[a|e|c|] w1]; cbn [fst snd] in *;
    try (split; [exact Hd|split; [exact Hf|exists probes; split; assumption]]).
  destruct (Hk a w1) as (Hd' & Hf' & probes' & Hi' & Hp').
  split; [congruence|split; [congruence|]].
  exists (probes ++ probes')%list; split.
  - rewrite Hi', Hi, app_assoc; reflexivity.
  - rewrite forallb_app, Hp, Hp'; reflexivity.
Qed.

Lemma only_probes_still (A : Type) (o : Runtime.outcome A) :
  only_probes (fun w => (o, w)).
Proof.
  intros w; cbn [snd]; split; [reflexivity|split; [reflexivity|]].
  exists []; split; [symmetry; apply app_nil_r|reflexivity].
Qed.

Lemma only_probes_run_cmd (sh : SwapManagerRun.shell) (c : SwapManagerRun.command)
    (check : bool) :
  read_only c = true -> only_probes (SwapManagerRun.run_cmd sh c check).
Proof.
  intros Hc w; unfold SwapManagerRun.run_cmd.
  destruct (check && _); cbn [snd SwapManagerRun.record_cmd SwapManagerRun.disks
                              SwapManagerRun.fstab SwapManagerRun.issued];
    (split; [reflexivity|split; [reflexivity|]];
     exists [c]; split; [reflexivity|simpl; rewrite Hc; reflexivity]).
Qed.

(** The free-space check, run as a step of the dialogue. *)
Lemma check_step (sh : SwapManagerRun.shell) (disk size : string)
    (w : SwapManagerRun.world) :
  SwapManagerRun.partition_step sh
    (fun machine => SwapManager.check_free_space machine disk size) w
  = match SwapManager.read_request size with
    | None => (Runtime.Returned (false, PyFloat.zero), w)
    | Some (num, unit) =>
        let c := SwapManagerRun.Partition (SwapManager.PartedPrintFree disk) in
        let result := sh (SwapManagerRun.issued w) c in
        let free :=
          SwapManager.largest_free
            (SwapManager.free_spaces (PyStr.strip (SwapManager.stdout result))) in
        if (SwapManager.returncode result =? 0)%Z
        then (Runtime.Returned
                (negb (PyFloat.gt (SwapManager.size_in_gib num unit) free),
                 PyFloat.mul free (PyFloat.of_Z 1024)),
              SwapManagerRun.record_cmd c w)
        else (Runtime.SysExit 1, SwapManagerRun.record_cmd c w)
    end.
Proof.
  unfold SwapManagerRun.partition_step, SwapManager.check_free_space.
  destruct (SwapManager.read_request size) as [[num unit]|].
  - unfold SwapManager.get_free_space_gib, Runtime.bind, SwapManager.run_cmd, Runtime.ret.
    cbn [SwapManager.issued SwapManager.record_cmd SwapManager.fstab map andb].
    rewrite app_nil_r.
    destruct (SwapManager.returncode _ =? 0)%Z eqn:Hrc; cbn [negb]; cbv zeta.
    + destruct (PyFloat.gt _ _); reflexivity.
    + reflexivity.
  - unfold Runtime.ret; cbn [SwapManager.issued SwapManager.fstab map].
    rewrite app_nil_r; destruct w; reflexivity.
Qed.

Ltac dialogue_ends r cmds :=
  subst r;
  cbn [fst snd Runtime.ret SwapManagerRun.record_cmd SwapManagerRun.disks
       SwapManagerRun.fstab SwapManagerRun.issued];
  split; [reflexivity|split; [reflexivity|]];
  exists cmds; split;
  [rewrite <- ?app_assoc; reflexivity|split; [reflexivity|try discriminate]].

Ltac dialogue_goes_on IH Hr cmds :=
  let Hd := fresh "Hd" in let Hf := fresh "Hf" in
  let probes := fresh "probes" in let Hi := fresh "Hi" in let Hp := fresh "Hp" in
  let Hs := fresh "Hs" in
  destruct (IH _ _ _ Hr) as (Hd & Hf & probes & Hi & Hp & Hs);
  split; [exact Hd|split; [exact Hf|]];
  exists (cmds ++ probes)%list;
  split; [rewrite Hi; cbn [SwapManagerRun.record_cmd SwapManagerRun.issued];
          rewrite <- ?app_assoc; reflexivity|];
  split; [rewrite forallb_app, Hp; reflexivity|];
  let size := fresh "size" in let Hsize := fresh "Hsize" in
  intros size Hsize;
  let k := fresh "k" in let before := fresh "before" in
  let E1 := fresh "E" in let E2 := fresh "E" in let E3 := fresh "E" in
  let E4 := fresh "E" in let E5 := fresh "E" in
  destruct (Hs size Hsize) as (k & before & E1 & E2 & E3 & E4 & E5);
  exists k, (cmds ++ before)%list;
  split; [exact E1|split; [exact E2|split; [exact E3|split]]];
  [rewrite E4, <- ?app_assoc; reflexivity
  |cbn [SwapManagerRun.record_cmd SwapManagerRun.issued] in E5;
   rewrite <- ?app_assoc in E5; rewrite <- ?app_assoc; exact E5].

(** The size loop only probes, and a size it hands on was accepted by
    [validate_size], fits the free space reported by the last probe and
    was confirmed. *)
Lemma ask_size_from_ends (sh : SwapManagerRun.shell) (u : SwapManagerRun.user)
    (disk : string) (fuel round : nat) (w : SwapManagerRun.world)
    (r : Runtime.outcome (option string) * SwapManagerRun.world) :
  r = SwapManagerRun.ask_size_from sh u disk round fuel w ->
  SwapManagerRun.disks (snd r) = SwapManagerRun.disks w /\
  SwapManagerRun.fstab (snd r) = SwapManagerRun.fstab w /\
  exists probes,
    SwapManagerRun.issued (snd r) = (SwapManagerRun.issued w ++ probes)%list /\
    forallb read_only probes = true /\
    forall size, fst r = Runtime.Returned (Some size) ->
      exists k before,
        size = SwapManagerRun.size_answer u k /\
        Size.validate_size size = true /\
        SwapManagerRun.size_confirmed u k = true /\
        probes = (before
                  ++ [SwapManagerRun.Partition (SwapManager.PartedPrintFree disk)])%list /\
        fits_reported_space sh (SwapManagerRun.issued w ++ before)%list disk size.
Proof.
  revert round w r; induction fuel as [|fuel IH]; intros round w r Hr.
  - cbn [SwapManagerRun.ask_size_from] in Hr.
    subst r; cbn [fst snd].
    split; [reflexivity|split; [reflexivity|]].
    exists []; split; [symmetry; apply app_nil_r|split; [reflexivity|discriminate]].
  - cbn [SwapManagerRun.ask_size_from] in Hr.
    destruct (Size.validate_size (SwapManagerRun.size_answer u round)) eqn:Hv;
      cbn [negb] in Hr; [|apply (IH _ _ _ Hr)].
    unfold Runtime.bind at 1 in Hr; rewrite check_step in Hr.
    destruct (SwapManager.read_request (SwapManagerRun.size_answer u round))
      as [[num unit]|] eqn:Hread.
    + cbv zeta in Hr.
      set (c := SwapManagerRun.Partition (SwapManager.PartedPrintFree disk)) in *.
      destruct (SwapManager.returncode (sh (SwapManagerRun.issued w) c) =? 0)%Z
        eqn:Hrc; [|dialogue_ends r [c]].
      apply Z.eqb_eq in Hrc.
      cbv iota beta in Hr; cbn [fst] in Hr.
      destruct (PyFloat.gt (SwapManager.size_in_gib num unit) _) eqn:Hgt;
        cbn [negb snd] in Hr.
      * destruct (PyFloat.to_int _) as [[]|available];
          [dialogue_ends r [c]|dialogue_ends r [c]|].
        unfold Runtime.bind at 1, SwapManagerRun.run_cmd at 1 in Hr; cbn [andb] in Hr.
        destruct (negb _); [dialogue_ends r [c; SwapManagerRun.PartedFreeMiB disk]|].
        destruct (String.eqb _ "y");
          [dialogue_ends r [c; SwapManagerRun.PartedFreeMiB disk]|].
        dialogue_goes_on IH Hr [c; SwapManagerRun.PartedFreeMiB disk].
      * destruct (SwapManagerRun.size_confirmed u round) eqn:Hc;
          [|dialogue_goes_on IH Hr [c]].
        dialogue_ends r [c].
        intros size Hsize; injection Hsize as <-.
        exists round, []; split; [reflexivity|split; [exact Hv|split; [exact Hc|]]].
        split; [reflexivity|].
        unfold fits_reported_space; rewrite app_nil_r; fold c.
        exists num, unit; split; [exact Hread|split; [exact Hrc|exact Hgt]].
    + cbv iota beta in Hr; cbn [fst snd negb PyFloat.to_int PyFloat.zero] in Hr.
      unfold Runtime.bind at 1, SwapManagerRun.run_cmd at 1 in Hr; cbn [andb] in Hr.
      destruct (negb _); [dialogue_ends r [SwapManagerRun.PartedFreeMiB disk]|].
      destruct (String.eqb _ "y"); [dialogue_ends r [SwapManagerRun.PartedFreeMiB disk]|].
      dialogue_goes_on IH Hr [SwapManagerRun.PartedFreeMiB disk].
Qed.

Lemma read_disks_rows (lines : list string) (found : list SwapManagerRun.disk) :
  SwapManagerRun.read_disks lines = inr found ->
  forall d, In d found ->
    exists row rest,
      In row lines /\
      SwapManagerRun.split_blank 4 false row
      = SwapManagerRun.name d :: SwapManagerRun.size d :: "disk" :: rest.
Proof.
  revert found; induction lines as [|line more IH]; intros found H d Hd.
  - injection H as <-; destruct Hd.
  - cbn [SwapManagerRun.read_disks] in H.
    destruct (SwapManagerRun.split_blank 4 false line) as [|n [|s [|t rest]]] eqn:Hrow;
      try discriminate H.
    destruct (SwapManagerRun.read_disks more) as [e|found'] eqn:Hmore; [discriminate H|].
    destruct (String.eqb t "disk") eqn:Ht; cbn [negb] in H; injection H as <-.
    + apply String.eqb_eq in Ht; subst t.
      destruct Hd as [<-|Hd].
      * exists line, rest; split; [left; reflexivity|exact Hrow].
      * destruct (IH found' eq_refl d Hd) as (row & rest' & Hin & E).
        exists row, rest'; split; [right; exact Hin|exact E].
    + destruct (IH found' eq_refl d Hd) as (row & rest' & Hin & E).
      exists row, rest'; split; [right; exact Hin|exact E].
Qed.

Lemma only_probes_show_partitions (sh : SwapManagerRun.shell)
    (found : list SwapManagerRun.disk) :
  only_probes (SwapManagerRun.show_partitions sh found).
Proof.
  induction found as [|d more IH]; cbn [SwapManagerRun.show_partitions].
  - apply (only_probes_still unit (Runtime.Returned tt)).
  - apply only_probes_bind; [apply only_probes_run_cmd; reflexivity|].
    intros partitions; destruct (forallb _ _); [exact IH|].
    apply (only_probes_still unit (Runtime.Raised Runtime.ValueError)).
Qed.

(** The listing only probes, and the disks it leaves are rows of type
    [disk] of its first command. *)
Lemma listing_ends (sh : SwapManagerRun.shell) (w : SwapManagerRun.world)
    (r : Runtime.outcome unit * SwapManagerRun.world) :
  r = SwapManagerRun.list_disks_and_partitions sh w ->
  SwapManagerRun.fstab (snd r) = SwapManagerRun.fstab w /\
  (exists probes,
      SwapManagerRun.issued (snd r) = (SwapManagerRun.issued w ++ probes)%list /\
      forallb read_only probes = true) /\
  (fst r = Runtime.Returned tt ->
   forall d, In d (SwapManagerRun.disks (snd r)) ->
     exists row rest,
       In row (PyStr.splitlines
                 (PyStr.strip
                    (SwapManager.stdout
                       (sh (SwapManagerRun.issued w) SwapManagerRun.LsblkDisks)))) /\
       SwapManagerRun.split_blank 4 false row
       = SwapManagerRun.name d :: SwapManagerRun.size d :: "disk" :: rest).
Proof.
  intros Hr.
  unfold SwapManagerRun.list_disks_and_partitions, Runtime.bind at 1,
    SwapManagerRun.run_cmd at 1 in Hr; cbn [andb] in Hr.
  destruct (negb _).
  - subst r; cbn [fst snd SwapManagerRun.record_cmd SwapManagerRun.fstab
                  SwapManagerRun.issued].
    split; [reflexivity|split; [|discriminate]].
    exists [SwapManagerRun.LsblkDisks]; split; reflexivity.
  - destruct (SwapManagerRun.read_disks _) as [e|found] eqn:Hread.
    + subst r; cbn [fst snd Runtime.raise SwapManagerRun.record_cmd SwapManagerRun.fstab
                    SwapManagerRun.issued].
      split; [reflexivity|split; [|discriminate]].
      exists [SwapManagerRun.LsblkDisks]; split; reflexivity.
    + match type of Hr with
      | _ = SwapManagerRun.show_partitions sh found ?w1 =>
          destruct (only_probes_show_partitions sh found w1)
            as (Hd & Hf & probes & Hi & Hp)
      end.
      rewrite <- Hr in Hd, Hf, Hi.
      cbn [SwapManagerRun.record_cmd SwapManagerRun.fstab SwapManagerRun.issued
           SwapManagerRun.disks] in Hd, Hf, Hi.
      split; [exact Hf|split].
      * exists ([SwapManagerRun.LsblkDisks] ++ probes)%list; split.
        -- rewrite Hi, <- app_assoc; reflexivity.
        -- rewrite forallb_app, Hp; reflexivity.
      * intros _ d Hin; rewrite Hd in Hin.
        apply (read_disks_rows _ _ Hread d Hin).
Qed.

(** X17. Whatever the machine and the user answer, [run] changes
    nothing without consent.  Its commands are read-only probes,
    followed by those of [create_swap_partition] if it is reached; and
    it is reached only for a disk that [lsblk] listed with type [disk],
    with a size that [validate_size] accepted, that fits the free space
    reported by the last probe and that the user confirmed, after the
    user agreed to continue.  Otherwise only probes were run and the
    mount table is as it was. *)
Theorem nothing_is_created_without_consent (sh : SwapManagerRun.shell)
    (u : SwapManagerRun.user) (timestamp : string) (fuel : nat)
    (w : SwapManagerRun.world) :
  let r := SwapManagerRun.run sh u timestamp fuel w in
  exists probes creation,
    SwapManagerRun.issued (snd r)
    = (SwapManagerRun.issued w ++ probes ++ creation)%list /\
    forallb read_only probes = true /\
    (creation = [] /\ SwapManagerRun.fstab (snd r) = SwapManagerRun.fstab w \/
     exists row disk_name disk_size rest k before,
       let disk := "/dev/" ++ disk_name in
       let size := SwapManagerRun.size_answer u k in
       let made :=
         SwapManager.create_swap_partition
           (fun done c =>
              sh ((SwapManagerRun.issued w ++ probes)
                  ++ map SwapManagerRun.Partition done)%list
                 (SwapManagerRun.Partition c))
           true timestamp disk size
           {| SwapManager.issued := []; SwapManager.fstab := SwapManagerRun.fstab w |} in
       In row (PyStr.splitlines
                 (PyStr.strip
                    (SwapManager.stdout
                       (sh (SwapManagerRun.issued w) SwapManagerRun.LsblkDisks)))) /\
       SwapManagerRun.split_blank 4 false row = disk_name :: disk_size :: "disk" :: rest /\
       SwapManagerRun.proceed u = true /\
       Size.validate_size size = true /\
       SwapManagerRun.size_confirmed u k = true /\
       probes = (before
                 ++ [SwapManagerRun.Partition (SwapManager.PartedPrintFree disk)])%list /\
       fits_reported_space sh (SwapManagerRun.issued w ++ before)%list disk size /\
       creation = map SwapManagerRun.Partition (SwapManager.issued (snd made)) /\
       SwapManagerRun.fstab (snd r) = SwapManager.fstab (snd made)).
Proof.
  cbv zeta.
  remember (SwapManagerRun.run sh u timestamp fuel w) as r eqn:Hr.
  unfold SwapManagerRun.run, Runtime.bind at 1 in Hr.
  destruct (listing_ends sh w _ eq_refl) as (Hf1 & (p1 & Hi1 & Hp1) & Hrows).
  assert (Hstop : forall (o : Runtime.outcome (option SwapManager.created))
                         (w' : SwapManagerRun.world) (p : list SwapManagerRun.command),
             r = (o, w') ->
             SwapManagerRun.fstab w' = SwapManagerRun.fstab w ->
             SwapManagerRun.issued w' = (SwapManagerRun.issued w ++ p)%list ->
             forallb read_only p = true ->
             exists probes creation,
               SwapManagerRun.issued (snd r)
               = (SwapManagerRun.issued w ++ probes ++ creation)%list /\
               forallb read_only probes = true /\
               (creation = [] /\ SwapManagerRun.fstab (snd r) = SwapManagerRun.fstab w \/
                exists row disk_name disk_size rest k before,
                  In row (PyStr.splitlines
                            (PyStr.strip
                               (SwapManager.stdout
                                  (sh (SwapManagerRun.issued w)
                                      SwapManagerRun.LsblkDisks)))) /\
                  SwapManagerRun.split_blank 4 false row
                  = disk_name :: disk_size :: "disk" :: rest /\
                  SwapManagerRun.proceed u = true /\
                  Size.validate_size (SwapManagerRun.size_answer u k) = true /\
                  SwapManagerRun.size_confirmed u k = true /\
                  probes = (before
                            ++ [SwapManagerRun.Partition
                                  (SwapManager.PartedPrintFree ("/dev/" ++ disk_name))])%list /\
                  fits_reported_space sh (SwapManagerRun.issued w ++ before)%list
                    ("/dev/" ++ disk_name) (SwapManagerRun.size_answer u k) /\
                  creation
                  = map SwapManagerRun.Partition
                      (SwapManager.issued
                         (snd (SwapManager.create_swap_partition
                                 (fun done c =>
                                    sh ((SwapManagerRun.issued w ++ probes)
                                        ++ map SwapManagerRun.Partition done)%list
                                       (SwapManagerRun.Partition c))
                                 true timestamp ("/dev/" ++ disk_name)
                                 (SwapManagerRun.size_answer u k)
                                 {| SwapManager.issued := [];
                                    SwapManager.fstab := SwapManagerRun.fstab w |}))) /\
                  SwapManagerRun.fstab (snd r)
                  = SwapManager.fstab
                      (snd (SwapManager.create_swap_partition
                              (fun done c =>
                                 sh ((SwapManagerRun.issued w ++ probes)
                                     ++ map SwapManagerRun.Partition done)%list
                                    (SwapManagerRun.Partition c))
                              true timestamp ("/dev/" ++ disk_name)
                              (SwapManagerRun.size_answer u k)
                              {| SwapManager.issued := [];
                                 SwapManager.fstab := SwapManagerRun.fstab w |})))).
  { intros o w' p -> Hf Hi Hp; exists p, []; cbn [snd].
    split; [rewrite app_nil_r; exact Hi|split; [exact Hp|left; split; [reflexivity|exact Hf]]]. }
  destruct (SwapManagerRun.list_disks_and_partitions sh w) as [[[]|e|c|] w1] eqn:E1;
    cbn [fst snd] in Hf1, Hi1, Hrows;
    try (apply (Hstop _ _ p1 Hr Hf1 Hi1 Hp1)).
  specialize (Hrows eq_refl).
  unfold SwapManagerRun.choose_disk_and_size_and_create, Runtime.bind at 1 in Hr.
  assert (Hchoice :
            snd (SwapManagerRun.choose_disk u fuel w1) = w1 /\
            forall selected,
              fst (SwapManagerRun.choose_disk u fuel w1) = Runtime.Returned selected ->
              exists d, In d (SwapManagerRun.disks w1) /\
                        selected = "/dev/" ++ SwapManagerRun.name d).
  { unfold SwapManagerRun.choose_disk.
    destruct (SwapManagerRun.disks w1) as [|d0 ds] eqn:Hds;
      [split; [reflexivity|discriminate]|].
    rewrite <- Hds.
    destruct (choose_disk_from_ends u fuel 0 w1) as (Hw & _ & _ & Hsel & _).
    split; [exact Hw|].
    intros selected Hs; destruct (Hsel selected Hs) as (k & n & d & _ & _ & _ & _ & Hn & _ & ->).
    exists d; split; [apply (nth_error_In _ _ Hn)|reflexivity]. }
  destruct Hchoice as (Hw2 & Hsel).
  destruct (SwapManagerRun.choose_disk u fuel w1) as [[disk|e|c|] w2];
    cbn [fst snd] in Hw2, Hsel; subst w2;
    try (apply (Hstop _ _ p1 Hr Hf1 Hi1 Hp1)).
  destruct (Hsel disk eq_refl) as (d & Hd & ->).
  destruct (Hrows d Hd) as (row & rest & Hrow & Hsplit).
  unfold Runtime.bind at 1 in Hr.
  destruct (ask_size_from_ends sh u ("/dev/" ++ SwapManagerRun.name d) fuel 0 w1 _ eq_refl)
    as (Hd3 & Hf3 & p3 & Hi3 & Hp3 & Hsize).
  assert (Hp13 : forallb read_only (p1 ++ p3) = true)
    by (rewrite forallb_app, Hp1, Hp3; reflexivity).
  destruct (SwapManagerRun.ask_size_from sh u ("/dev/" ++ SwapManagerRun.name d) 0 fuel w1)
    as [[[size|]|e|c|] w3];
    cbn [fst snd] in Hd3, Hf3, Hi3, Hsize;
    try (apply (Hstop _ _ (p1 ++ p3)%list Hr);
         [congruence|rewrite Hi3, Hi1, app_assoc; reflexivity|exact Hp13]).
  destruct (Hsize size eq_refl) as (k & before & -> & Hvalid & Hconf & -> & Hfits).
  unfold Runtime.bind at 1, SwapManagerRun.partition_step in Hr.
  assert (Hi : SwapManagerRun.issued w3
               = (SwapManagerRun.issued w
                  ++ (p1 ++ before
                      ++ [SwapManagerRun.Partition
                            (SwapManager.PartedPrintFree
                               ("/dev/" ++ SwapManagerRun.name d))]))%list)
    by (rewrite Hi3, Hi1, <- !app_assoc; reflexivity).
  assert (Hf : SwapManagerRun.fstab w3 = SwapManagerRun.fstab w) by congruence.
  rewrite Hf, Hi in Hr.
  destruct (SwapManagerRun.proceed u) eqn:Hgo.
  - set (probes := (p1 ++ before
                    ++ [SwapManagerRun.Partition
                          (SwapManager.PartedPrintFree
                             ("/dev/" ++ SwapManagerRun.name d))])%list) in *.
    remember (SwapManager.create_swap_partition
                (fun done c =>
                   sh ((SwapManagerRun.issued w ++ probes)
                       ++ map SwapManagerRun.Partition done)%list
                      (SwapManagerRun.Partition c))
                true timestamp ("/dev/" ++ SwapManagerRun.name d)
                (SwapManagerRun.size_answer u k)
                {| SwapManager.issued := []; SwapManager.fstab := SwapManagerRun.fstab w |})
      as made eqn:Hmade.
    exists probes, (map SwapManagerRun.Partition (SwapManager.issued (snd made))).
    split; [|split; [exact Hp13|right]].
    + rewrite Hr; destruct made as [[c|e|c|] w4];
        cbn [fst snd Runtime.ret SwapManagerRun.issued];
        rewrite <- !app_assoc; reflexivity.
    + exists row, (SwapManagerRun.name d), (SwapManagerRun.size d), rest, k, (p1 ++ before)%list.
      split; [exact Hrow|split; [exact Hsplit|split; [reflexivity|]]].
      split; [exact Hvalid|split; [exact Hconf|split; [unfold probes;
                                                        rewrite <- app_assoc; reflexivity|]]].
      split; [rewrite app_assoc; rewrite Hi1 in Hfits; exact Hfits|].
      rewrite <- Hmade; split; [reflexivity|].
      rewrite Hr; destruct made as [[c|e|c|] w4]; reflexivity.
  - apply (Hstop (Runtime.SysExit 0) w3
             (p1 ++ before
              ++ [SwapManagerRun.Partition
                    (SwapManager.PartedPrintFree ("/dev/" ++ SwapManagerRun.name d))])%list);
      [|exact Hf|exact Hi|exact Hp13].
    rewrite Hr; cbn [SwapManager.create_swap_partition negb Runtime.sys_exit
                     SwapManager.issued SwapManager.fstab map].
    rewrite app_nil_r, <- Hi, <- Hf; destruct w3; reflexivity.
Qed.

(** A run that reaches the creation: the second disk is chosen in the
    second round, the size is accepted in the second round. *)
Lemma run_reaches_the_creation :
  SwapManagerRun.issued
    (snd (SwapManagerRun.run Examples.two_disk_machine Examples.picks_second
            "20260101_000000" 3
            {| SwapManagerRun.disks := [];
               SwapManagerRun.issued := [];
               SwapManagerRun.fstab := Runtime.rw_fstab EmptyString |}))
  = [ SwapManagerRun.LsblkDisks;
      SwapManagerRun.LsblkPartitions "sda";
      SwapManagerRun.LsblkPartitions "sdb";
      SwapManagerRun.Partition (SwapManager.PartedPrintFree "/dev/sdb");
      SwapManagerRun.Partition
        (SwapManager.SfdiskDump "/dev/sdb"
           "/tmp/partition_table_sdb_20260101_000000.backup");
      SwapManagerRun.Partition (SwapManager.LsblkNames "/dev/sdb");
      SwapManagerRun.Partition (SwapManager.PartedPrint "/dev/sdb");
      SwapManagerRun.Partition (SwapManager.LsblkSize "/dev/sdb");
      SwapManagerRun.Partition (SwapManager.Mkpart "/dev/sdb" 0 (0 + (5 # 10)));
      SwapManagerRun.Partition (SwapManager.LsblkNames "/dev/sdb") ].
Proof. vm_compute; reflexivity. Qed.

(** ** The size of a cache directory *)

Lemma add_not_negative (x y : PyFloat.float) :
  not_negative x = true -> not_negative y = true ->
  not_negative (PyFloat.add x y) = true.
Proof.
  intros Hx Hy; unfold PyFloat.add.
  destruct x as [[]|[]| |[] mx ex], y as [[]|[]| |[] my ey];
    try discriminate Hx; try discriminate Hy; try reflexivity.
  cbn [SFadd cond_Zopp].
  destruct (shl_align mx ex _) as [a ea], (shl_align my ey _) as [b eb]; cbn [fst].
  change (Zpos a + Zpos b)%Z with (Zpos (a + b)).
  unfold binary_normalize, binary_round.
  destruct (shl_align (a + b) _ _) as [mz ez]; apply round_not_negative; lia.
Qed.

(** Adding [0.0] to a number not below zero changes nothing. *)
Lemma add_zero (x : PyFloat.float) :
  not_negative x = true -> PyFloat.add PyFloat.zero x = x.
Proof.
  destruct x as [[]|[]| |[] mx ex]; intros Hx; try discriminate Hx; reflexivity.
Qed.

Lemma of_int_not_negative (z : Z) :
  (0 <= z)%Z ->
  match PyFloat.of_int z with
  | inl e => e = PyFloat.OverflowError
  | inr x => not_negative x = true
  end.
Proof.
  intros Hz; unfold PyFloat.of_int, PyFloat.finite_or_overflow.
  pose proof (of_Z_not_negative z Hz) as H.
  destruct (PyFloat.of_Z z) as [s|s| |s m e]; try exact H; reflexivity.
Qed.

Lemma add_number_not_negative (a b : CacheCleaner.number) :
  size_not_negative a = true -> size_not_negative b = true ->
  size_or_overflow (CacheCleaner.add_number a b).
Proof.
  destruct a as [a|a], b as [b|b]; cbn [size_not_negative CacheCleaner.add_number];
    intros Ha Hb.
  - apply Z.leb_le in Ha, Hb; apply Z.leb_le; lia.
  - apply Z.leb_le in Ha; pose proof (of_int_not_negative a Ha) as H.
    destruct (PyFloat.of_int a) as [e|a']; [exact H|].
    apply add_not_negative; assumption.
  - apply Z.leb_le in Hb; pose proof (of_int_not_negative b Hb) as H.
    destruct (PyFloat.of_int b) as [e|b']; [exact H|].
    apply add_not_negative; assumption.
  - apply add_not_negative; assumption.
Qed.

Lemma in_megabytes_not_negative (a : CacheCleaner.number) :
  size_not_negative a = true -> size_or_overflow (CacheCleaner.in_megabytes a).
Proof.
  destruct a as [a|a]; cbn [size_not_negative CacheCleaner.in_megabytes]; intros Ha.
  - apply Z.leb_le in Ha; unfold PyFloat.true_div_int.
    destruct a as [|p|p]; [reflexivity| |lia].
    unfold PyFloat.finite_or_overflow.
    pose proof (ratio_not_negative p (1024 * 1024)) as H.
    destruct (PyFloat.ratio p (1024 * 1024)) as [s|s| |s m e]; try exact H; reflexivity.
  - assert (E : PyFloat.of_Z (1024 * 1024) = S754_finite false 4503599627370496 (-32))
      by (vm_compute; reflexivity).
    cbn [size_or_overflow size_not_negative]; rewrite E.
    apply div_not_negative, Ha.
Qed.

(** The loop over the entries keeps a total that is not below zero,
    once the calls for the subdirectories do. *)
Lemma total_not_negative (entries : list CacheCleaner.entry) :
  Forall (fun e => match e with
                   | CacheCleaner.directory sub =>
                       size_or_overflow (CacheCleaner.get_dir_size sub)
                   | _ => True
                   end) entries ->
  forall acc, size_or_overflow acc ->
    size_or_overflow
      (fold_left
         (fun total e =>
            match total with
            | inl err => inl err
            | inr t =>
                match e with
                | CacheCleaner.regular_file st_size =>
                    CacheCleaner.add_number t (CacheCleaner.Int (Z.of_N st_size))
                | CacheCleaner.directory sub =>
                    match CacheCleaner.get_dir_size sub with
                    | inl err => inl err
                    | inr r => CacheCleaner.add_number t r
                    end
                | CacheCleaner.special => inr t
                | CacheCleaner.inaccessible => inr t
                end
            end) entries acc).
Proof.
  induction 1 as [|e t He Ht IH]; intros acc Hacc; cbn [fold_left]; [exact Hacc|].
  apply IH.
  destruct acc as [err|a]; [exact Hacc|].
  destruct e as [n|sub| |]; try exact Hacc.
  - apply add_number_not_negative; [exact Hacc|].
    apply Z.leb_le; lia.
  - destruct (CacheCleaner.get_dir_size sub) as [err|r]; [exact He|].
    apply add_number_not_negative; [exact Hacc|exact He].
Qed.

Lemma get_dir_size_not_negative (d : CacheCleaner.dir) :
  size_or_overflow (CacheCleaner.get_dir_size d).
Proof.
  induction d as [|entries IH] using dir_induction; [reflexivity|].
  cbn [CacheCleaner.get_dir_size].
  pose proof (total_not_negative entries IH (inr (CacheCleaner.Int 0)) eq_refl) as H.
  destruct (fold_left _ entries _) as [err|total]; [exact H|].
  apply in_megabytes_not_negative, H.
Qed.

(** Without subdirectories the total stays an [int]: the bytes of the
    regular files. *)
Lemma flat_total (entries : list CacheCleaner.entry) :
  forallb (fun e => match e with
                    | CacheCleaner.directory _ => false
                    | _ => true
                    end) entries = true ->
  forall b : N,
    fold_left
      (fun total e =>
         match total with
         | inl err => inl err
         | inr t =>
             match e with
             | CacheCleaner.regular_file st_size =>
                 CacheCleaner.add_number t (CacheCleaner.Int (Z.of_N st_size))
             | CacheCleaner.directory sub =>
                 match CacheCleaner.get_dir_size sub with
                 | inl err => inl err
                 | inr r => CacheCleaner.add_number t r
                 end
             | CacheCleaner.special => inr t
             | CacheCleaner.inaccessible => inr t
             end
         end) entries (inr (CacheCleaner.Int (Z.of_N b)))
    = inr (CacheCleaner.Int
             (Z.of_N (fold_left
                        (fun total e =>
                           match e with
                           | CacheCleaner.regular_file st_size => total + st_size
                           | _ => total
                           end)%N entries b))).
Proof.
  induction entries as [|e t IH]; intros H b; cbn [fold_left]; [reflexivity|].
  cbn [forallb] in H; apply andb_true_iff in H as [He Ht].
  destruct e as [n|sub| |]; try discriminate He; try (apply (IH Ht)).
  cbn [CacheCleaner.add_number]; rewrite <- N2Z.inj_add; apply (IH Ht).
Qed.



(** A file of 3 MiB two directories down counts as 3 / 2**40 MB; a
    directory that holds only what cannot be read has the size [0.0]. *)
Example nested_and_rounded_sizes :
  CacheCleaner.get_dir_size
    (CacheCleaner.listing
       [CacheCleaner.directory
          (CacheCleaner.listing
             [CacheCleaner.directory
                (CacheCleaner.listing [CacheCleaner.regular_file 3145728])])])
  = inr (CacheCleaner.Float (PyFloat.ratio 3 (2 ^ 40))) /\
  CacheCleaner.get_dir_size
    (CacheCleaner.listing
       [CacheCleaner.directory CacheCleaner.unreadable; CacheCleaner.inaccessible])
  = inr (CacheCleaner.Float PyFloat.zero).
Proof. split; vm_compute; reflexivity. Qed.

